(** * CE_train: lazy dataset loading, multi-dataset iteration, field binding,
      optimizer construction and the epoch loop of [src/CE/CE_train.py].

    The development embeds the orchestration code of [CE_train.py] as Rocq
    functions over an explicit disk, an explicit option record and an event
    trace, and proves the properties of the training front end against it.

    Conventions of the embedding:
    - Python [int] is [Z]; option values of type [float] are only stored and
      handed on by this file, they are carried as [Q];
    - a Python exception is a value of [exn]; code that can raise lives in the
      monad [M], which also records the externally visible events in order;
    - a generator is a value holding its suspension point; [next] is a
      function from that value to an outcome and the resumed value;
    - [print] to standard output is not recorded. *)

From Stdlib Require Import ZArith QArith Lia Ascii String.
From stdpp Require Import base gmap strings list sorting.

Open Scope string_scope.
Open Scope Z_scope.
Open Scope list_scope.

(** ** Data *)

Definition token := string.

(** An example record.  Text examples always carry [src] and [tgt]; every
    other attribute of the instance dictionary (the NLI label [per], the
    running index, feature streams) is kept by name in [attrs]. *)
Record Example := mkExample {
  src : list token;
  tgt : list token;
  attrs : gmap string (list token)
}.

(** [ex.__dict__]: the attribute names of an example. *)
Definition example_dict (ex : Example) : gset string :=
  {[ "src"; "tgt" ]} ∪ dom (attrs ex).

Definition Vocab := list string.

Record Field := mkField {
  vocab : option Vocab
}.

Record Dataset := mkDataset {
  examples : list Example;
  data_type : string;
  ds_fields : gmap string Field
}.

Definition Batch := list Example.

(** The parsed command line, restricted to the options the functions below
    read.  (The module-level rewriting of the embedding sizes, layer counts
    and [brnn] touches options that only the model constructor reads; they
    are left out.) *)
Record Opt := mkOpt {
  data : string;
  save_model : string;
  gpuid : list Z;
  seed : Z;
  rnn_type : string;
  rnn_size : Z;
  start_epoch : Z;
  epochs : Z;
  train_from : string;
  d_train_from : string;
  batch_size : Z;
  batch_type : string;
  valid_batch_size : Z;
  normalization : string;
  accum_count : Z;
  truncated_decoder : Z;
  max_generator_batches : Z;
  g_optim : string;
  d_optim : string;
  nli_optim : string;
  g_learning_rate : Q;
  d_learning_rate : Q;
  nli_learning_rate : Q;
  max_grad_norm : Q;
  learning_rate_decay : Q;
  start_decay_at : Z;
  adam_beta1 : Q;
  adam_beta2 : Q;
  adagrad_accumulator_init : Q;
  decay_method : string;
  warmup_steps : Z;
  start_checkpoint_at : Z;
  exp_host : string;
  exp : string;
  copy_attn : bool;
  copy_attn_force : bool;
  label_smoothing : Q
}.

(** [opt.start_epoch = e] *)
Definition set_start_epoch (o : Opt) (e : Z) : Opt :=
  mkOpt (data o) (save_model o) (gpuid o) (seed o) (rnn_type o) (rnn_size o)
        e (epochs o) (train_from o) (d_train_from o) (batch_size o)
        (batch_type o) (valid_batch_size o) (normalization o) (accum_count o)
        (truncated_decoder o) (max_generator_batches o) (g_optim o)
        (d_optim o) (nli_optim o) (g_learning_rate o) (d_learning_rate o)
        (nli_learning_rate o) (max_grad_norm o) (learning_rate_decay o)
        (start_decay_at o) (adam_beta1 o) (adam_beta2 o)
        (adagrad_accumulator_init o) (decay_method o) (warmup_steps o)
        (start_checkpoint_at o) (exp_host o) (exp o) (copy_attn o)
        (copy_attn_force o) (label_smoothing o).

(** Modelled from the spec: [onmt.Optim] is not part of [CE_train.py].  The
    spec's Optimizer State couples the numeric optimizer's internal state
    (moment estimates, accumulators) with the scheduling metadata (current
    learning rate, step count, decay trigger epoch).  The record keeps the
    constructor arguments [build_optim] passes, the step counter, the numeric
    state and the parameters the optimizer is bound to. *)
Record Optim := mkOptim {
  method : string;
  lr : Q;
  optim_max_grad_norm : Q;
  lr_decay : Q;
  optim_start_decay_at : Z;
  beta1 : Q;
  beta2 : Q;
  adagrad_accum : Q;
  optim_decay_method : string;
  optim_warmup_steps : Z;
  model_size : Z;
  _step : Z;
  optimizer_state : list Q;
  params : list string
}.

(** A saved checkpoint: the dictionary [torch.load] returns for a file written
    by [drop_checkpoint], with the keys [CE_train.py] reads. *)
Record Checkpoint := mkCheckpoint {
  ck_opt : Opt;
  ck_epoch : Z;
  ck_optim : gmap string Optim
}.

(** The disk.  Files are kept by what was saved into them: dataset files
    written by preprocessing, vocabulary files, checkpoint files.  Each map
    answers for the paths at which the program expects that kind of object;
    whether a path exists at all is [on_disk], whether opening it fails for
    want of a file is [missing]. *)
Record Disk := mkDisk {
  dataset_files : gmap string Dataset;
  vocab_files : gmap string (list (string * Vocab));
  checkpoint_files : gmap string Checkpoint
}.

(** ** Exceptions, events and the monad *)

Inductive exn :=
| AssertionError (msg : string)
| FileNotFoundError (path : string)
| KeyError (key : string)
| IndexError
| TypeError
| ZeroDivisionError
| StopIteration
| SystemExit (code : Z)
| LibraryError (msg : string).

Inductive Event :=
| EvSeed (s : Z)
| EvCudaSeed (s : Z)
| EvSetDevice (d : Z)
| EvStderr (msg : string)
| EvCrayon (host : string)
| EvTorchLoad (path : string)
| EvYield (b : Batch)
| EvTrain (epoch : Z)
| EvValidate
| EvLog (tag : string)
| EvEpochStep (ppl : Q) (epoch : Z)
| EvDropCheckpoint (epoch : Z).

Inductive result (A : Type) :=
| Ok (a : A)
| Raise (e : exn).
Arguments Ok {A} a.
Arguments Raise {A} e.

(** A computation reads the trace so far and returns its outcome with the
    extended trace; events are appended in the order they happen. *)
Definition M (A : Type) : Type := list Event -> result A * list Event.

Definition ret {A} (a : A) : M A := fun t => (Ok a, t).

Definition bind {A B} (c : M A) (k : A -> M B) : M B :=
  fun t => match c t with
           | (Ok a, t') => k a t'
           | (Raise e, t') => (Raise e, t')
           end.

Definition raise {A} (e : exn) : M A := fun t => (Raise e, t).

Definition emit (ev : Event) : M unit := fun t => (Ok tt, t ++ [ev]).

Notation "x <- c ;; k" := (bind c (fun x => k))
  (at level 100, c at next level, right associativity).
Notation "c ;;; k" := (bind c (fun _ => k))
  (at level 100, right associativity).

(** ** File names: the pattern of [glob.glob] and the order of [sorted] *)

Fixpoint strip_prefix (p s : string) : option string :=
  match p with
  | EmptyString => Some s
  | String a p' =>
      match s with
      | String b s' => if Ascii.eqb a b then strip_prefix p' s' else None
      | EmptyString => None
      end
  end.

Definition ends_with (suffix s : string) : bool :=
  let n := String.length s in
  let m := String.length suffix in
  (m <=? n)%nat && String.eqb (String.substring (n - m) m s) suffix.

Fixpoint string_forallb (f : ascii -> bool) (s : string) : bool :=
  match s with
  | EmptyString => true
  | String a s' => f a && string_forallb f s'
  end.

(** The character class [[0-9]]. *)
Definition is_digit (a : ascii) : bool :=
  let n := nat_of_ascii a in (48 <=? n)%nat && (n <=? 57)%nat.

Definition is_sep (a : ascii) : bool := Ascii.eqb a "/"%char.

(** [fnmatch] of a name against [lit ++ "[0-9]*.pt"], where [lit] is matched
    literally: this is the pattern of [glob] for a path prefix that holds no
    pattern character ([plain_prefix] below), and the statements about the
    files that are found carry that condition.  The star ranges over the
    entries of one directory, so it never crosses a path separator. *)
Definition shard_match (lit name : string) : bool :=
  match strip_prefix lit name with
  | Some (String d rest) =>
      is_digit d && ends_with ".pt" rest
      && string_forallb (fun a => negb (is_sep a)) rest
  | _ => false
  end.

(** [glob.glob(lit + '[0-9]*.pt')]: the matching names, in the order the
    directory happens to list them. *)
Definition glob (disk : Disk) (lit : string) : list string :=
  filter (fun name => shard_match lit name = true)
         (map fst (map_to_list (dataset_files disk))).

(** [sorted] on a list of [str]: ascending by code point, position by
    position ([String.le] is the lexicographic order of [String.compare]). *)
Definition sorted (l : list string) : list string := merge_sort String.le l.

(** ** load_dataset *)

(** The generator object of [load_dataset]: created and not yet run,
    suspended at a [yield] with the shard paths still to visit, or finished. *)
Inductive generator :=
| GenCreated (corpus_type : string)
| GenSuspended (corpus_type : string) (pending : list string)
| GenFinished.

(** [torch.load] at a place where the program expects a dataset.  A path
    that is not a dataset file is answered as a path that does not exist;
    the statements about missing files say that the path is [missing]. *)
Definition torch_load_dataset (disk : Disk) (pt_file : string) : M Dataset :=
  emit (EvTorchLoad pt_file) ;;;
  match dataset_files disk !! pt_file with
  | Some dataset => ret dataset
  | None => raise (FileNotFoundError pt_file)
  end.

Definition dataset_loader (disk : Disk) (pt_file corpus_type : string)
  : M Dataset :=
  dataset <- torch_load_dataset disk pt_file ;;
  ret dataset.

Definition shard_pattern_prefix (opt : Opt) (corpus_type : string) : string :=
  data opt +:+ "." +:+ corpus_type +:+ ".".

Definition single_file (opt : Opt) (corpus_type : string) : string :=
  data opt +:+ "." +:+ corpus_type +:+ ".pt".

(** Calling [load_dataset] only builds the generator object: no statement of
    the body runs before the first [next]. *)
Definition load_dataset (corpus_type : string) : M generator :=
  ret (GenCreated corpus_type).

(** [next] on the generator of [load_dataset].  [None] stands for
    [StopIteration]. *)
Definition load_dataset_next (disk : Disk) (opt : Opt) (g : generator)
  : M (option Dataset * generator) :=
  match g with
  | GenCreated corpus_type =>
      if bool_decide (corpus_type ∈ ["train"; "valid"]) then
        let pts := sorted (glob disk (shard_pattern_prefix opt corpus_type)) in
        match pts with
        | pt :: rest =>
            d <- dataset_loader disk pt corpus_type ;;
            ret (Some d, GenSuspended corpus_type rest)
        | [] =>
            let pt := single_file opt corpus_type in
            d <- dataset_loader disk pt corpus_type ;;
            ret (Some d, GenSuspended corpus_type [])
        end
      else raise (AssertionError "")
  | GenSuspended corpus_type (pt :: rest) =>
      d <- dataset_loader disk pt corpus_type ;;
      ret (Some d, GenSuspended corpus_type rest)
  | GenSuspended _ [] => ret (None, GenFinished)
  | GenFinished => ret (None, GenFinished)
  end.

(** ** The lazily loaded sequence of datasets *)

(** What [DatasetIter] receives as [datasets]: the generator of
    [load_dataset], possibly behind [chain([first_dataset], ...)], whose
    already loaded head is [buffered]. *)
Record datasets_iter := mkDatasetsIter {
  buffered : list Dataset;
  source : generator
}.

Definition datasets_next (disk : Disk) (opt : Opt) (ds : datasets_iter)
  : M (option Dataset * datasets_iter) :=
  match buffered ds with
  | d :: rest => ret (Some d, mkDatasetsIter rest (source ds))
  | [] =>
      r <- load_dataset_next disk opt (source ds) ;;
      ret (fst r, mkDatasetsIter [] (snd r))
  end.

(** ** The ordered batch iterator *)

(** The cost function interface: [batch_size_fn(new, count, sofar)]. *)
Definition BatchSizeFn := Example -> Z -> Z -> Z.

Record OrderedIterator := mkOrderedIterator {
  oi_dataset : Dataset;
  oi_batch_size : Z;
  oi_batch_size_fn : option BatchSizeFn;
  oi_device : Z;
  oi_train : bool;
  oi_sort : bool;
  oi_sort_within_batch : bool;
  oi_repeat : bool
}.

(** Without a cost function a batch is measured by its number of examples. *)
Definition count_fn : BatchSizeFn := fun _ count _ => count.

(** Modelled from the spec: the batching loop of [onmt.io.OrderedIterator] is
    not part of [CE_train.py].  A batch grows, example by example in dataset
    order, while the running size reported by the cost function stays under
    the limit; it is emitted when the limit is met exactly, and when the limit
    is passed the batch is emitted without the example that passed it, which
    opens the next batch.  An emitted batch holds at least one example. *)
Fixpoint batch_loop (fn : BatchSizeFn) (limit : Z) (data : list Example)
    (minibatch : list Example) (size_so_far : Z) : list Batch :=
  match data with
  | [] => match minibatch with [] => [] | _ => [minibatch] end
  | ex :: data' =>
      let minibatch' := minibatch ++ [ex] in
      let size' := fn ex (Z.of_nat (length minibatch')) size_so_far in
      if size' =? limit then
        minibatch' :: batch_loop fn limit data' [] 0
      else if limit <? size' then
        match minibatch with
        | [] => batch_loop fn limit data' [ex] (fn ex 1 0)
        | _ => minibatch :: batch_loop fn limit data' [ex] (fn ex 1 0)
        end
      else batch_loop fn limit data' minibatch' size'
  end.

Definition batch (data : list Example) (limit : Z) (fn : option BatchSizeFn)
  : list Batch :=
  batch_loop (default count_fn fn) limit data [] 0.

(** Modelled from the spec: candidates within a batch are sorted by
    descending sequence length (of the source side); batches are never
    reordered. *)
Definition longer_first (x y : Example) : Prop :=
  (length (src y) <= length (src x))%nat.

#[global] Instance longer_first_dec x y : Decision (longer_first x y).
Proof. unfold longer_first. apply _. Defined.

Definition sort_within_batch (b : Batch) : Batch := merge_sort longer_first b.

(** Modelled from the spec: the batches one [OrderedIterator] yields, in
    order. *)
Definition create_batches (it : OrderedIterator) : list Batch :=
  map sort_within_batch
      (batch (examples (oi_dataset it)) (oi_batch_size it)
             (oi_batch_size_fn it)).

(** ** DatasetIter *)

Record DatasetIter := mkDatasetIter {
  datasets : datasets_iter;
  fields : gmap string Field;
  di_batch_size : Z;
  di_batch_size_fn : option BatchSizeFn;
  device : Z;
  is_train : bool;
  cur_dataset : option Dataset;
  cur_iter : option OrderedIterator
}.

Definition set_datasets (self : DatasetIter) (ds : datasets_iter) :=
  mkDatasetIter ds (fields self) (di_batch_size self) (di_batch_size_fn self)
                (device self) (is_train self) (cur_dataset self)
                (cur_iter self).

Definition set_cur_dataset (self : DatasetIter) (d : Dataset) :=
  mkDatasetIter (datasets self) (fields self) (di_batch_size self)
                (di_batch_size_fn self) (device self) (is_train self)
                (Some d) (cur_iter self).

Definition set_cur_iter (self : DatasetIter) (it : option OrderedIterator) :=
  mkDatasetIter (datasets self) (fields self) (di_batch_size self)
                (di_batch_size_fn self) (device self) (is_train self)
                (cur_dataset self) it.

(** [cur_dataset.fields = self.fields] *)
Definition bind_fields (d : Dataset) (fs : gmap string Field) : Dataset :=
  mkDataset (examples d) (data_type d) fs.

(** The iterator [_next_dataset_iterator] builds over a loaded dataset. *)
Definition ordered_iterator_for (self : DatasetIter) (d : Dataset)
  : OrderedIterator :=
  mkOrderedIterator d (di_batch_size self) (di_batch_size_fn self)
                    (device self) (is_train self) false true false.

(** [_next_dataset_iterator].  Its argument is [self.datasets] in [__init__]
    and the generator expression over [self.datasets] in [__iter__]: both
    advance the one underlying iterator, kept in [datasets self]. *)
Definition _next_dataset_iterator (disk : Disk) (opt : Opt)
    (self : DatasetIter) : M (option OrderedIterator * DatasetIter) :=
  r <- datasets_next disk opt (datasets self) ;;
  let self := set_datasets self (snd r) in
  match fst r with
  | None => ret (None, self)
  | Some d =>
      let d := bind_fields d (fields self) in
      let self := set_cur_dataset self d in
      ret (Some (ordered_iterator_for self d), self)
  end.

(** [DatasetIter.__init__] *)
Definition DatasetIter_init (disk : Disk) (opt : Opt) (ds : datasets_iter)
    (fs : gmap string Field) (bsz : Z) (bfn : option BatchSizeFn)
    (dev : Z) (train : bool) : M DatasetIter :=
  let self := mkDatasetIter ds fs bsz bfn dev train None None in
  r <- _next_dataset_iterator disk opt self ;;
  let self := set_cur_iter (snd r) (fst r) in
  match cur_iter self with
  | Some _ => ret self
  | None => raise (AssertionError "")
  end.

(** [for batch in self.cur_iter: yield batch] *)
Fixpoint yield_all (bs : list Batch) : M unit :=
  match bs with
  | [] => ret tt
  | b :: bs' => emit (EvYield b) ;;; yield_all bs'
  end.

(** [DatasetIter.__iter__], driven to exhaustion by its consumer.  Every
    round of the [while] loop takes one unit of [fuel]; the outcome is the
    batches yielded and the iterator object afterwards, [None] when the fuel
    ran out first. *)
Fixpoint DatasetIter_iter (fuel : nat) (disk : Disk) (opt : Opt)
    (self : DatasetIter) : M (option (list Batch * DatasetIter)) :=
  match fuel with
  | O => ret None
  | S fuel' =>
      match cur_iter self with
      | None => ret (Some ([], self))
      | Some it =>
          let bs := create_batches it in
          yield_all bs ;;;
          r <- _next_dataset_iterator disk opt self ;;
          let self := set_cur_iter (snd r) (fst r) in
          rest <- DatasetIter_iter fuel' disk opt self ;;
          ret (match rest with
               | Some (bs', self') => Some (bs ++ bs', self')
               | None => None
               end)
      end
  end.

(** ** make_dataset_iter *)

Definition token_cost (new : Example) : Z :=
  Z.max (Z.of_nat (length (tgt new))) (Z.of_nat (length (src new))) + 1.

(** The inner [batch_size_fn] of [make_dataset_iter]. *)
Definition batch_size_fn : BatchSizeFn :=
  fun new count sofar =>
    sofar + Z.max (Z.of_nat (length (tgt new))) (Z.of_nat (length (src new)))
    + 1.

Definition make_dataset_iter (disk : Disk) (gopt : Opt) (ds : datasets_iter)
    (fs : gmap string Field) (opt : Opt) (train : bool) : M DatasetIter :=
  let bsz := if train then batch_size opt else valid_batch_size opt in
  let bfn :=
    if train && bool_decide (batch_type opt = "tokens")
    then Some batch_size_fn else None in
  let dev := match gpuid opt with d :: _ => d | [] => -1 end in
  DatasetIter_init disk gopt ds fs bsz bfn dev train.

(** ** The library behind the front end *)

(** The parts of [onmt] that [CE_train.py] calls and that live outside it:
    the vocabulary loader, the model constructor, the loss objects, the
    statistics record and the [Trainer].  Each is a capability with the
    signature the call sites use; a call that fails returns [Raise]. *)
Class Onmt := {
  Stats : Type;
  n_acc : Stats -> Q;
  n_batch : Stats -> Z;
  stats_ppl : Stats -> Q;
  Model : Type;
  parameters : Model -> list string;
  data_parallel : Model -> list Z -> Model;
  Generator : Type;
  generator_of : Model -> Generator;
  Loss : Type;
  CopyGeneratorLossCompute : Generator -> option Vocab -> bool -> Loss;
  NMTLossCompute : Generator -> option Vocab -> Q -> Loss;
  loss_cuda : Loss -> Loss;
  Trainer : Type;
  Trainer_new :
    Model -> Model -> Model -> Loss -> Loss -> Optim -> Optim -> Optim ->
    Z -> Z -> string -> string -> Z -> Trainer;
  trainer_train : Trainer -> list Batch -> Z -> result (Stats * Trainer);
  trainer_validate : Trainer -> list Batch -> result Stats;
  trainer_epoch_step : Trainer -> Q -> Z -> result Trainer;
  trainer_drop_checkpoint :
    Trainer -> Opt -> Z -> gmap string Field -> Stats -> result unit;
  load_fields_from_vocab :
    list (string * Vocab) -> string -> result (gmap string Field);
  make_base_model :
    Opt -> gmap string Field -> bool -> option Checkpoint ->
    option Checkpoint -> result (Model * Model * Model)
}.

Definition lift {A} (r : result A) : M A := fun t => (r, t).

(** ** build_optim *)

(** Modelled from the spec: the constructor of [onmt.Optim], which is outside
    [CE_train.py].  An optimizer state created fresh has taken no step and has
    no numeric state or parameters yet. *)
Definition Optim_new (method : string) (lr max_grad_norm lr_decay : Q)
    (start_decay_at : Z) (beta1 beta2 adagrad_accum : Q)
    (decay_method : string) (warmup_steps model_size : Z) : Optim :=
  mkOptim method lr max_grad_norm lr_decay start_decay_at beta1 beta2
          adagrad_accum decay_method warmup_steps model_size 0 [] [].

(** Modelled from the spec: [Optim.set_parameters] binds the optimizer's
    parameter groups to the parameters of the freshly built model. *)
Definition set_parameters (o : Optim) (ps : list string) : Optim :=
  mkOptim (method o) (lr o) (optim_max_grad_norm o) (lr_decay o)
          (optim_start_decay_at o) (beta1 o) (beta2 o) (adagrad_accum o)
          (optim_decay_method o) (optim_warmup_steps o) (model_size o)
          (_step o) (optimizer_state o) ps.

(** Truth value of a [str] and of a loaded checkpoint in a condition. *)
Definition truthy (s : string) : bool := negb (String.eqb s "").

(** [use_gpu(opt)] *)
Definition use_gpu (opt : Opt) : bool :=
  match gpuid opt with [] => false | _ => true end.

Section FrontEnd.
Context `{onmt : Onmt}.

Definition build_optim (opt : Opt) (model : Model)
    (checkpoint : option Checkpoint) (type : string) (optim : string)
    (learning_rate : Q) : M Optim :=
  optim <-
    (if truthy (train_from opt) && bool_decide (is_Some checkpoint) && false
     then
       match checkpoint with
       | Some ck =>
           match ck_optim ck !! type with
           | Some saved => ret saved
           | None => raise (KeyError type)
           end
       | None => raise TypeError
       end
     else
       ret (Optim_new optim learning_rate (max_grad_norm opt)
              (learning_rate_decay opt) (start_decay_at opt)
              (adam_beta1 opt) (adam_beta2 opt)
              (adagrad_accumulator_init opt) (decay_method opt)
              (warmup_steps opt) (rnn_size opt))) ;;
  ret (set_parameters optim (parameters model)).

(** ** load_fields *)

Definition vocab_file (opt : Opt) : string := data opt +:+ ".vocab.pt".

Definition set_vocab (f : Field) (v : option Vocab) : Field := mkField v.

(** [len(fields[k].vocab)] *)
Definition vocab_len (fs : gmap string Field) (k : string) : M Z :=
  match fs !! k with
  | None => raise (KeyError k)
  | Some f =>
      match vocab f with
      | None => raise TypeError
      | Some v => ret (Z.of_nat (length v))
      end
  end.

Definition load_fields (disk : Disk) (opt : Opt) (dataset : Dataset)
    (data_type : string) (checkpoint : option Checkpoint)
  : M (gmap string Field) :=
  emit (EvTorchLoad (vocab_file opt)) ;;;
  raw <- match vocab_files disk !! vocab_file opt with
         | Some raw => ret raw
         | None => raise (FileNotFoundError (vocab_file opt))
         end ;;
  fields <- lift (load_fields_from_vocab raw data_type) ;;
  (* the condition of the comprehension reads [dataset.examples[0]] once per
     item, so an empty field dictionary never touches the examples *)
  fields <-
    (if bool_decide (fields = ∅) then ret fields
     else match examples dataset with
          | [] => raise IndexError
          | ex :: _ =>
              ret (filter (fun kf => kf.1 ∈ example_dict ex) fields)
          end) ;;
  (* fields['per'].vocab = fields['tgt'].vocab *)
  tgt_field <- match fields !! "tgt" with
               | Some f => ret f
               | None => raise (KeyError "tgt")
               end ;;
  per_field <- match fields !! "per" with
               | Some f => ret f
               | None => raise (KeyError "per")
               end ;;
  let fields := <["per" := set_vocab per_field (vocab tgt_field)]> fields in
  (if bool_decide (data_type = "text")
   then _ <- vocab_len fields "src" ;; _ <- vocab_len fields "tgt" ;; ret tt
   else _ <- vocab_len fields "tgt" ;; ret tt) ;;;
  ret fields.

(** ** make_loss_compute *)

Definition make_loss_compute (model : Model) (tgt_vocab : option Vocab)
    (opt : Opt) : Loss :=
  let compute :=
    if copy_attn opt
    then CopyGeneratorLossCompute (generator_of model) tgt_vocab
                                  (copy_attn_force opt)
    else NMTLossCompute (generator_of model) tgt_vocab (label_smoothing opt)
  in
  if use_gpu opt then loss_cuda compute else compute.

(** ** train_model *)

(** [range(a, b)] *)
Definition range (a b : Z) : list Z :=
  map (fun i => a + Z.of_nat i) (seq 0 (Z.to_nat (b - a))).

(** The consumer's [for batch in it]: [__iter__] run to exhaustion.  The
    [while] loop makes one round per dataset still to come and a last one
    that finds no iterator. *)
Definition pending_paths (disk : Disk) (opt : Opt) (g : generator)
  : list string :=
  match g with
  | GenCreated corpus_type =>
      if bool_decide (corpus_type ∈ ["train"; "valid"]) then
        match sorted (glob disk (shard_pattern_prefix opt corpus_type)) with
        | [] => [single_file opt corpus_type]
        | pts => pts
        end
      else []
  | GenSuspended _ pending => pending
  | GenFinished => []
  end.

Definition rounds (disk : Disk) (opt : Opt) (self : DatasetIter) : nat :=
  S (S (length (buffered (datasets self))
        + length (pending_paths disk opt (source (datasets self))))).

Definition consume (disk : Disk) (opt : Opt) (self : DatasetIter)
  : M (list Batch) :=
  r <- DatasetIter_iter (rounds disk opt self) disk opt self ;;
  match r with
  | Some (bs, _) => ret bs
  | None => raise (LibraryError "iteration did not finish")
  end.

Definition generator_iter (g : generator) : datasets_iter :=
  mkDatasetsIter [] g.

(** One round of the [for epoch in range(...)] loop of [train_model]. *)
Definition train_epoch (disk : Disk) (opt : Opt) (model_opt : Opt)
    (fields : gmap string Field) (trainer : Trainer) (epoch : Z)
  : M Trainer :=
  (* 1. Train for one epoch on the training set. *)
  train_datasets <- load_dataset "train" ;;
  train_iter <-
    make_dataset_iter disk opt (generator_iter train_datasets) fields opt
                      true ;;
  emit (EvTrain epoch) ;;;
  train_batches <- consume disk opt train_iter ;;
  r <- lift (trainer_train trainer train_batches epoch) ;;
  let train_stats := fst r in
  let trainer := snd r in
  (if n_batch train_stats =? 0 then raise ZeroDivisionError else ret tt) ;;;
  (* 2. Validate on the validation set. *)
  valid_datasets <- load_dataset "valid" ;;
  valid_iter <-
    make_dataset_iter disk opt (generator_iter valid_datasets) fields opt
                      false ;;
  emit EvValidate ;;;
  valid_batches <- consume disk opt valid_iter ;;
  valid_stats <- lift (trainer_validate trainer valid_batches) ;;
  (* 3. Log to remote server. *)
  (if truthy (exp_host opt)
   then emit (EvLog "train") ;;; emit (EvLog "valid")
   else ret tt) ;;;
  (* 4. Update the learning rate *)
  emit (EvEpochStep (stats_ppl valid_stats) epoch) ;;;
  trainer <- lift (trainer_epoch_step trainer (stats_ppl valid_stats) epoch) ;;
  (* 5. Drop a checkpoint if needed. *)
  (if bool_decide (start_checkpoint_at opt <= epoch)
   then
     emit (EvDropCheckpoint epoch) ;;;
     lift (trainer_drop_checkpoint trainer model_opt epoch fields valid_stats)
   else ret tt) ;;;
  ret trainer.

Fixpoint train_epochs (disk : Disk) (opt : Opt) (model_opt : Opt)
    (fields : gmap string Field) (trainer : Trainer) (es : list Z)
  : M Trainer :=
  match es with
  | [] => ret trainer
  | epoch :: es' =>
      trainer <- train_epoch disk opt model_opt fields trainer epoch ;;
      train_epochs disk opt model_opt fields trainer es'
  end.

Definition train_model (disk : Disk) (opt : Opt) (model disc nli : Model)
    (fields : gmap string Field) (g_optim d_optim nli_optim : Optim)
    (data_type : string) (model_opt : Opt) : M unit :=
  tgt_vocab <- match fields !! "tgt" with
               | Some f => ret (vocab f)
               | None => raise (KeyError "tgt")
               end ;;
  let train_loss := make_loss_compute model tgt_vocab opt in
  let valid_loss := make_loss_compute model tgt_vocab opt in
  let trunc_size := truncated_decoder opt in
  let shard_size := max_generator_batches opt in
  let trainer :=
    Trainer_new model disc nli train_loss valid_loss g_optim d_optim
                nli_optim trunc_size shard_size data_type
                (normalization opt) (accum_count opt) in
  _ <- train_epochs disk opt model_opt fields trainer
         (range (start_epoch opt) (epochs opt + 1)) ;;
  ret tt.

(** ** Module level and main *)

Definition newline : string := String (ascii_of_nat 10) EmptyString.

Definition multigpu_message : string :=
  "Sorry, multigpu isn't supported yet, coming soon!" +:+ newline.

(** The statements [CE_train.py] runs on import, after the options are
    parsed and before [main()] is called. *)
Definition module_level (opt : Opt) : M unit :=
  (if 0 <? seed opt then emit (EvSeed (seed opt)) else ret tt) ;;;
  (if String.eqb (rnn_type opt) "SRU" && negb (use_gpu opt)
   then raise (AssertionError "Using SRU requires -gpuid set.")
   else ret tt) ;;;
  (match gpuid opt with
   | d :: _ =>
       emit (EvSetDevice d) ;;;
       (if 0 <? seed opt then emit (EvCudaSeed (seed opt)) else ret tt)
   | [] => ret tt
   end) ;;;
  (if (1 <? length (gpuid opt))%nat
   then
     emit (EvStderr multigpu_message) ;;;
     raise (SystemExit 1)
   else ret tt) ;;;
  (if truthy (exp_host opt) then emit (EvCrayon (exp_host opt)) else ret tt).

(** [torch.load] at a place where the program expects a checkpoint, with
    the same reading of a path that is not a checkpoint file. *)
Definition torch_load_checkpoint (disk : Disk) (path : string)
  : M Checkpoint :=
  emit (EvTorchLoad path) ;;;
  match checkpoint_files disk !! path with
  | Some ck => ret ck
  | None => raise (FileNotFoundError path)
  end.

(** The [if opt.train_from: ... else: ...] block of [main]: the checkpoint,
    the discriminator checkpoint, [model_opt] and the updated [opt]. *)
Definition main_checkpoint (disk : Disk) (opt : Opt)
  : M (option Checkpoint * option Checkpoint * Opt * Opt) :=
  if truthy (train_from opt) then
    checkpoint <- torch_load_checkpoint disk (train_from opt) ;;
    let model_opt := ck_opt checkpoint in
    let opt := set_start_epoch opt (ck_epoch checkpoint + 1) in
    d_checkpoint <-
      (if truthy (d_train_from opt)
       then ck <- torch_load_checkpoint disk (d_train_from opt) ;;
            ret (Some ck)
       else ret None) ;;
    ret (Some checkpoint, d_checkpoint, model_opt, opt)
  else ret (None, None, opt, opt).

Definition build_model (model_opt opt : Opt) (fields : gmap string Field)
    (checkpoint d_checkpoint : option Checkpoint)
  : M (Model * Model * Model) :=
  r <- lift (make_base_model model_opt fields (use_gpu opt) checkpoint
                             d_checkpoint) ;;
  let model := r.1.1 in
  let model :=
    if (1 <? length (gpuid opt))%nat
    then data_parallel model (gpuid opt) else model in
  ret (model, r.1.2, r.2).

Definition main (disk : Disk) (opt : Opt) : M unit :=
  train_datasets <- load_dataset "train" ;;
  (* Peek the first dataset to determine the data_type. *)
  r <- load_dataset_next disk opt train_datasets ;;
  first_dataset <- match fst r with
                   | Some d => ret d
                   | None => raise StopIteration
                   end ;;
  let train_datasets := mkDatasetsIter [first_dataset] (snd r) in
  let data_type := data_type first_dataset in
  ck <- main_checkpoint disk opt ;;
  let checkpoint := ck.1.1.1 in
  let d_checkpoint := ck.1.1.2 in
  let model_opt := ck.1.2 in
  let opt := ck.2 in
  (* Load fields generated from preprocess phase. *)
  fields <- load_fields disk opt first_dataset data_type checkpoint ;;
  (* Report src/tgt features: [collect_report_features] only prints. *)
  (* Build model.  [tally_parameters] only prints, and
     [check_save_model_path] creates the directory of [save_model]; neither
     is recorded. *)
  ms <- build_model model_opt opt fields checkpoint d_checkpoint ;;
  let model := ms.1.1 in
  let disc := ms.1.2 in
  let nli := ms.2 in
  (* Build optimizer. *)
  g_optim <- build_optim opt model checkpoint "g_optim" (g_optim opt)
                         (g_learning_rate opt) ;;
  d_optim <- build_optim opt disc checkpoint "d_optim" (d_optim opt)
                         (d_learning_rate opt) ;;
  nli_optim <- build_optim opt nli checkpoint "nli_optim" (nli_optim opt)
                           (nli_learning_rate opt) ;;
  (* Do training. *)
  train_model disk opt model disc nli fields g_optim d_optim nli_optim
              data_type model_opt.

(** The whole script: the module-level statements, then [main()]. *)
Definition program (disk : Disk) (opt : Opt) : M unit :=
  module_level opt ;;; main disk opt.

End FrontEnd.

(** ** Reading a computation *)

(** The outcome and the events of a computation started on an empty trace. *)
Definition outcome {A} (c : M A) : result A := (c []).1.
Definition events {A} (c : M A) : list Event := (c []).2.

(** The paths handed to [torch.load], in order. *)
Definition loads (t : list Event) : list string :=
  omap (fun ev => match ev with EvTorchLoad p => Some p | _ => None end) t.

(** ** A concrete installation, for running the definitions *)

Module Demo.

Definition opt : Opt :=
  mkOpt "data" "model" [0] (-1) "LSTM" 500 1 2 "" "" 64 "sents" 32 "sents" 1
        0 32 "adam" "adam" "adam" (1 # 1000) (1 # 1000) (1 # 1000) 5 (1 # 2)
        8 (9 # 10) (999 # 1000) 0 "" 4000 0 "" "" false false 0.

(** The same options with the dynamic policy and a budget of 3 tokens. *)
Definition opt_tokens : Opt :=
  mkOpt "data" "model" [0] (-1) "LSTM" 500 1 2 "" "" 3 "tokens" 32 "sents" 1
        0 32 "adam" "adam" "adam" (1 # 1000) (1 # 1000) (1 # 1000) 5 (1 # 2)
        8 (9 # 10) (999 # 1000) 0 "" 4000 0 "" "" false false 0.

(** The first options, resuming from the checkpoint file, for three epochs. *)
Definition opt_resume : Opt :=
  mkOpt "data" "model" [0] (-1) "LSTM" 500 1 3 "model_e1.pt" "" 64 "sents" 32
        "sents" 1 0 32 "adam" "adam" "adam" (1 # 1000) (1 # 1000) (1 # 1000)
        5 (1 # 2) 8 (9 # 10) (999 # 1000) 0 "" 4000 0 "" "" false false 0.

(** An SRU model with no device, and a request for two devices. *)
Definition opt_sru : Opt :=
  mkOpt "data" "model" [] 7 "SRU" 500 1 2 "" "" 64 "sents" 32 "sents" 1
        0 32 "adam" "adam" "adam" (1 # 1000) (1 # 1000) (1 # 1000) 5 (1 # 2)
        8 (9 # 10) (999 # 1000) 0 "" 4000 0 "" "" false false 0.

Definition opt_multigpu : Opt :=
  mkOpt "data" "model" [0; 1] 7 "LSTM" 500 1 2 "" "" 64 "sents" 32 "sents" 1
        0 32 "adam" "adam" "adam" (1 # 1000) (1 # 1000) (1 # 1000) 5 (1 # 2)
        8 (9 # 10) (999 # 1000) 0 "" 4000 0 "" "" false false 0.

Definition ex (s t : list token) : Example :=
  mkExample s t {[ "per" := ["entailment"] ]}.

Definition shard_a : Dataset :=
  mkDataset [ex ["a"] ["b"]; ex ["a"; "a"] ["b"]; ex ["a"] ["b"; "b"; "b"]]
            "text" ∅.

Definition shard_b : Dataset :=
  mkDataset [ex ["c"; "c"] ["d"]; ex ["c"] ["d"]] "text" ∅.

Definition valid_set : Dataset :=
  mkDataset [ex ["e"] ["f"]] "text" ∅.

Definition raw_vocab : list (string * Vocab) :=
  [("src", ["a"; "c"; "e"]); ("tgt", ["b"; "d"; "f"]);
   ("per", ["entailment"])].

(** The field dictionary [load_fields] builds from [raw_vocab]. *)
Definition loaded_fields : gmap string Field :=
  <["src" := mkField (Some ["a"; "c"; "e"])]>
    (<["tgt" := mkField (Some ["b"; "d"; "f"])]>
       {[ "per" := mkField (Some ["b"; "d"; "f"]) ]}).

Definition saved_optim : Optim :=
  mkOptim "adam" (1 # 4000) 5 (1 # 2) 8 (9 # 10) (999 # 1000) 0 "" 4000 500
          1200 [1 # 3; 2 # 7] ["encoder.weight"].

Definition checkpoint : Checkpoint :=
  mkCheckpoint opt 1
    (<["g_optim" := saved_optim]>
       (<["d_optim" := saved_optim]> {[ "nli_optim" := saved_optim ]})).

(** The training iterator of [opt_tokens] over [disk] right after
    construction, the batches it yields, and the iterator once exhausted. *)
Definition token_iter : DatasetIter :=
  mkDatasetIter
    (mkDatasetsIter [] (GenSuspended "train" ["data.train.1.pt"]))
    ∅ 3 (Some batch_size_fn) 0 true (Some shard_a)
    (Some (mkOrderedIterator shard_a 3 (Some batch_size_fn) 0 true
                             false true false)).

Definition token_batches : list Batch :=
  [[ex ["a"] ["b"]]; [ex ["a"; "a"] ["b"]]; [ex ["a"] ["b"; "b"; "b"]];
   [ex ["c"; "c"] ["d"]]; [ex ["c"] ["d"]]].

Definition token_iter_end : DatasetIter :=
  mkDatasetIter (mkDatasetsIter [] GenFinished)
    ∅ 3 (Some batch_size_fn) 0 true (Some shard_b) None.

(** Two numbered training shards, a validation file, the vocabulary and a
    checkpoint saved after epoch 1. *)
Definition disk : Disk :=
  mkDisk
    (<["data.train.0.pt" := shard_a]>
       (<["data.train.1.pt" := shard_b]> {[ "data.valid.pt" := valid_set ]}))
    {[ "data.vocab.pt" := raw_vocab ]}
    {[ "model_e1.pt" := checkpoint ]}.

(** Eleven numbered training shards, as preprocessing writes them. *)
Definition shard_names : list string :=
  ["data.train.0.pt"; "data.train.1.pt"; "data.train.2.pt";
   "data.train.3.pt"; "data.train.4.pt"; "data.train.5.pt";
   "data.train.6.pt"; "data.train.7.pt"; "data.train.8.pt";
   "data.train.9.pt"; "data.train.10.pt"].

Definition disk_11 : Disk :=
  mkDisk (list_to_map (map (fun name => (name, shard_b)) shard_names)) ∅ ∅.

Definition empty_disk : Disk := mkDisk ∅ ∅ ∅.

(** A stand-in library: statistics count batches, models are their parameter
    names, every trainer call succeeds. *)
#[local] Instance lib : Onmt := {|
  Stats := Z;
  n_acc := fun _ => 0%Q;
  n_batch := fun s => s;
  stats_ppl := fun s => inject_Z s;
  Model := list string;
  parameters := fun m => m;
  data_parallel := fun m _ => m;
  Generator := unit;
  generator_of := fun _ => tt;
  Loss := unit;
  CopyGeneratorLossCompute := fun _ _ _ => tt;
  NMTLossCompute := fun _ _ _ => tt;
  loss_cuda := fun l => l;
  Trainer := unit;
  Trainer_new := fun _ _ _ _ _ _ _ _ _ _ _ _ _ => tt;
  trainer_train := fun _ bs _ => Ok (Z.of_nat (length bs), tt);
  trainer_validate := fun _ bs => Ok (Z.of_nat (length bs));
  trainer_epoch_step := fun _ _ _ => Ok tt;
  trainer_drop_checkpoint := fun _ _ _ _ _ => Ok tt;
  load_fields_from_vocab := fun raw _ =>
    Ok (list_to_map (map (fun kv => (kv.1, mkField (Some kv.2))) raw));
  make_base_model := fun _ _ _ _ _ =>
    Ok (["encoder.weight"], ["disc.weight"], ["nli.weight"])
|}.

End Demo.

(** ** Vocabulary of the statements *)

(** A training iterator built over [load_dataset("train")] and iterated for
    [fuel] rounds. *)
Definition iterate_train (disk : Disk) (opt : Opt) (fuel : nat)
  : M (option (list Batch * DatasetIter)) :=
  train_datasets <- load_dataset "train" ;;
  train_iter <-
    make_dataset_iter disk opt (generator_iter train_datasets) ∅ opt true ;;
  DatasetIter_iter fuel disk opt train_iter.

(** The total cost of a batch, in the spec's words: the sum over its examples
    of [max(len(tgt), len(src)) + 1]. *)
Definition total_cost (b : Batch) : Z :=
  foldr (fun ex acc => token_cost ex + acc) 0 b.

(** A batch respects the budget, or is one example that alone exceeds it. *)
Definition within_budget (budget : Z) (b : Batch) : Prop :=
  total_cost b <= budget \/ exists ex, b = [ex] /\ budget < token_cost ex.

(** The generator will not fail its own assertion when first resumed. *)
Definition gen_valid (g : generator) : Prop :=
  match g with
  | GenCreated corpus_type => corpus_type ∈ ["train"; "valid"]
  | _ => True
  end.

#[global] Instance gen_valid_dec g : Decision (gen_valid g).
Proof. destruct g; simpl; apply _. Defined.

(** An item of the lazy sequence: the dataset, and the path it is read from
    when it is not loaded yet. *)
Definition item : Type := option string * Dataset.

Definition load_event (it : item) : list Event :=
  match it.1 with Some p => [EvTorchLoad p] | None => [] end.

(** The datasets a lazy sequence supplies when every file it still has to
    read is on disk. *)
Definition supply (disk : Disk) (opt : Opt) (ds : datasets_iter)
  : option (list item) :=
  if decide (gen_valid (source ds)) then
    loaded ← mapM (fun p => d ← dataset_files disk !! p; Some (Some p, d))
                  (pending_paths disk opt (source ds));
    Some (map (fun d => (None, d)) (buffered ds) ++ loaded)
  else None.

(** The batches [DatasetIter] draws from one item, and what the trace shows
    for it: the load, if the item was not in memory, then its batches. *)
Definition item_batches (self : DatasetIter) (it : item) : list Batch :=
  create_batches
    (ordered_iterator_for self (bind_fields it.2 (fields self))).

Definition item_events (self : DatasetIter) (it : item) : list Event :=
  load_event it ++ map EvYield (item_batches self it).

(** The current iterator of a [DatasetIter] was built from the object's own
    batch settings. *)
Definition coherent (self : DatasetIter) : Prop :=
  forall oi, cur_iter self = Some oi ->
             exists d, oi = ordered_iterator_for self d.

(** The four phases of an epoch, as they show in the trace. *)
Inductive Phase :=
| Training (epoch : Z)
| Validating
| RateUpdate (ppl : Q) (epoch : Z)
| CheckpointWrite (epoch : Z).

Definition phase_of (ev : Event) : option Phase :=
  match ev with
  | EvTrain e => Some (Training e)
  | EvValidate => Some Validating
  | EvEpochStep p e => Some (RateUpdate p e)
  | EvDropCheckpoint e => Some (CheckpointWrite e)
  | _ => None
  end.

Definition phases (t : list Event) : list Phase := omap phase_of t.

(** The epochs for which [trainer.train] was called, in order. *)
Definition trained (t : list Event) : list Z :=
  omap (fun ev => match ev with EvTrain e => Some e | _ => None end) t.

(** Events of reading data: a file handed to [torch.load], a batch yielded. *)
Definition is_data (ev : Event) : Prop :=
  match ev with
  | EvTorchLoad _ | EvYield _ => True
  | _ => False
  end.

(** [c] ends with [r] after appending [d], on whatever trace it starts. *)
Definition runs {A} (c : M A) (r : result A) (d : list Event) : Prop :=
  forall t, c t = (r, t ++ d).

(** [c] only appends events that satisfy [P]. *)
Definition writes {A} (P : Event -> Prop) (c : M A) : Prop :=
  exists r d, runs c r d /\ Forall P d.

(** [c] calls [trainer.train] for a prefix of the epochs [es], in order, and
    for all of them when it returns. *)
Definition trains_within {A} (es : list Z) (c : M A) : Prop :=
  exists r d, runs c r d
              /\ trained d `prefix_of` es
              /\ (forall a, r = Ok a -> trained d = es).

(** Events that are not a call of [trainer.train]. *)
Definition no_train (ev : Event) : Prop :=
  match ev with EvTrain _ => False | _ => True end.

Definition remaining (disk : Disk) (opt : Opt) (ds : datasets_iter) : nat :=
  (length (buffered ds) + length (pending_paths disk opt (source ds)))%nat.

(** ** Further functions of the front end *)

(** [DatasetIter.__len__].  The length of the current [OrderedIterator] is
    computed by the library; it is the parameter [iterator_len]. *)
Definition DatasetIter_len (iterator_len : OrderedIterator -> result Z)
    (self : DatasetIter) : result Z :=
  match cur_iter self with
  | None => Raise (AssertionError "")
  | Some it => iterator_len it
  end.

(** [DatasetIter.get_cur_dataset]; [None] when the attribute was never set. *)
Definition get_cur_dataset (self : DatasetIter) : option Dataset :=
  cur_dataset self.

(** A [DatasetIter] built over [load_dataset(corpus_type)] and iterated for
    [fuel] rounds. *)
Definition iterate_role (disk : Disk) (opt : Opt) (corpus_type : string)
    (fs : gmap string Field) (train : bool) (fuel : nat)
  : M (option (list Batch * DatasetIter)) :=
  datasets <- load_dataset corpus_type ;;
  it <- make_dataset_iter disk opt (generator_iter datasets) fs opt train ;;
  DatasetIter_iter fuel disk opt it.

(** [needle in hay] on [str]. *)
Fixpoint contains (needle hay : string) : bool :=
  String.prefix needle hay
  || match hay with
     | EmptyString => false
     | String _ hay' => contains needle hay'
     end.

(** One round of the loop of [tally_parameters] over
    [model.named_parameters()], each parameter given by its name and its
    number of elements.  The second test is the source's
    ['decoder' or 'generator' in name]. *)
Definition tally_step (acc : Z * Z) (p : string * Z) : Z * Z :=
  if contains "encoder" p.1 then (acc.1 + p.2, acc.2)
  else if truthy "decoder" || contains "generator" p.1
       then (acc.1, acc.2 + p.2)
       else acc.

(** [tally_parameters]: the three numbers it prints, [n_params], [enc] and
    [dec]. *)
Definition tally_parameters (named : list (string * Z)) : Z * Z * Z :=
  let n_params := foldr (fun p acc => p.2 + acc) 0 named in
  let counts := fold_left tally_step named (0, 0) in
  (n_params, counts.1, counts.2).

(** A phase without the perplexity it carries. *)
Definition forget_ppl (p : Phase) : Phase :=
  match p with
  | RateUpdate _ e => RateUpdate 0 e
  | _ => p
  end.

(** The phases of one completed epoch, perplexity left out. *)
Definition epoch_shape (opt : Opt) (epoch : Z) : list Phase :=
  [Training epoch; Validating; RateUpdate 0 epoch]
  ++ (if bool_decide (start_checkpoint_at opt <= epoch)
      then [CheckpointWrite epoch] else []).

(** More concrete inputs. *)
Module DemoMore.

(** No [train_from], but a discriminator checkpoint is named. *)
Definition opt_disc_only : Opt :=
  mkOpt "data" "model" [0] (-1) "LSTM" 500 1 2 "" "model_e1.pt" 64 "sents" 32
        "sents" 1 0 32 "adam" "adam" "adam" (1 # 1000) (1 # 1000) (1 # 1000)
        5 (1 # 2) 8 (9 # 10) (999 # 1000) 0 "" 4000 0 "" "" false false 0.

(** [train_from] names a file that is not there. *)
Definition opt_lost_checkpoint : Opt :=
  mkOpt "data" "model" [0] (-1) "LSTM" 500 1 2 "gone.pt" "" 64 "sents" 32
        "sents" 1 0 32 "adam" "adam" "adam" (1 # 1000) (1 # 1000) (1 # 1000)
        5 (1 # 2) 8 (9 # 10) (999 # 1000) 0 "" 4000 0 "" "" false false 0.

(** All epochs are behind: [start_epoch] is 5, [epochs] is 2. *)
Definition opt_done : Opt :=
  mkOpt "data" "model" [0] (-1) "LSTM" 500 5 2 "" "" 64 "sents" 32
        "sents" 1 0 32 "adam" "adam" "adam" (1 # 1000) (1 # 1000) (1 # 1000)
        5 (1 # 2) 8 (9 # 10) (999 # 1000) 0 "" 4000 0 "" "" false false 0.

(** Checkpoints are written from epoch 2 on; three epochs. *)
Definition opt_late_checkpoints : Opt :=
  mkOpt "data" "model" [0] (-1) "LSTM" 500 1 3 "" "" 64 "sents" 32
        "sents" 1 0 32 "adam" "adam" "adam" (1 # 1000) (1 # 1000) (1 # 1000)
        5 (1 # 2) 8 (9 # 10) (999 # 1000) 0 "" 4000 2 "" "" false false 0.

(** A training file that holds no example. *)
Definition empty_set : Dataset := mkDataset [] "text" ∅.

Definition disk_empty_train : Disk :=
  mkDisk
    (<["data.train.pt" := empty_set]> {[ "data.valid.pt" := Demo.valid_set ]})
    {[ "data.vocab.pt" := Demo.raw_vocab ]} ∅.

(** A dataset whose examples carry no NLI label. *)
Definition unlabelled_set : Dataset :=
  mkDataset [mkExample ["a"] ["b"] ∅] "text" ∅.

End DemoMore.

(** Vocabulary of the further statements. *)

(** The dataset the iterator holds carries the iterator's field dictionary. *)
Definition holds_bound_dataset (self : DatasetIter) : Prop :=
  exists d, cur_dataset self = Some d /\ ds_fields d = fields self.

(** The epochs for which a checkpoint was dropped, in order. *)
Definition checkpointed (t : list Event) : list Z :=
  omap (fun ev => match ev with EvDropCheckpoint e => Some e | _ => None end)
       t.

Definition checkpoint_of (p : Phase) : option Z :=
  match p with CheckpointWrite e => Some e | _ => None end.

(** The events of the module level when nothing is refused. *)
Definition startup_events (opt : Opt) : list Event :=
  (if 0 <? seed opt then [EvSeed (seed opt)] else [])
  ++ match gpuid opt with
     | d :: _ =>
         EvSetDevice d
         :: (if 0 <? seed opt then [EvCudaSeed (seed opt)] else [])
     | [] => []
     end
  ++ (if truthy (exp_host opt) then [EvCrayon (exp_host opt)] else []).

(** The sum of the element counts of a list of named parameters. *)
Definition total_elements (named : list (string * Z)) : Z :=
  foldr (fun p acc => p.2 + acc) 0 named.

Definition names_encoder (p : string * Z) : Prop :=
  contains "encoder" p.1 = true.

#[global] Instance names_encoder_dec p : Decision (names_encoder p).
Proof. unfold names_encoder. apply _. Defined.

Definition any_event (ev : Event) : Prop := True.

(** [c] begins by appending [ev], however it ends. *)
Definition starts_with {A} (ev : Event) (c : M A) : Prop :=
  exists r d, runs c r (ev :: d).

(** The shard file of a role whose index is the single digit [d]. *)
Definition shard_name (lit : string) (d : ascii) : string :=
  lit +:+ String d ".pt".

(** The value of a digit character. *)
Definition digit_value (d : ascii) : N := (N_of_ascii d - 48)%N.

(** *** Where the files of the model are the files of a directory

    [shard_match] reads the path prefix letter for letter and the three maps
    of [Disk] answer for the kind of object the program expects at a path.
    The statements about which files are found, or found missing, are made
    under the conditions below, where this is what [glob.glob] and
    [torch.load] do. *)

(** One of the pattern characters of [glob]: the star, the question mark and
    the opening bracket. *)
Definition is_magic (a : ascii) : bool :=
  Ascii.eqb a "*"%char || Ascii.eqb a "?"%char || Ascii.eqb a "["%char.

(** [glob.has_magic]: the string holds a pattern character. *)
Definition has_magic (s : string) : bool :=
  negb (string_forallb (fun a => negb (is_magic a)) s).

(** A path prefix that [glob.glob] matches letter for letter and gives back
    as it is written: it holds no pattern character, and no doubled
    separator, which [os.path.split] drops from the names [glob] returns. *)
Definition plain_prefix (s : string) : bool :=
  negb (has_magic s) && negb (contains "//" s).

(** The names of all the files on disk, whatever was saved into them. *)
Definition file_names (disk : Disk) : list string :=
  map fst (map_to_list (dataset_files disk))
  ++ map fst (map_to_list (vocab_files disk))
  ++ map fst (map_to_list (checkpoint_files disk)).

(** The directories a path lies in, as the path writes them: the part before
    each separator. *)
Fixpoint dir_prefixes (path : string) : list string :=
  match path with
  | EmptyString => []
  | String a rest =>
      (if is_sep a then [EmptyString] else [])
      ++ map (String a) (dir_prefixes rest)
  end.

(** Everything on disk that has a name: the files, and the directories they
    lie in. *)
Definition disk_names (disk : Disk) : list string :=
  file_names disk ++ concat (map dir_prefixes (file_names disk)).

(** [os.path.exists(path)]. *)
Definition on_disk (disk : Disk) (path : string) : bool :=
  bool_decide (path ∈ disk_names disk).

(** Opening [path] fails because there is no such file: nothing on disk has
    this name, and no directory on the way to it is in fact a file. *)
Definition missing (disk : Disk) (path : string) : bool :=
  negb (on_disk disk path)
  && forallb (fun dir => negb (bool_decide (dir ∈ file_names disk)))
             (dir_prefixes path).

(** Nothing on disk, file of any kind or directory, has the name of a
    numbered shard of the role. *)
Definition no_shard_on_disk (disk : Disk) (opt : Opt) (corpus_type : string)
  : bool :=
  forallb (fun name => negb (shard_match (shard_pattern_prefix opt corpus_type)
                                         name))
          (disk_names disk).

(** Whatever is on disk under a dataset name of the role, numbered shard or
    single file, is a dataset file. *)
Definition data_files_typed (disk : Disk) (opt : Opt) (corpus_type : string)
  : bool :=
  forallb (fun name =>
             implb (shard_match (shard_pattern_prefix opt corpus_type) name
                    || String.eqb name (single_file opt corpus_type))
                   (bool_decide (is_Some (dataset_files disk !! name))))
          (disk_names disk).

(** The data of a role is laid out plainly: the prefix [opt.data] is plain
    and the files under the role's names are dataset files. *)
Definition plain_layout (disk : Disk) (opt : Opt) (corpus_type : string)
  : Prop :=
  plain_prefix (data opt) = true
  /\ data_files_typed disk opt corpus_type = true.

(** The name of the Python class of an exception.  [LibraryError] stands for
    an error raised inside the library, of a class the source does not
    name. *)
Definition exn_class (e : exn) : string :=
  match e with
  | AssertionError _ => "AssertionError"
  | FileNotFoundError _ => "FileNotFoundError"
  | KeyError _ => "KeyError"
  | IndexError => "IndexError"
  | TypeError => "TypeError"
  | ZeroDivisionError => "ZeroDivisionError"
  | StopIteration => "StopIteration"
  | SystemExit _ => "SystemExit"
  | LibraryError _ => "Exception"
  end.

(** The batches yielded in a trace, in order. *)
Definition yields (t : list Event) : list Batch :=
  omap (fun ev => match ev with EvYield b => Some b | _ => None end) t.

(** Events of opening a file. *)
Definition is_load (ev : Event) : Prop :=
  match ev with EvTorchLoad _ => True | _ => False end.

(** * Properties *)

Ltac run_m :=
  unfold bind, ret, raise, emit, lift in *; simpl in *.

(** ** load_dataset: order of the shards, missing files *)

Lemma sorted_nil : sorted [] = [].
Proof. reflexivity. Qed.

(** What the code guarantees about the order: the shard paths are visited in
    ascending order of the file names, compared as strings. *)
Lemma pending_paths_sorted disk opt corpus_type :
  Sorted String.le (pending_paths disk opt (GenCreated corpus_type)).
Proof.
  unfold pending_paths. case_bool_decide; [|constructor].
  pose proof (Sorted_merge_sort String.le
                (glob disk (shard_pattern_prefix opt corpus_type))) as Hs.
  unfold sorted. destruct (merge_sort _ _); [|exact Hs].
  repeat constructor.
Qed.

(** C2.  With the eleven training shards numbered 0 to 10 on disk, the
    training iterator reads shard 10 right after shard 1 and before shard 2:
    the shards come in the order of their file names as strings, which is
    not the order of their indices. *)
Theorem load_dataset_reads_shard_10_before_shard_2 :
  (exists r, outcome (iterate_train Demo.disk_11 Demo.opt 12) = Ok (Some r))
  /\ loads (events (iterate_train Demo.disk_11 Demo.opt 12))
     = ["data.train.0.pt"; "data.train.1.pt"; "data.train.10.pt";
        "data.train.2.pt"; "data.train.3.pt"; "data.train.4.pt";
        "data.train.5.pt"; "data.train.6.pt"; "data.train.7.pt";
        "data.train.8.pt"; "data.train.9.pt"].
Proof.
  split.
  - eexists. vm_compute. reflexivity.
  - vm_compute. reflexivity.
Qed.

(** A path that is missing is in none of the three maps. *)
Lemma dataset_name_on_disk disk path :
  is_Some (dataset_files disk !! path) -> path ∈ disk_names disk.
Proof.
  intros [d Hd]. unfold disk_names, file_names.
  apply elem_of_app. left. apply elem_of_app. left.
  apply list_elem_of_fmap. exists (path, d). split; [reflexivity|].
  by apply elem_of_map_to_list.
Qed.

Lemma checkpoint_name_on_disk disk path :
  is_Some (checkpoint_files disk !! path) -> path ∈ disk_names disk.
Proof.
  intros [d Hd]. unfold disk_names, file_names.
  apply elem_of_app. left. apply elem_of_app. right.
  apply elem_of_app. right.
  apply list_elem_of_fmap. exists (path, d). split; [reflexivity|].
  by apply elem_of_map_to_list.
Qed.

Lemma missing_dataset disk path :
  missing disk path = true -> dataset_files disk !! path = None.
Proof.
  unfold missing, on_disk. intros H. apply andb_true_iff in H as [H _].
  apply negb_true_iff, bool_decide_eq_false in H.
  destruct (dataset_files disk !! path) eqn:E; [|reflexivity].
  exfalso. apply H, dataset_name_on_disk. by rewrite E.
Qed.

Lemma missing_checkpoint disk path :
  missing disk path = true -> checkpoint_files disk !! path = None.
Proof.
  unfold missing, on_disk. intros H. apply andb_true_iff in H as [H _].
  apply negb_true_iff, bool_decide_eq_false in H.
  destruct (checkpoint_files disk !! path) eqn:E; [|reflexivity].
  exfalso. apply H, checkpoint_name_on_disk. by rewrite E.
Qed.

(** When no file on disk has a shard name, the pattern finds nothing. *)
Lemma no_shard_on_disk_glob disk opt corpus_type :
  no_shard_on_disk disk opt corpus_type = true ->
  glob disk (shard_pattern_prefix opt corpus_type) = [].
Proof.
  unfold no_shard_on_disk, disk_names, file_names, glob. intros H.
  rewrite !forallb_app in H. apply andb_true_iff in H as [H _].
  apply andb_true_iff in H as [H _].
  induction (map fst (map_to_list (dataset_files disk))) as [|n l IH];
    [reflexivity|].
  simpl in H. apply andb_true_iff in H as [Hn Hl].
  rewrite filter_cons. destruct (decide _) as [Hm|_]; [|by apply IH].
  rewrite Hm in Hn. discriminate.
Qed.

(** C7.  Let the path prefix [opt.data] be plain.  When no file on disk has
    the name of a numbered shard of a corpus role and the single file of the
    role does not exist, calling [load_dataset] succeeds and touches no file,
    and the first [next] on the generator it returned raises the
    [FileNotFoundError] of [torch.load] for the single file of that role. *)
Theorem load_dataset_missing_raises_at_first_next
    disk opt corpus_type t :
  corpus_type ∈ ["train"; "valid"] ->
  plain_prefix (data opt) = true ->
  no_shard_on_disk disk opt corpus_type = true ->
  missing disk (single_file opt corpus_type) = true ->
  exists g,
    load_dataset corpus_type t = (Ok g, t)
    /\ load_dataset_next disk opt g t
       = (Raise (FileNotFoundError (single_file opt corpus_type)),
          t ++ [EvTorchLoad (single_file opt corpus_type)]).
Proof.
  intros Hrole _ Hglob Hfile. exists (GenCreated corpus_type).
  apply no_shard_on_disk_glob in Hglob.
  apply missing_dataset in Hfile.
  split; [reflexivity|].
  unfold load_dataset_next. rewrite bool_decide_eq_true_2 by exact Hrole.
  rewrite Hglob, sorted_nil.
  unfold dataset_loader, torch_load_dataset. run_m. by rewrite Hfile.
Qed.

Lemma load_dataset_missing_witness :
  exists g,
    load_dataset "valid" [] = (Ok g, [])
    /\ load_dataset_next Demo.empty_disk Demo.opt g []
       = (Raise (FileNotFoundError "data.valid.pt"),
          [EvTorchLoad "data.valid.pt"]).
Proof.
  apply (load_dataset_missing_raises_at_first_next
           Demo.empty_disk Demo.opt "valid" []).
  - apply list_elem_of_further, list_elem_of_here.
  - vm_compute. reflexivity.
  - vm_compute. reflexivity.
  - vm_compute. reflexivity.
Defined.

(** The error of the loader for missing data is the one [torch.load] raises
    for a path that does not exist; its class is [FileNotFoundError], and no
    [MissingDataError] is raised.  Here no validation file is on disk. *)
Lemma load_dataset_missing_is_file_not_found :
  no_shard_on_disk Demo.empty_disk Demo.opt "valid" = true
  /\ missing Demo.empty_disk (single_file Demo.opt "valid") = true
  /\ exists e t',
       load_dataset_next Demo.empty_disk Demo.opt (GenCreated "valid") []
       = (Raise e, t')
       /\ exn_class e = "FileNotFoundError"
       /\ exn_class e <> "MissingDataError".
Proof.
  split; [vm_compute; reflexivity|].
  split; [vm_compute; reflexivity|].
  exists (FileNotFoundError "data.valid.pt"), [EvTorchLoad "data.valid.pt"].
  split; [vm_compute; reflexivity|].
  split; [reflexivity|]. simpl. discriminate.
Qed.

(** ** Batching *)

Lemma batch_size_fn_charges new count sofar :
  batch_size_fn new count sofar = sofar + token_cost new.
Proof. unfold batch_size_fn, token_cost. lia. Qed.

Lemma total_cost_app b1 b2 :
  total_cost (b1 ++ b2) = total_cost b1 + total_cost b2.
Proof. induction b1 as [|ex b1 IH]; simpl; [|rewrite IH]; lia. Qed.

Lemma total_cost_perm b1 b2 : b1 ≡ₚ b2 -> total_cost b1 = total_cost b2.
Proof. induction 1; simpl; lia. Qed.

Lemma within_budget_singleton budget ex : within_budget budget [ex].
Proof.
  destruct (Z_le_gt_dec (token_cost ex) budget) as [Hle|Hgt].
  - left. simpl. lia.
  - right. exists ex. split; [reflexivity|lia].
Qed.

Lemma within_budget_perm budget b1 b2 :
  b1 ≡ₚ b2 -> within_budget budget b1 -> within_budget budget b2.
Proof.
  intros Hp [Hle|(ex & -> & Hgt)].
  - left. by rewrite <- (total_cost_perm _ _ Hp).
  - apply Permutation_singleton_l in Hp. subst b2.
    apply within_budget_singleton.
Qed.

(** Batching neither drops, repeats nor reorders examples. *)
Lemma batch_loop_concat fn limit data :
  forall mb sz, concat (batch_loop fn limit data mb sz) = mb ++ data.
Proof.
  induction data as [|ex data IH]; intros mb sz; simpl.
  - destruct mb; simpl; by rewrite ?app_nil_r.
  - destruct (_ =? _).
    + simpl. rewrite IH. by rewrite <- app_assoc.
    + destruct (_ <? _).
      * destruct mb as [|e0 mb]; simpl; rewrite IH; done.
      * rewrite IH. by rewrite <- app_assoc.
Qed.

Lemma batch_loop_nonempty fn limit data :
  forall mb sz, Forall (fun b => b <> []) (batch_loop fn limit data mb sz).
Proof.
  induction data as [|ex data IH]; intros mb sz; simpl.
  - destruct mb; repeat constructor; done.
  - destruct (_ =? _).
    + constructor; [by destruct mb|apply IH].
    + destruct (_ <? _); [|apply IH].
      destruct mb; [apply IH|constructor; [done|apply IH]].
Qed.

Lemma batch_loop_budget budget data :
  forall mb,
    (mb = [] \/ total_cost mb < budget \/ exists ex, mb = [ex]) ->
    Forall (within_budget budget)
           (batch_loop batch_size_fn budget data mb (total_cost mb)).
Proof.
  induction data as [|ex data IH]; intros mb Hinv; simpl.
  - destruct mb as [|e0 mb]; [constructor|].
    constructor; [|constructor].
    destruct Hinv as [?|[Hlt|(e & Heq)]]; [done| |].
    + left. lia.
    + rewrite Heq. apply within_budget_singleton.
  - assert (Hsz : batch_size_fn ex (Z.of_nat (length (mb ++ [ex])))
                    (total_cost mb) = total_cost (mb ++ [ex])).
    { rewrite batch_size_fn_charges, total_cost_app. simpl. lia. }
    assert (Hone : batch_size_fn ex 1 0 = total_cost [ex]).
    { rewrite batch_size_fn_charges. simpl. lia. }
    rewrite Hsz, Hone.
    destruct (Z.eqb_spec (total_cost (mb ++ [ex])) budget) as [Heq|Hne].
    + constructor; [left; lia|]. apply (IH []). by left.
    + destruct (Z.ltb_spec budget (total_cost (mb ++ [ex]))) as [Hgt|Hle].
      * assert (Hnext : Forall (within_budget budget)
                  (batch_loop batch_size_fn budget data [ex]
                              (total_cost [ex]))).
        { apply IH. right. right. by exists ex. }
        destruct mb as [|e0 mb]; [exact Hnext|].
        constructor; [|exact Hnext].
        destruct Hinv as [?|[Hlt|(e & Heq)]]; [done| |].
        -- left. lia.
        -- rewrite Heq. apply within_budget_singleton.
      * apply IH. right. left. lia.
Qed.

Lemma sort_within_batch_perm b : sort_within_batch b ≡ₚ b.
Proof. apply merge_sort_Permutation. Qed.

(** Every batch of an iterator with the token cost function respects its
    batch size taken as a budget. *)
Lemma create_batches_budget it :
  oi_batch_size_fn it = Some batch_size_fn ->
  Forall (within_budget (oi_batch_size it)) (create_batches it).
Proof.
  intros Hfn. unfold create_batches, batch. rewrite Hfn. simpl.
  apply Forall_fmap. eapply Forall_impl.
  - apply (batch_loop_budget (oi_batch_size it) _ []). by left.
  - intros b Hb. simpl. eapply within_budget_perm; [|exact Hb].
    symmetry. apply sort_within_batch_perm.
Qed.

Lemma batch_concat data limit fn : concat (batch data limit fn) = data.
Proof. unfold batch. by rewrite batch_loop_concat. Qed.

(** Every batch of an iterator draws its examples from the iterator's own
    dataset, and together the batches are the dataset. *)
Lemma create_batches_from_dataset it :
  Forall (fun b => b ⊆ examples (oi_dataset it)) (create_batches it).
Proof.
  unfold create_batches. apply Forall_fmap.
  apply Forall_forall. intros b Hb x Hx. simpl in Hx.
  rewrite sort_within_batch_perm in Hx.
  rewrite <- (batch_concat (examples (oi_dataset it)) (oi_batch_size it)
                (oi_batch_size_fn it)).
  apply list_elem_of_In, in_concat. exists b.
  split; by apply list_elem_of_In.
Qed.

Lemma create_batches_cover it :
  concat (create_batches it) ≡ₚ examples (oi_dataset it).
Proof.
  unfold create_batches.
  rewrite <- (batch_concat (examples (oi_dataset it)) (oi_batch_size it)
                (oi_batch_size_fn it)) at 2.
  induction (batch _ _ _) as [|b bs IH]; simpl; [done|].
  by rewrite sort_within_batch_perm, IH.
Qed.

(** ** DatasetIter *)

Lemma yield_all_spec bs t : yield_all bs t = (Ok tt, t ++ map EvYield bs).
Proof.
  revert t. induction bs as [|b bs IH]; intros t; simpl.
  - unfold ret. by rewrite app_nil_r.
  - run_m. rewrite IH. by rewrite <- app_assoc.
Qed.

Lemma load_dataset_next_some disk opt g p ps d t :
  gen_valid g ->
  pending_paths disk opt g = p :: ps ->
  dataset_files disk !! p = Some d ->
  exists g',
    load_dataset_next disk opt g t = (Ok (Some d, g'), t ++ [EvTorchLoad p])
    /\ pending_paths disk opt g' = ps /\ gen_valid g'.
Proof.
  intros Hv Hp Hd. destruct g as [ct|ct pending|]; simpl in *.
  - rewrite bool_decide_eq_true_2 in * by exact Hv.
    destruct (sorted _) as [|pt rest]; simplify_eq.
    + exists (GenSuspended ct []).
      unfold dataset_loader, torch_load_dataset. run_m. by rewrite Hd.
    + exists (GenSuspended ct ps).
      unfold dataset_loader, torch_load_dataset. run_m. by rewrite Hd.
  - subst pending. exists (GenSuspended ct ps).
    unfold dataset_loader, torch_load_dataset. run_m. by rewrite Hd.
  - done.
Qed.

Lemma load_dataset_next_none disk opt g t :
  gen_valid g ->
  pending_paths disk opt g = [] ->
  load_dataset_next disk opt g t = (Ok (None, GenFinished), t).
Proof.
  intros Hv Hp. destruct g as [ct|ct pending|]; simpl in *.
  - rewrite bool_decide_eq_true_2 in * by exact Hv.
    by destruct (sorted _).
  - by subst pending.
  - done.
Qed.

Lemma datasets_next_supply_cons disk opt ds it items t :
  supply disk opt ds = Some (it :: items) ->
  exists ds',
    datasets_next disk opt ds t = (Ok (Some it.2, ds'), t ++ load_event it)
    /\ supply disk opt ds' = Some items.
Proof.
  unfold supply, datasets_next. destruct ds as [buf g]; simpl.
  case_decide as Hv; [|done]. intros Hs.
  destruct (mapM _ _) as [loaded|] eqn:Hm; simpl in Hs; [|done].
  destruct buf as [|d buf]; simpl in Hs.
  - injection Hs as ->.
    destruct (pending_paths disk opt g) as [|p ps] eqn:Hp; simpl in Hm;
      [done|].
    destruct (dataset_files disk !! p) as [d|] eqn:Hd; simpl in Hm; [|done].
    destruct (mapM _ ps) as [rest|] eqn:Hr; simpl in Hm; [|done].
    inversion Hm; subst; clear Hm.
    destruct (load_dataset_next_some disk opt g p ps d t Hv Hp Hd)
      as (g' & Hn & Hp' & Hv').
    exists (mkDatasetsIter [] g'). run_m. rewrite Hn. simpl.
    split; [reflexivity|].
    rewrite decide_True by exact Hv'. rewrite Hp', Hr. reflexivity.
  - simplify_eq. exists (mkDatasetsIter buf g). run_m.
    split; [by rewrite app_nil_r|].
    rewrite decide_True by exact Hv. by rewrite Hm.
Qed.

Lemma datasets_next_supply_nil disk opt ds t :
  supply disk opt ds = Some [] ->
  exists ds',
    datasets_next disk opt ds t = (Ok (None, ds'), t)
    /\ supply disk opt ds' = Some [].
Proof.
  unfold supply, datasets_next. destruct ds as [buf g]; simpl.
  case_decide as Hv; [|done]. intros Hs.
  destruct (mapM _ _) as [loaded|] eqn:Hm; simpl in Hs; [|done].
  destruct buf as [|d buf]; simpl in Hs; [|done].
  injection Hs as ->.
  destruct (pending_paths disk opt g) as [|p ps] eqn:Hp.
  - exists (mkDatasetsIter [] GenFinished). run_m.
    rewrite (load_dataset_next_none disk opt g t Hv Hp). done.
  - simpl in Hm. destruct (dataset_files disk !! p); simpl in Hm; [|done].
    destruct (mapM _ ps); simpl in Hm; done.
Qed.

(** [_next_dataset_iterator] in terms of the step of the lazy sequence. *)
Lemma next_dataset_iterator_unfold disk opt self t :
  _next_dataset_iterator disk opt self t =
  match datasets_next disk opt (datasets self) t with
  | (Ok (Some d, ds'), t') =>
      let d := bind_fields d (fields self) in
      (Ok (Some (ordered_iterator_for self d),
           set_cur_dataset (set_datasets self ds') d), t')
  | (Ok (None, ds'), t') => (Ok (None, set_datasets self ds'), t')
  | (Raise e, t') => (Raise e, t')
  end.
Proof.
  unfold _next_dataset_iterator. run_m.
  destruct (datasets_next disk opt (datasets self) t) as [[[[d|] ds']|e] t'];
    reflexivity.
Qed.

Lemma DatasetIter_iter_supply disk opt items :
  forall self oi t fuel,
    supply disk opt (datasets self) = Some items ->
    cur_iter self = Some oi ->
    (length items + 2 <= fuel)%nat ->
    exists self',
      DatasetIter_iter fuel disk opt self t
      = (Ok (Some (create_batches oi ++ concat (map (item_batches self) items),
                   self')),
         t ++ map EvYield (create_batches oi)
           ++ concat (map (item_events self) items))
      /\ cur_iter self' = None /\ fields self' = fields self.
Proof.
  induction items as [|it items IH]; intros self oi t fuel Hs Hc Hf.
  - destruct fuel as [|[|fuel]]; [simpl in Hf; lia..|].
    destruct (datasets_next_supply_nil disk opt (datasets self)
                (t ++ map EvYield (create_batches oi)) Hs) as (ds' & Hn & _).
    exists (set_cur_iter (set_datasets self ds') None).
    simpl. rewrite Hc. unfold bind at 1. rewrite yield_all_spec.
    unfold bind at 1. rewrite next_dataset_iterator_unfold, Hn.
    run_m. by rewrite !app_nil_r.
  - destruct fuel as [|fuel]; [simpl in Hf; lia|].
    destruct (datasets_next_supply_cons disk opt (datasets self) it items
                (t ++ map EvYield (create_batches oi)) Hs)
      as (ds' & Hn & Hs').
    set (d := bind_fields it.2 (fields self)).
    set (self1 := set_cur_iter (set_cur_dataset (set_datasets self ds') d)
                               (Some (ordered_iterator_for self d))).
    destruct (IH self1 (ordered_iterator_for self d)
                ((t ++ map EvYield (create_batches oi)) ++ load_event it)
                fuel Hs' eq_refl) as (self' & Hrun & Hnone & Hfs).
    { simpl in Hf. lia. }
    exists self'. split; [|split; [exact Hnone|exact Hfs]].
    cbn [DatasetIter_iter]. rewrite Hc. unfold bind at 1.
    rewrite yield_all_spec.
    unfold bind at 1. rewrite next_dataset_iterator_unfold, Hn.
    cbn [fst snd]. fold d. fold self1. unfold bind at 1. rewrite Hrun.
    unfold ret. simpl.
    change (item_batches self1) with (item_batches self).
    change (item_events self1) with (item_events self).
    change (create_batches (ordered_iterator_for self d))
      with (item_batches self it).
    unfold item_events at 2. by rewrite <- !app_assoc.
Qed.

Lemma DatasetIter_init_supply disk opt ds fs bsz bfn dev train it items t :
  supply disk opt ds = Some (it :: items) ->
  exists self,
    DatasetIter_init disk opt ds fs bsz bfn dev train t
    = (Ok self, t ++ load_event it)
    /\ supply disk opt (datasets self) = Some items
    /\ cur_iter self
       = Some (mkOrderedIterator (bind_fields it.2 fs) bsz bfn dev train
                                 false true false)
    /\ fields self = fs /\ di_batch_size self = bsz
    /\ di_batch_size_fn self = bfn /\ device self = dev
    /\ is_train self = train.
Proof.
  intros Hs.
  destruct (datasets_next_supply_cons disk opt ds it items t Hs)
    as (ds' & Hn & Hs').
  eexists. unfold DatasetIter_init. unfold bind at 1.
  rewrite next_dataset_iterator_unfold. cbn [datasets]. rewrite Hn.
  simpl. unfold ret. split; [reflexivity|]. simpl. by rewrite Hs'.
Qed.

Lemma DatasetIter_init_ok disk opt ds fs bsz bfn dev train t self t' :
  DatasetIter_init disk opt ds fs bsz bfn dev train t = (Ok self, t') ->
  coherent self
  /\ fields self = fs /\ di_batch_size self = bsz
  /\ di_batch_size_fn self = bfn /\ device self = dev
  /\ is_train self = train
  /\ exists d, cur_iter self
               = Some (mkOrderedIterator d bsz bfn dev train false true false).
Proof.
  unfold DatasetIter_init. unfold bind at 1.
  rewrite next_dataset_iterator_unfold. cbn [datasets].
  destruct (datasets_next disk opt ds t) as [[[[d|] ds']|e] t1]; simpl;
    unfold ret, raise; intros Heq; simplify_eq.
  repeat split; eauto. intros oi Hoi. simpl in Hoi. simplify_eq. eauto.
Qed.

(** Whatever is on disk: the batches a [DatasetIter] yields are batches of
    iterators built with its own settings, and iterating never changes the
    field dictionary it holds. *)
Lemma DatasetIter_iter_yields disk opt fuel :
  forall self t bs self' t',
    coherent self ->
    DatasetIter_iter fuel disk opt self t = (Ok (Some (bs, self')), t') ->
    Forall (fun b => exists d,
                b ∈ create_batches (ordered_iterator_for self d)) bs
    /\ fields self' = fields self.
Proof.
  induction fuel as [|fuel IH]; intros self t bs self' t' Hco; simpl.
  - unfold ret. intros Heq. simplify_eq.
  - destruct (cur_iter self) as [oi|] eqn:Hc.
    + unfold bind at 1. rewrite yield_all_spec.
      unfold bind at 1. rewrite next_dataset_iterator_unfold.
      destruct (datasets_next _ _ _ _) as [[[o ds']|e] t1];
        [|intros Heq; simplify_eq].
      destruct (Hco oi Hc) as (d0 & ->).
      destruct o as [d|]; cbn [fst snd].
      * set (d1 := bind_fields d (fields self)).
        set (self1 := set_cur_iter
                        (set_cur_dataset (set_datasets self ds') d1)
                        (Some (ordered_iterator_for self d1))).
        unfold bind at 1.
        destruct (DatasetIter_iter fuel disk opt self1 t1)
          as [[[[bs1 s1]|]|e] t2] eqn:Hrun; unfold ret; intros Heq;
          simplify_eq.
        destruct (IH self1 t1 bs1 self' t' ) as [Hall Hfs]; [|exact Hrun|].
        { intros oi Hoi. simpl in Hoi. simplify_eq. by exists d1. }
        split; [|exact Hfs].
        apply Forall_app. split; [|exact Hall].
        apply Forall_forall. intros b Hb. by exists d0.
      * set (self1 := set_cur_iter (set_datasets self ds') None).
        unfold bind at 1.
        destruct (DatasetIter_iter fuel disk opt self1 t1)
          as [[[[bs1 s1]|]|e] t2] eqn:Hrun; unfold ret; intros Heq;
          simplify_eq.
        destruct (IH self1 t1 bs1 self' t') as [Hall Hfs]; [|exact Hrun|].
        { intros oi Hoi. simpl in Hoi. done. }
        split; [|exact Hfs].
        apply Forall_app. split; [|exact Hall].
        apply Forall_forall. intros b Hb. by exists d0.
    + unfold ret. intros Heq. simplify_eq. split; [constructor|done].
Qed.

(** C3.  Let the lazy sequence handed to [DatasetIter] supply the datasets
    [first :: rest] (one or more).  Then construction loads the first dataset
    only, and iterating yields, dataset by dataset in sequence order, all
    batches of one dataset before the next dataset is loaded and its batch
    iterator created; the next load comes right after the last batch of the
    dataset before it.  Every batch holds examples of its own dataset only. *)
Theorem DatasetIter_yields_dataset_by_dataset
    disk opt ds fs bsz bfn dev train first rest t :
  supply disk opt ds = Some (first :: rest) ->
  let batches_of (it : item) :=
    create_batches (mkOrderedIterator (bind_fields it.2 fs) bsz bfn dev train
                                      false true false) in
  exists self,
    DatasetIter_init disk opt ds fs bsz bfn dev train t
    = (Ok self, t ++ load_event first)
    /\ (forall fuel t1, (length rest + 2 <= fuel)%nat ->
          exists self',
            DatasetIter_iter fuel disk opt self t1
            = (Ok (Some (concat (map batches_of (first :: rest)), self')),
               t1 ++ map EvYield (batches_of first)
                  ++ concat (map (fun it => load_event it
                                            ++ map EvYield (batches_of it))
                                 rest)))
    /\ Forall (fun it => Forall (fun b => b ⊆ examples it.2) (batches_of it))
              (first :: rest).
Proof.
  intros Hs batches_of.
  destruct (DatasetIter_init_supply disk opt ds fs bsz bfn dev train first
              rest t Hs)
    as (self & Hinit & Hs' & Hc & Hfs & Hb & Hfn & Hd & Ht).
  exists self. split; [exact Hinit|]. split.
  - intros fuel t1 Hfuel.
    destruct (DatasetIter_iter_supply disk opt rest self _ t1 fuel Hs' Hc
                Hfuel) as (self' & Hrun & _ & _).
    exists self'. rewrite Hrun.
    assert (Hib : item_batches self = batches_of).
    { unfold item_batches, batches_of, ordered_iterator_for.
      by rewrite Hfs, Hb, Hfn, Hd, Ht. }
    unfold item_events. rewrite Hib. reflexivity.
  - apply Forall_forall. intros it _.
    apply (create_batches_from_dataset
             (mkOrderedIterator (bind_fields it.2 fs) bsz bfn dev train
                                false true false)).
Qed.

Lemma DatasetIter_yields_dataset_by_dataset_witness :
  supply Demo.disk Demo.opt (generator_iter (GenCreated "train"))
  = Some [(Some "data.train.0.pt", Demo.shard_a);
          (Some "data.train.1.pt", Demo.shard_b)]
  /\ exists self,
       DatasetIter_init Demo.disk Demo.opt
         (generator_iter (GenCreated "train")) ∅ 2 None (-1) true []
       = (Ok self, [EvTorchLoad "data.train.0.pt"])
       /\ exists self' bs tr,
            DatasetIter_iter 3 Demo.disk Demo.opt self []
            = (Ok (Some (bs, self')), tr)
            /\ length bs = 3%nat
            /\ loads tr = ["data.train.1.pt"].
Proof.
  assert (Hs : supply Demo.disk Demo.opt (generator_iter (GenCreated "train"))
               = Some [(Some "data.train.0.pt", Demo.shard_a);
                       (Some "data.train.1.pt", Demo.shard_b)]).
  { vm_compute. reflexivity. }
  split; [exact Hs|].
  destruct (DatasetIter_yields_dataset_by_dataset Demo.disk Demo.opt
              (generator_iter (GenCreated "train")) ∅ 2 None (-1) true
              _ _ [] Hs) as (self & Hinit & Hrun & _).
  exists self. split; [exact Hinit|].
  destruct (Hrun 3%nat [] ltac:(simpl; lia)) as (self' & Hiter).
  eexists self', _, _. split; [exact Hiter|].
  split; vm_compute; reflexivity.
Defined.

(** ** make_dataset_iter *)

(** C10.  An iterator built with [is_train=False] has batch size
    [valid_batch_size] and no cost function, whatever [batch_type] says, and
    so has the batch iterator it starts with; an iterator that does have a
    cost function is a training iterator built under [batch_type = 'tokens']. *)
Theorem valid_iter_uses_fixed_policy disk gopt ds fs opt train t it t' :
  make_dataset_iter disk gopt ds fs opt train t = (Ok it, t') ->
  (train = false ->
     di_batch_size it = valid_batch_size opt
     /\ di_batch_size_fn it = None
     /\ exists d dev,
          cur_iter it
          = Some (mkOrderedIterator d (valid_batch_size opt) None dev false
                                    false true false))
  /\ (is_Some (di_batch_size_fn it) ->
        train = true /\ batch_type opt = "tokens").
Proof.
  unfold make_dataset_iter. intros Hmk.
  apply DatasetIter_init_ok in Hmk
    as (_ & _ & Hb & Hfn & _ & _ & (d & Hc)).
  split.
  - intros ->. simpl in *. rewrite Hb, Hfn. repeat split. eauto.
  - intros Hsome. rewrite Hfn in Hsome. destruct train; simpl in Hsome.
    + case_bool_decide; [done|]. by destruct Hsome.
    + by destruct Hsome.
Qed.

Lemma valid_iter_uses_fixed_policy_witness :
  exists it t',
    make_dataset_iter Demo.disk Demo.opt_tokens
      (generator_iter (GenCreated "valid")) ∅ Demo.opt_tokens false []
    = (Ok it, t')
    /\ di_batch_size it = 32 /\ di_batch_size_fn it = None.
Proof.
  eexists _, _. split; [vm_compute; reflexivity|].
  assert (Hmk : make_dataset_iter Demo.disk Demo.opt_tokens
                  (generator_iter (GenCreated "valid")) ∅ Demo.opt_tokens
                  false []
                = (Ok (mkDatasetIter
                         (mkDatasetsIter [] (GenSuspended "valid" []))
                         ∅ 32 None 0 false (Some Demo.valid_set)
                         (Some (mkOrderedIterator Demo.valid_set 32 None 0
                                  false false true false))),
                   [EvTorchLoad "data.valid.pt"])).
  { vm_compute. reflexivity. }
  destruct (valid_iter_uses_fixed_policy _ _ _ _ _ _ _ _ _ Hmk) as [Hv _].
  destruct (Hv eq_refl) as (Hb & Hfn & _). split; [exact Hb|exact Hfn].
Defined.

(** C6.  A training iterator built under [batch_type = 'tokens'] carries the
    cost function that adds [max(len(tgt), len(src)) + 1] for the new example
    to the running total, and every batch it yields, over all its datasets,
    has a total cost within the budget [batch_size], unless it is a single
    example whose own cost exceeds the budget. *)
Theorem token_batches_within_budget
    disk gopt ds fs opt t it t' fuel t1 bs it' t2 :
  batch_type opt = "tokens" ->
  make_dataset_iter disk gopt ds fs opt true t = (Ok it, t') ->
  DatasetIter_iter fuel disk gopt it t1 = (Ok (Some (bs, it')), t2) ->
  di_batch_size_fn it = Some batch_size_fn
  /\ (forall new count sofar,
        batch_size_fn new count sofar = sofar + token_cost new)
  /\ Forall (within_budget (batch_size opt)) bs.
Proof.
  unfold make_dataset_iter. intros Htok Hmk Hrun.
  apply DatasetIter_init_ok in Hmk as (Hco & _ & Hb & Hfn & _).
  simpl in Hfn. rewrite bool_decide_eq_true_2 in Hfn by exact Htok.
  split; [exact Hfn|]. split; [apply batch_size_fn_charges|].
  destruct (DatasetIter_iter_yields _ _ _ _ _ _ _ _ Hco Hrun) as [Hall _].
  eapply Forall_impl; [exact Hall|].
  intros b (d & Hin). simpl in Hin.
  pose proof (create_batches_budget (ordered_iterator_for it d) Hfn) as Hbud.
  rewrite Forall_forall in Hbud. simpl in Hbud. rewrite Hb in Hbud.
  by apply Hbud.
Qed.

Lemma token_batches_within_budget_witness :
  exists it t' it' t2,
    make_dataset_iter Demo.disk Demo.opt_tokens
      (generator_iter (GenCreated "train")) ∅ Demo.opt_tokens true []
    = (Ok it, t')
    /\ DatasetIter_iter 3 Demo.disk Demo.opt_tokens it t'
       = (Ok (Some (Demo.token_batches, it')), t2)
    /\ Forall (within_budget 3) Demo.token_batches.
Proof.
  assert (Hmk : make_dataset_iter Demo.disk Demo.opt_tokens
                  (generator_iter (GenCreated "train")) ∅ Demo.opt_tokens
                  true []
                = (Ok Demo.token_iter, [EvTorchLoad "data.train.0.pt"])).
  { vm_compute. reflexivity. }
  assert (Hrun : DatasetIter_iter 3 Demo.disk Demo.opt_tokens Demo.token_iter
                   [EvTorchLoad "data.train.0.pt"]
                 = (Ok (Some (Demo.token_batches, Demo.token_iter_end)),
                    [EvTorchLoad "data.train.0.pt"]
                    ++ map EvYield (take 3 Demo.token_batches)
                    ++ [EvTorchLoad "data.train.1.pt"]
                    ++ map EvYield (drop 3 Demo.token_batches))).
  { vm_compute. reflexivity. }
  eexists _, _, _, _. split; [exact Hmk|]. split; [exact Hrun|].
  exact (proj2 (proj2 (token_batches_within_budget
                         Demo.disk Demo.opt_tokens _ ∅ Demo.opt_tokens
                         _ _ _ _ _ _ _ _ eq_refl Hmk Hrun))).
Defined.

(** ** build_optim *)

Section Optimizers.
Context `{onmt : Onmt}.

(** C1, as the code has it.  [build_optim] never reads the checkpoint: with
    or without one it returns an optimizer created fresh from the configured
    method and learning rate, bound to the model's parameters, whose step
    counter is zero and whose numeric state is empty. *)
Theorem build_optim_always_fresh
    opt model checkpoint type optim learning_rate t :
  let fresh :=
    set_parameters
      (Optim_new optim learning_rate (max_grad_norm opt)
         (learning_rate_decay opt) (start_decay_at opt) (adam_beta1 opt)
         (adam_beta2 opt) (adagrad_accumulator_init opt) (decay_method opt)
         (warmup_steps opt) (rnn_size opt))
      (parameters model) in
  build_optim opt model checkpoint type optim learning_rate t = (Ok fresh, t)
  /\ _step fresh = 0
  /\ optimizer_state fresh = []
  /\ lr fresh = learning_rate
  /\ params fresh = parameters model.
Proof.
  intros fresh. repeat split.
  unfold build_optim. rewrite andb_false_r. reflexivity.
Qed.

End Optimizers.

(** C1, as stated, fails: resuming from a checkpoint whose generator
    optimizer was saved after 1200 steps with a non-empty numeric state,
    [build_optim] returns an optimizer at step 0 with an empty state. *)
Lemma build_optim_resume_loses_saved_state :
  truthy (train_from Demo.opt_resume) = true
  /\ checkpoint_files Demo.disk !! train_from Demo.opt_resume
     = Some Demo.checkpoint
  /\ ck_optim Demo.checkpoint !! "g_optim" = Some Demo.saved_optim
  /\ exists o,
       build_optim (onmt := Demo.lib) Demo.opt_resume ["encoder.weight"]
         (Some Demo.checkpoint) "g_optim" "adam" (1 # 1000) []
       = (Ok o, [])
       /\ _step o = 0 /\ _step Demo.saved_optim = 1200
       /\ optimizer_state o = []
       /\ optimizer_state Demo.saved_optim = [1 # 3; 2 # 7]
       /\ o <> Demo.saved_optim.
Proof.
  repeat split; try (vm_compute; reflexivity).
  eexists. split; [vm_compute; reflexivity|].
  repeat split; try reflexivity. discriminate.
Qed.

(** ** load_fields *)

Section Fields.
Context `{onmt : Onmt}.

Lemma vocab_len_ok fs k n t t' :
  vocab_len fs k t = (Ok n, t') ->
  t' = t /\ exists f v, fs !! k = Some f /\ vocab f = Some v.
Proof.
  unfold vocab_len. destruct (fs !! k) as [f|]; [|by unfold raise].
  destruct (vocab f) as [v|] eqn:Hv; unfold ret, raise; intros Heq;
    simplify_eq.
  split; [done|]. by exists f, v.
Qed.

(** C4.  Whenever [load_fields] returns, for any dataset and data type, the
    dictionary it returns has a ['per'] and a ['tgt'] field with one and the
    same vocabulary; and a [DatasetIter] built over that dictionary still
    holds the very same dictionary after it has been iterated, so the binding
    made at load time stays as it is. *)
Theorem load_fields_binds_per_to_tgt
    disk opt dataset data_type checkpoint t loaded t' :
  load_fields disk opt dataset data_type checkpoint t = (Ok loaded, t') ->
  (exists per_field tgt_field v,
     loaded !! "per" = Some per_field
     /\ loaded !! "tgt" = Some tgt_field
     /\ vocab tgt_field = Some v
     /\ vocab per_field = vocab tgt_field)
  /\ (forall disk' gopt ds o train t0 it t1 fuel t2 bs it' t3,
        make_dataset_iter disk' gopt ds loaded o train t0 = (Ok it, t1) ->
        DatasetIter_iter fuel disk' gopt it t2 = (Ok (Some (bs, it')), t3) ->
        fields it = loaded /\ fields it' = loaded).
Proof.
  intros Hload. split.
  - unfold load_fields in Hload. unfold bind at 1 in Hload. simpl in Hload.
    unfold bind at 1 in Hload.
    destruct (vocab_files disk !! vocab_file opt) as [raw|];
      [|by unfold raise in Hload].
    unfold ret at 1 in Hload. unfold bind at 1, lift at 1 in Hload.
    destruct (load_fields_from_vocab raw data_type) as [fs0|e];
      [|done].
    unfold bind at 1 in Hload.
    set (filtered := if bool_decide (fs0 = ∅) then _ else _) in Hload.
    destruct (filtered (t ++ [EvTorchLoad (vocab_file opt)]))
      as [[fs|e] t1] eqn:Hf; [|done].
    unfold bind at 1 in Hload.
    destruct (fs !! "tgt") as [tgt_field|] eqn:Htgt;
      [|by unfold raise in Hload].
    unfold ret at 1 in Hload. unfold bind at 1 in Hload.
    destruct (fs !! "per") as [per_field|] eqn:Hper;
      [|by unfold raise in Hload].
    unfold ret at 1 in Hload. unfold bind at 1 in Hload.
    set (fs' := <["per" := set_vocab per_field (vocab tgt_field)]> fs)
      in Hload.
    assert (Htgt' : fs' !! "tgt" = Some tgt_field).
    { unfold fs'. by rewrite lookup_insert_ne. }
    assert (Hlen : exists n t2, vocab_len fs' "tgt" t2 = (Ok n, t2)).
    { case_bool_decide.
      - unfold bind at 1 in Hload.
        destruct (vocab_len fs' "src" t1) as [[n1|e] t2]; [|done].
        unfold bind at 1 in Hload.
        destruct (vocab_len fs' "tgt" t2) as [[n2|e] t3] eqn:Hl; [|done].
        apply vocab_len_ok in Hl as Hl'. destruct Hl' as [-> _]. eauto.
      - unfold bind at 1 in Hload.
        destruct (vocab_len fs' "tgt" t1) as [[n2|e] t3] eqn:Hl; [|done].
        apply vocab_len_ok in Hl as Hl'. destruct Hl' as [-> _]. eauto. }
    destruct Hlen as (n & t2 & Hlen).
    apply vocab_len_ok in Hlen as (_ & f & v & Hf' & Hv).
    rewrite Htgt' in Hf'. injection Hf' as <-.
    assert (loaded = fs') as ->.
    { destruct (if bool_decide (data_type = "text") then _ else _)
        as [[[]|e] t3]; unfold ret in Hload; by simplify_eq. }
    exists (set_vocab per_field (vocab tgt_field)), tgt_field, v.
    repeat split; [|exact Htgt'|exact Hv].
    unfold fs'. by rewrite lookup_insert_eq.
  - intros disk' gopt ds o train t0 it t1 fuel t2 bs it' t3 Hmk Hrun.
    unfold make_dataset_iter in Hmk.
    apply DatasetIter_init_ok in Hmk as (Hco & Hfs & _).
    destruct (DatasetIter_iter_yields _ _ _ _ _ _ _ _ Hco Hrun) as [_ Hkeep].
    split; [exact Hfs|]. by rewrite Hkeep.
Qed.

End Fields.

Lemma load_fields_binds_per_to_tgt_witness :
  load_fields (onmt := Demo.lib) Demo.disk Demo.opt Demo.shard_a "text" None
              []
  = (Ok Demo.loaded_fields, [EvTorchLoad "data.vocab.pt"])
  /\ exists per_field tgt_field v,
       Demo.loaded_fields !! "per" = Some per_field
       /\ Demo.loaded_fields !! "tgt" = Some tgt_field
       /\ vocab tgt_field = Some v
       /\ vocab per_field = vocab tgt_field.
Proof.
  assert (Hload : load_fields (onmt := Demo.lib) Demo.disk Demo.opt
                    Demo.shard_a "text" None []
                  = (Ok Demo.loaded_fields, [EvTorchLoad "data.vocab.pt"])).
  { vm_compute. reflexivity. }
  split; [exact Hload|].
  exact (proj1 (load_fields_binds_per_to_tgt (onmt := Demo.lib) _ _ _ _ _ _ _ _
                  Hload)).
Defined.

(** ** Traces of computations *)

Section Writes.
Context {A B : Type} (P : Event -> Prop).

Lemma writes_ret (a : A) : writes P (ret a).
Proof.
  exists (Ok a), []. split; [|constructor].
  intros t. unfold ret. by rewrite app_nil_r.
Qed.

Lemma writes_raise (e : exn) : writes P (raise (A := A) e).
Proof.
  exists (Raise e), []. split; [|constructor].
  intros t. unfold raise. by rewrite app_nil_r.
Qed.

Lemma writes_lift (r : result A) : writes P (lift r).
Proof.
  exists r, []. split; [|constructor].
  intros t. unfold lift. by rewrite app_nil_r.
Qed.

Lemma writes_bind (c : M A) (k : A -> M B) :
  writes P c -> (forall a, writes P (k a)) -> writes P (bind c k).
Proof.
  intros (r & d & Hr & Hd) Hk. destruct r as [a|e].
  - destruct (Hk a) as (r' & d' & Hr' & Hd').
    exists r', (d ++ d'). split; [|by apply Forall_app].
    intros t. unfold bind. rewrite Hr, Hr'. by rewrite app_assoc.
  - exists (Raise e), d. split; [|exact Hd].
    intros t. unfold bind. by rewrite Hr.
Qed.

End Writes.

Lemma writes_emit (P : Event -> Prop) ev : P ev -> writes P (emit ev).
Proof.
  intros Hev. exists (Ok tt), [ev]. split; [done|]. by constructor.
Qed.

Lemma writes_impl {A} (P Q : Event -> Prop) (c : M A) :
  (forall ev, P ev -> Q ev) -> writes P c -> writes Q c.
Proof.
  intros HPQ (r & d & Hr & Hd). exists r, d. split; [exact Hr|].
  eapply Forall_impl; [exact Hd|exact HPQ].
Qed.

Ltac writes_step :=
  first
    [ apply writes_ret
    | apply writes_raise
    | apply writes_lift
    | apply writes_emit; exact I
    | apply writes_bind; [|intros]
    | match goal with
      | |- writes _ (match ?x with _ => _ end) => destruct x
      | |- writes _ (let _ := _ in _) => cbv zeta
      end ].

Ltac writes_auto := repeat writes_step.

Lemma writes_torch_load_dataset disk pt :
  writes is_data (torch_load_dataset disk pt).
Proof. unfold torch_load_dataset. writes_auto. Qed.

Lemma writes_dataset_loader disk pt ct :
  writes is_data (dataset_loader disk pt ct).
Proof.
  unfold dataset_loader. apply writes_bind; [|intros; apply writes_ret].
  apply writes_torch_load_dataset.
Qed.

Lemma writes_load_dataset_next disk opt g :
  writes is_data (load_dataset_next disk opt g).
Proof.
  unfold load_dataset_next. destruct g as [ct|ct pending|].
  - case_bool_decide; [|apply writes_raise].
    destruct (sorted _);
      (apply writes_bind; [apply writes_dataset_loader|intros; writes_auto]).
  - destruct pending; [writes_auto|].
    apply writes_bind; [apply writes_dataset_loader|intros; writes_auto].
  - writes_auto.
Qed.

Lemma writes_datasets_next disk opt ds :
  writes is_data (datasets_next disk opt ds).
Proof.
  unfold datasets_next. destruct (buffered ds); [|writes_auto].
  apply writes_bind; [apply writes_load_dataset_next|intros; writes_auto].
Qed.

Lemma writes_next_dataset_iterator disk opt self :
  writes is_data (_next_dataset_iterator disk opt self).
Proof.
  unfold _next_dataset_iterator.
  apply writes_bind; [apply writes_datasets_next|intros; writes_auto].
Qed.

Lemma writes_DatasetIter_init disk opt ds fs bsz bfn dev train :
  writes is_data (DatasetIter_init disk opt ds fs bsz bfn dev train).
Proof.
  unfold DatasetIter_init.
  apply writes_bind; [apply writes_next_dataset_iterator|intros; writes_auto].
Qed.

Lemma writes_make_dataset_iter disk gopt ds fs opt train :
  writes is_data (make_dataset_iter disk gopt ds fs opt train).
Proof. unfold make_dataset_iter. apply writes_DatasetIter_init. Qed.

Lemma writes_yield_all bs : writes is_data (yield_all bs).
Proof. induction bs as [|b bs IH]; simpl; writes_auto. exact IH. Qed.

Lemma writes_DatasetIter_iter disk opt fuel :
  forall self, writes is_data (DatasetIter_iter fuel disk opt self).
Proof.
  induction fuel as [|fuel IH]; intros self; simpl; [writes_auto|].
  destruct (cur_iter self); [|writes_auto].
  apply writes_bind; [apply writes_yield_all|intros _].
  apply writes_bind; [apply writes_next_dataset_iterator|intros r].
  apply writes_bind; [apply IH|intros; writes_auto].
Qed.

Lemma writes_consume disk opt self : writes is_data (consume disk opt self).
Proof.
  unfold consume.
  apply writes_bind; [apply writes_DatasetIter_iter|intros; writes_auto].
Qed.

Lemma phases_app t1 t2 : phases (t1 ++ t2) = phases t1 ++ phases t2.
Proof. apply omap_app. Qed.

Lemma phases_data d : Forall is_data d -> phases d = [].
Proof.
  induction 1 as [|ev d Hev _ IH]; [done|].
  unfold phases in *. simpl. destruct ev; simpl in *; done.
Qed.

Lemma trained_app t1 t2 : trained (t1 ++ t2) = trained t1 ++ trained t2.
Proof. apply omap_app. Qed.

Lemma trained_data d : Forall is_data d -> trained d = [].
Proof.
  induction 1 as [|ev d Hev _ IH]; [done|].
  unfold trained in *. simpl. destruct ev; simpl in *; done.
Qed.

(** ** train_model *)

Ltac step_data H lem :=
  match type of H with
  | bind ?c _ _ = _ =>
      let r := fresh "r" in
      let d := fresh "d" in
      let Hr := fresh "Hr" in
      let Hd := fresh "Hd" in
      destruct (lem : writes is_data c) as (r & d & Hr & Hd);
      unfold bind at 1 in H; rewrite Hr in H;
      destruct r as [?|?]; [|discriminate H]
  end.

Ltac step_emit H :=
  unfold bind at 1, emit at 1 in H; cbv beta iota in H.

Ltac step_lift H :=
  match type of H with
  | bind (lift ?r) _ _ = _ =>
      let Hl := fresh "Hl" in
      unfold bind at 1, lift at 1 in H;
      destruct r as [?|?] eqn:Hl; [|discriminate H]
  end.

Lemma runs_unique {A} (c : M A) r1 d1 r2 d2 :
  runs c r1 d1 -> runs c r2 d2 -> r1 = r2 /\ d1 = d2.
Proof.
  intros H1 H2. specialize (H1 []). specialize (H2 []).
  rewrite H1 in H2. by injection H2.
Qed.

(** *** What the iterators open and what they hand over *)

Lemma yields_app t1 t2 : yields (t1 ++ t2) = yields t1 ++ yields t2.
Proof. apply omap_app. Qed.

Lemma yields_yield_all bs : yields (map EvYield bs) = bs.
Proof. induction bs as [|b bs IH]; [done|]. simpl. by rewrite IH. Qed.

Lemma yields_opens d : Forall is_load d -> yields d = [].
Proof.
  induction 1 as [|ev d Hev _ IH]; [done|].
  destruct ev; try contradiction. exact IH.
Qed.

Lemma opens_torch_load_dataset disk pt :
  writes is_load (torch_load_dataset disk pt).
Proof. unfold torch_load_dataset. writes_auto. Qed.

Lemma opens_dataset_loader disk pt ct :
  writes is_load (dataset_loader disk pt ct).
Proof.
  unfold dataset_loader. apply writes_bind; [|intros; apply writes_ret].
  apply opens_torch_load_dataset.
Qed.

Lemma opens_load_dataset_next disk opt g :
  writes is_load (load_dataset_next disk opt g).
Proof.
  unfold load_dataset_next. destruct g as [ct|ct pending|].
  - case_bool_decide; [|apply writes_raise].
    destruct (sorted _);
      (apply writes_bind; [apply opens_dataset_loader|intros; writes_auto]).
  - destruct pending; [writes_auto|].
    apply writes_bind; [apply opens_dataset_loader|intros; writes_auto].
  - writes_auto.
Qed.

Lemma opens_datasets_next disk opt ds :
  writes is_load (datasets_next disk opt ds).
Proof.
  unfold datasets_next. destruct (buffered ds); [|writes_auto].
  apply writes_bind; [apply opens_load_dataset_next|intros; writes_auto].
Qed.

Lemma opens_next_dataset_iterator disk opt self :
  writes is_load (_next_dataset_iterator disk opt self).
Proof.
  unfold _next_dataset_iterator.
  apply writes_bind; [apply opens_datasets_next|intros; writes_auto].
Qed.

(** Building a [DatasetIter] opens files and yields no batch. *)
Lemma opens_make_dataset_iter disk gopt ds fs opt train :
  writes is_load (make_dataset_iter disk gopt ds fs opt train).
Proof.
  unfold make_dataset_iter, DatasetIter_init.
  apply writes_bind; [apply opens_next_dataset_iterator|intros; writes_auto].
Qed.

Lemma make_dataset_iter_yields_nothing disk gopt ds fs opt train r d :
  runs (make_dataset_iter disk gopt ds fs opt train) r d -> yields d = [].
Proof.
  intros Hr.
  destruct (opens_make_dataset_iter disk gopt ds fs opt train)
    as (r' & d' & Hr' & Hd').
  destruct (runs_unique _ _ _ _ _ Hr Hr') as [_ ->].
  by apply yields_opens.
Qed.

(** The batches an iteration returns are the batches it has yielded. *)
Lemma DatasetIter_iter_hands_over disk opt fuel :
  forall self t bs self' t',
    DatasetIter_iter fuel disk opt self t = (Ok (Some (bs, self')), t') ->
    exists d, t' = t ++ d /\ yields d = bs.
Proof.
  induction fuel as [|fuel IH]; intros self t bs self' t' H; simpl in H;
    [discriminate H|].
  destruct (cur_iter self) as [it|].
  2:{ unfold ret in H. injection H as <- _ <-.
      exists []. by rewrite app_nil_r. }
  unfold bind at 1 in H. rewrite yield_all_spec in H.
  destruct (opens_next_dataset_iterator disk opt self)
    as (r & d1 & Hr & Hd1).
  unfold bind at 1 in H. rewrite Hr in H.
  destruct r as [r|e]; [|discriminate H].
  unfold bind at 1 in H.
  destruct (DatasetIter_iter fuel disk opt _ _) as [[[[bs' s']|]|e] t1] eqn:E;
    unfold ret in H; try discriminate H.
  injection H as <- _ <-.
  destruct (IH _ _ _ _ _ E) as (d2 & -> & Hy).
  exists (map EvYield (create_batches it) ++ d1 ++ d2).
  split; [by rewrite <- !app_assoc|].
  rewrite !yields_app, yields_yield_all, (yields_opens d1 Hd1), Hy.
  reflexivity.
Qed.

Lemma consume_hands_over disk opt self bs d :
  runs (consume disk opt self) (Ok bs) d -> yields d = bs.
Proof.
  intros Hr. specialize (Hr []). unfold consume, bind in Hr.
  destruct (DatasetIter_iter _ disk opt self [])
    as [[[[bs' s']|]|e] t1] eqn:E; unfold ret, raise in Hr;
    try discriminate Hr.
  injection Hr as -> ->.
  destruct (DatasetIter_iter_hands_over _ _ _ _ _ _ _ _ E) as (d' & Hd & Hy).
  simpl in Hd. by subst d'.
Qed.

Section Epochs.
Context `{onmt : Onmt}.

(** C9.  An epoch of [train_model] that runs to its end has passed, in this
    order: training on the training set, validation on the validation set,
    the rate update, called with the perplexity of the statistics that the
    validation just returned, and then, exactly when the epoch number has
    reached [start_checkpoint_at], the writing of a checkpoint.  The batches
    [trainer.train] receives are those yielded by a training iterator over
    [load_dataset("train")], the batches [trainer.validate] receives are
    those yielded by an iterator with [is_train=False] over
    [load_dataset("valid")], and the trace of the epoch is that of these
    iterators and of the four calls, in this order. *)
Theorem train_epoch_phase_order
    disk opt model_opt fs trainer epoch t trainer' t' :
  train_epoch disk opt model_opt fs trainer epoch t = (Ok trainer', t') ->
  exists d train_batches train_stats trainer1 valid_batches valid_stats,
    t' = t ++ d
    /\ trainer_train trainer train_batches epoch = Ok (train_stats, trainer1)
    /\ trainer_validate trainer1 valid_batches = Ok valid_stats
    /\ phases d
       = [Training epoch; Validating;
          RateUpdate (stats_ppl valid_stats) epoch]
         ++ (if bool_decide (start_checkpoint_at opt <= epoch)
             then [CheckpointWrite epoch] else [])
    /\ trainer_epoch_step trainer1 (stats_ppl valid_stats) epoch
       = Ok trainer'
    /\ (start_checkpoint_at opt <= epoch ->
        trainer_drop_checkpoint trainer' model_opt epoch fs valid_stats
        = Ok tt)
    /\ exists train_iter d_ti d_tb valid_iter d_vi d_vb,
         runs (make_dataset_iter disk opt (generator_iter (GenCreated "train"))
                                 fs opt true)
              (Ok train_iter) d_ti
         /\ runs (consume disk opt train_iter) (Ok train_batches) d_tb
         /\ runs (make_dataset_iter disk opt
                                    (generator_iter (GenCreated "valid"))
                                    fs opt false)
                 (Ok valid_iter) d_vi
         /\ runs (consume disk opt valid_iter) (Ok valid_batches) d_vb
         /\ yields d_ti = [] /\ yields d_tb = train_batches
         /\ yields d_vi = [] /\ yields d_vb = valid_batches
         /\ d = d_ti ++ [EvTrain epoch] ++ d_tb
                ++ d_vi ++ [EvValidate] ++ d_vb
                ++ (if truthy (exp_host opt)
                    then [EvLog "train"; EvLog "valid"] else [])
                ++ [EvEpochStep (stats_ppl valid_stats) epoch]
                ++ (if bool_decide (start_checkpoint_at opt <= epoch)
                    then [EvDropCheckpoint epoch] else []).
Proof.
  unfold train_epoch. intros H.
  unfold bind at 1, load_dataset at 1, ret at 1 in H.
  step_data H (writes_make_dataset_iter disk opt
                 (generator_iter (GenCreated "train")) fs opt true).
  step_emit H.
  match type of H with
  | bind (consume _ _ ?it) _ _ = _ =>
      step_data H (writes_consume disk opt it)
  end.
  step_lift H.
  cbn [fst snd] in H.
  unfold bind at 1 in H.
  destruct (n_batch _ =? 0); [discriminate H|].
  unfold ret at 1 in H.
  unfold bind at 1, load_dataset at 1, ret at 1 in H.
  step_data H (writes_make_dataset_iter disk opt
                 (generator_iter (GenCreated "valid")) fs opt false).
  step_emit H.
  match type of H with
  | bind (consume _ _ ?it) _ _ = _ =>
      step_data H (writes_consume disk opt it)
  end.
  step_lift H.
  destruct a1 as [train_stats trainer1]. cbn [fst snd] in *.
  assert (Hfinish :
    forall t0,
      (emit (EvEpochStep (stats_ppl a4) epoch);;;
       trainer <- lift (trainer_epoch_step trainer1 (stats_ppl a4) epoch);;
       (if bool_decide (start_checkpoint_at opt <= epoch)
        then
          emit (EvDropCheckpoint epoch);;;
          lift (trainer_drop_checkpoint trainer model_opt epoch fs a4)
        else ret ());;;
       ret trainer) t0 = (Ok trainer', t') ->
      t' = t0 ++ [EvEpochStep (stats_ppl a4) epoch]
              ++ (if bool_decide (start_checkpoint_at opt <= epoch)
                  then [EvDropCheckpoint epoch] else [])
      /\ trainer_epoch_step trainer1 (stats_ppl a4) epoch = Ok trainer'
      /\ (start_checkpoint_at opt <= epoch ->
          trainer_drop_checkpoint trainer' model_opt epoch fs a4 = Ok tt)).
  { intros t0 Hk. step_emit Hk. step_lift Hk.
    unfold bind at 1 in Hk. case_bool_decide.
    - step_emit Hk. unfold lift at 1 in Hk.
      destruct (trainer_drop_checkpoint _ _ _ _ _) as [[]|] eqn:Hdrop;
        [|discriminate Hk].
      unfold ret in Hk. injection Hk as -> <-.
      rewrite <- !app_assoc. split; [reflexivity|]. split; [reflexivity|].
      intros _. exact Hdrop.
    - unfold ret in Hk. injection Hk as -> <-.
      rewrite app_nil_r. split; [reflexivity|]. split; [reflexivity|].
      intros Hle. contradiction. }
  assert (Hend :
            t' = (t ++ d ++ [EvTrain epoch] ++ d0 ++ d1 ++ [EvValidate] ++ d2)
                 ++ (if truthy (exp_host opt)
                     then [EvLog "train"; EvLog "valid"] else [])
                 ++ [EvEpochStep (stats_ppl a4) epoch]
                 ++ (if bool_decide (start_checkpoint_at opt <= epoch)
                     then [EvDropCheckpoint epoch] else [])
            /\ trainer_epoch_step trainer1 (stats_ppl a4) epoch = Ok trainer'
            /\ (start_checkpoint_at opt <= epoch ->
                trainer_drop_checkpoint trainer' model_opt epoch fs a4
                = Ok tt)).
  { rewrite <- !app_assoc in H. unfold bind at 1 in H.
    destruct (truthy (exp_host opt)).
    - step_emit H. unfold emit at 1 in H. cbv beta iota in H.
      destruct (Hfinish _ H) as (-> & Hstep & Hdrop).
      split; [by rewrite <- !app_assoc|]. by split.
    - unfold ret at 1 in H.
      destruct (Hfinish _ H) as (-> & Hstep & Hdrop).
      split; [by rewrite <- !app_assoc|]. by split. }
  destruct Hend as (-> & Hstep & Hdrop).
  eexists _, a0, train_stats, trainer1, a3, a4.
  split; [rewrite <- !app_assoc; reflexivity|].
  split; [exact Hl|]. split; [exact Hl0|].
  split.
  { rewrite !phases_app.
    rewrite (phases_data d Hd), (phases_data d0 Hd0), (phases_data d1 Hd1),
      (phases_data d2 Hd2).
    destruct (truthy (exp_host opt)); case_bool_decide; reflexivity. }
  split; [exact Hstep|]. split; [exact Hdrop|].
  exists a, d, d0, a2, d1, d2.
  split; [exact Hr|]. split; [exact Hr0|].
  split; [exact Hr1|]. split; [exact Hr2|].
  split; [exact (make_dataset_iter_yields_nothing _ _ _ _ _ _ _ _ Hr)|].
  split; [exact (consume_hands_over _ _ _ _ _ Hr0)|].
  split; [exact (make_dataset_iter_yields_nothing _ _ _ _ _ _ _ _ Hr1)|].
  split; [exact (consume_hands_over _ _ _ _ _ Hr2)|].
  reflexivity.
Qed.

End Epochs.

Lemma train_epoch_phase_order_witness :
  exists t',
    train_epoch (onmt := Demo.lib) Demo.disk Demo.opt Demo.opt
                Demo.loaded_fields tt 1 [] = (Ok tt, t')
    /\ exists d train_batches train_stats trainer1 valid_batches valid_stats,
         t' = [] ++ d
         /\ trainer_train (Onmt := Demo.lib) tt train_batches 1
            = Ok (train_stats, trainer1)
         /\ trainer_validate (Onmt := Demo.lib) trainer1 valid_batches
            = Ok valid_stats
         /\ phases d
            = [Training 1; Validating;
               RateUpdate (stats_ppl (Onmt := Demo.lib) valid_stats) 1]
              ++ (if bool_decide (start_checkpoint_at Demo.opt <= 1)
                  then [CheckpointWrite 1] else [])
         /\ exists train_iter d_ti d_tb valid_iter d_vi d_vb,
              runs (make_dataset_iter Demo.disk Demo.opt
                      (generator_iter (GenCreated "train"))
                      Demo.loaded_fields Demo.opt true)
                   (Ok train_iter) d_ti
              /\ runs (consume Demo.disk Demo.opt train_iter)
                      (Ok train_batches) d_tb
              /\ runs (make_dataset_iter Demo.disk Demo.opt
                         (generator_iter (GenCreated "valid"))
                         Demo.loaded_fields Demo.opt false)
                      (Ok valid_iter) d_vi
              /\ runs (consume Demo.disk Demo.opt valid_iter)
                      (Ok valid_batches) d_vb
              /\ yields d_tb = train_batches
              /\ yields d_vb = valid_batches
              /\ loads d_ti = ["data.train.0.pt"]
              /\ loads d_tb = ["data.train.1.pt"]
              /\ loads (d_vi ++ d_vb) = ["data.valid.pt"].
Proof.
  destruct (train_epoch (onmt := Demo.lib) Demo.disk Demo.opt Demo.opt
              Demo.loaded_fields tt 1 []) as [[[]|e] t'] eqn:Hrun;
    [|vm_compute in Hrun; discriminate Hrun].
  exists t'. split; [reflexivity|].
  destruct (train_epoch_phase_order (onmt := Demo.lib) _ _ _ _ _ _ _ _ _ Hrun)
    as (d & tb & ts & tr1 & vb & vs & Ht & Htrain & Hvalid & Hph & _ & _
        & ti & d_ti & d_tb & vi & d_vi & d_vb
        & Hti & Htb & Hvi & Hvb & _ & Hytb & _ & Hyvb & _).
  exists d, tb, ts, tr1, vb, vs.
  split; [exact Ht|]. split; [exact Htrain|]. split; [exact Hvalid|].
  split; [exact Hph|].
  exists ti, d_ti, d_tb, vi, d_vi, d_vb.
  split; [exact Hti|]. split; [exact Htb|].
  split; [exact Hvi|]. split; [exact Hvb|].
  split; [exact Hytb|]. split; [exact Hyvb|].
  pose proof (Hti []) as E1. vm_compute in E1. injection E1 as <- <-.
  pose proof (Htb []) as E2. vm_compute in E2. injection E2 as <- <-.
  pose proof (Hvi []) as E3. vm_compute in E3. injection E3 as <- <-.
  pose proof (Hvb []) as E4. vm_compute in E4. injection E4 as <- <-.
  vm_compute. repeat split.
Defined.

(** ** Module-level checks *)

Lemma runs_bind_raise {A B} (c : M A) (k : A -> M B) e d :
  runs c (Raise e) d -> runs (bind c k) (Raise e) d.
Proof. intros Hr t. unfold bind. by rewrite Hr. Qed.

Lemma runs_bind_ok {A B} (c : M A) (k : A -> M B) a d r d' :
  runs c (Ok a) d -> runs (k a) r d' -> runs (bind c k) r (d ++ d').
Proof.
  intros Hr Hk t. unfold bind. rewrite Hr, Hk. by rewrite app_assoc.
Qed.

Lemma runs_ret {A} (a : A) : runs (ret a) (Ok a) [].
Proof. intros t. unfold ret. by rewrite app_nil_r. Qed.

Lemma runs_raise {A} e : runs (raise (A := A) e) (Raise e) [].
Proof. intros t. unfold raise. by rewrite app_nil_r. Qed.

Lemma runs_emit ev : runs (emit ev) (Ok tt) [ev].
Proof. intros t. reflexivity. Qed.

Lemma runs_seed (b : bool) ev :
  runs (if b then emit ev else ret tt) (Ok tt) (if b then [ev] else []).
Proof. destruct b; [apply runs_emit|apply runs_ret]. Qed.

(** The SRU check fires after at most the seeding of the random generators. *)
Lemma module_level_sru opt :
  rnn_type opt = "SRU" -> gpuid opt = [] ->
  runs (module_level opt)
       (Raise (AssertionError "Using SRU requires -gpuid set."))
       (if 0 <? seed opt then [EvSeed (seed opt)] else []).
Proof.
  intros Hsru Hgpu. unfold module_level.
  rewrite <- (app_nil_r (if 0 <? seed opt then _ else _)).
  eapply runs_bind_ok; [apply runs_seed|].
  apply runs_bind_raise. unfold use_gpu. rewrite Hsru, Hgpu. simpl.
  apply runs_raise.
Qed.

(** With two or more devices the script selects the first device, writes
    the message to standard error and exits. *)
Lemma module_level_multigpu opt d0 d1 rest :
  gpuid opt = d0 :: d1 :: rest ->
  runs (module_level opt) (Raise (SystemExit 1))
       ((if 0 <? seed opt then [EvSeed (seed opt)] else [])
        ++ [EvSetDevice d0]
        ++ (if 0 <? seed opt then [EvCudaSeed (seed opt)] else [])
        ++ [EvStderr multigpu_message]).
Proof.
  intros Hgpu t. unfold module_level, use_gpu, bind, emit, ret, raise.
  rewrite Hgpu, andb_false_r.
  destruct (0 <? seed opt); simpl; rewrite <- ?app_assoc; reflexivity.
Qed.

Section Startup.
Context `{onmt : Onmt}.

(** C8.  With [rnn_type = 'SRU'] and no device, the script ends in the
    assertion error of the SRU check; with more than one device it writes
    its message to standard error and exits with status 1.  In both cases
    [main] is never entered: no file has been handed to [torch.load] and no
    training has been started. *)
Theorem unsupported_configuration_rejected_at_startup disk opt :
  (rnn_type opt = "SRU" /\ gpuid opt = []) \/ (1 < length (gpuid opt))%nat ->
  exists e d,
    runs (program disk opt) (Raise e) d
    /\ loads d = [] /\ trained d = []
    /\ (gpuid opt = [] ->
        e = AssertionError "Using SRU requires -gpuid set.")
    /\ ((1 < length (gpuid opt))%nat ->
        e = SystemExit 1 /\ last d = Some (EvStderr multigpu_message)).
Proof.
  intros [[Hsru Hgpu]|Hmany].
  - eexists _, _. split.
    { unfold program. apply runs_bind_raise.
      apply (module_level_sru opt Hsru Hgpu). }
    split; [by destruct (0 <? seed opt)|].
    split; [by destruct (0 <? seed opt)|].
    split; [done|]. rewrite Hgpu. simpl. lia.
  - destruct (gpuid opt) as [|d0 [|d1 rest]] eqn:Hgpu;
      [simpl in Hmany; lia..|].
    eexists _, _. split.
    { unfold program. apply runs_bind_raise.
      apply (module_level_multigpu opt d0 d1 rest Hgpu). }
    split; [by destruct (0 <? seed opt)|].
    split; [by destruct (0 <? seed opt)|].
    split; [done|]. intros _. split; [done|].
    by destruct (0 <? seed opt).
Qed.

End Startup.

Lemma unsupported_configuration_witness :
  (exists d,
     runs (program (onmt := Demo.lib) Demo.disk Demo.opt_sru)
          (Raise (AssertionError "Using SRU requires -gpuid set.")) d
     /\ loads d = [])
  /\ (exists d,
        runs (program (onmt := Demo.lib) Demo.disk Demo.opt_multigpu)
             (Raise (SystemExit 1)) d
        /\ loads d = []
        /\ last d = Some (EvStderr multigpu_message)).
Proof.
  split.
  - destruct (unsupported_configuration_rejected_at_startup
                (onmt := Demo.lib) Demo.disk Demo.opt_sru
                (or_introl (conj eq_refl eq_refl)))
      as (e & d & Hr & Hl & _ & He & _).
    rewrite (He eq_refl) in Hr. exists d. split; [exact Hr|exact Hl].
  - assert (Hmany : (1 < length (gpuid Demo.opt_multigpu))%nat)
      by (simpl; lia).
    destruct (unsupported_configuration_rejected_at_startup
                (onmt := Demo.lib) Demo.disk Demo.opt_multigpu
                (or_intror Hmany))
      as (e & d & Hr & Hl & _ & _ & He).
    destruct (He Hmany) as [-> Hlast].
    exists d. split; [exact Hr|]. split; [exact Hl|exact Hlast].
Defined.

(** ** Resuming from a checkpoint *)

Lemma trains_within_raise {A} es e : trains_within es (raise (A := A) e).
Proof.
  exists (Raise e), []. split; [apply runs_raise|].
  split; [apply prefix_nil|done].
Qed.

Lemma trains_within_ret {A} (a : A) : trains_within [] (ret a).
Proof. exists (Ok a), []. split; [apply runs_ret|]. by split. Qed.

(** A step that only reads data leaves the epochs to what follows it. *)
Lemma trains_within_data {A B} es (c : M A) (k : A -> M B) :
  (exists r d, runs c r d /\ Forall is_data d
               /\ forall a, r = Ok a -> trains_within es (k a)) ->
  trains_within es (bind c k).
Proof.
  intros (r & d & Hr & Hd & Hk). destruct r as [a|e].
  - destruct (Hk a eq_refl) as (r' & d' & Hr' & Hpre & Hall).
    exists r', (d ++ d'). split; [by eapply runs_bind_ok|].
    rewrite trained_app, (trained_data d Hd). by split.
  - exists (Raise e), d. split; [by apply runs_bind_raise|].
    rewrite (trained_data d Hd). split; [apply prefix_nil|done].
Qed.

Lemma trains_within_writes {A B} es (c : M A) (k : A -> M B) :
  writes is_data c -> (forall a, trains_within es (k a)) ->
  trains_within es (bind c k).
Proof.
  intros (r & d & Hr & Hd) Hk. apply trains_within_data.
  exists r, d. split; [exact Hr|]. split; [exact Hd|]. intros a _. apply Hk.
Qed.

Lemma trained_no_train d : Forall no_train d -> trained d = [].
Proof.
  induction 1 as [|ev d Hev _ IH]; [done|].
  unfold trained in *. simpl. destruct ev; simpl in *; done.
Qed.

Lemma is_data_no_train ev : is_data ev -> no_train ev.
Proof. by destruct ev. Qed.

Section Resume.
Context `{onmt : Onmt}.

Lemma writes_train_epoch_tail disk opt model_opt fs trainer epoch
    (train_iter : DatasetIter) :
  writes no_train
    (train_batches <- consume disk opt train_iter ;;
     r <- lift (trainer_train trainer train_batches epoch) ;;
     let train_stats := fst r in
     let trainer := snd r in
     (if n_batch train_stats =? 0 then raise ZeroDivisionError else ret tt) ;;;
     valid_datasets <- load_dataset "valid" ;;
     valid_iter <-
       make_dataset_iter disk opt (generator_iter valid_datasets) fs opt
                         false ;;
     emit EvValidate ;;;
     valid_batches <- consume disk opt valid_iter ;;
     valid_stats <- lift (trainer_validate trainer valid_batches) ;;
     (if truthy (exp_host opt)
      then emit (EvLog "train") ;;; emit (EvLog "valid")
      else ret tt) ;;;
     emit (EvEpochStep (stats_ppl valid_stats) epoch) ;;;
     trainer <- lift (trainer_epoch_step trainer (stats_ppl valid_stats)
                                         epoch) ;;
     (if bool_decide (start_checkpoint_at opt <= epoch)
      then
        emit (EvDropCheckpoint epoch) ;;;
        lift (trainer_drop_checkpoint trainer model_opt epoch fs valid_stats)
      else ret tt) ;;;
     ret trainer).
Proof.
  apply writes_bind;
    [eapply writes_impl; [apply is_data_no_train|apply writes_consume]|].
  intros train_batches. apply writes_bind; [apply writes_lift|]. intros r.
  cbv zeta. apply writes_bind; [writes_auto|]. intros _.
  apply writes_bind; [unfold load_dataset; apply writes_ret|]. intros g.
  apply writes_bind;
    [eapply writes_impl;
       [apply is_data_no_train|apply writes_make_dataset_iter]|].
  intros valid_iter. apply writes_bind; [apply writes_emit; exact I|].
  intros _. apply writes_bind;
    [eapply writes_impl; [apply is_data_no_train|apply writes_consume]|].
  intros valid_batches. apply writes_bind; [apply writes_lift|].
  intros valid_stats.
  apply writes_bind; [writes_auto|]. intros _.
  apply writes_bind; [apply writes_emit; exact I|]. intros _.
  apply writes_bind; [apply writes_lift|]. intros trainer1.
  apply writes_bind; [|intros; apply writes_ret].
  case_bool_decide; [|apply writes_ret].
  apply writes_bind; [apply writes_emit; exact I|]. intros _.
  apply writes_lift.
Qed.

Lemma train_epoch_trains disk opt model_opt fs trainer epoch :
  exists r d,
    runs (train_epoch disk opt model_opt fs trainer epoch) r d
    /\ trained d `prefix_of` [epoch]
    /\ (forall a, r = Ok a -> trained d = [epoch]).
Proof.
  unfold train_epoch.
  destruct (writes_make_dataset_iter disk opt
              (generator_iter (GenCreated "train")) fs opt true)
    as (r1 & d1 & Hr1 & Hd1).
  destruct r1 as [train_iter|e].
  - destruct (writes_train_epoch_tail disk opt model_opt fs trainer epoch
                train_iter) as (r2 & d2 & Hr2 & Hd2).
    exists r2, (d1 ++ [EvTrain epoch] ++ d2).
    split.
    + intros t. unfold bind at 1, load_dataset at 1, ret at 1.
      unfold bind at 1. rewrite Hr1. unfold bind at 1, emit at 1.
      etrans; [exact (Hr2 _)|]. by rewrite <- !app_assoc.
    + rewrite !trained_app, (trained_data d1 Hd1),
        (trained_no_train d2 Hd2).
      by split.
  - exists (Raise e), d1. split.
    + intros t. unfold bind at 1, load_dataset at 1, ret at 1.
      unfold bind at 1. by rewrite Hr1.
    + rewrite (trained_data d1 Hd1). split; [apply prefix_nil|done].
Qed.

Lemma train_epochs_trains disk opt model_opt fs es :
  forall trainer,
    trains_within es (train_epochs disk opt model_opt fs trainer es).
Proof.
  induction es as [|epoch es IH]; intros trainer; simpl.
  - apply trains_within_ret.
  - destruct (train_epoch_trains disk opt model_opt fs trainer epoch)
      as (r & d & Hr & Hpre & Hall).
    destruct r as [trainer1|e].
    + destruct (IH trainer1) as (r' & d' & Hr' & Hpre' & Hall').
      exists r', (d ++ d'). split; [by eapply runs_bind_ok|].
      rewrite trained_app, (Hall trainer1 eq_refl). simpl.
      split; [by apply prefix_cons|].
      intros a Ha. by rewrite (Hall' a Ha).
    + exists (Raise e), d. split; [by apply runs_bind_raise|].
      split; [|done].
      etrans; [exact Hpre|]. apply prefix_cons, prefix_nil.
Qed.

Lemma train_model_trains disk opt model disc nli fs g_o d_o n_o dt model_opt :
  trains_within (range (start_epoch opt) (epochs opt + 1))
    (train_model disk opt model disc nli fs g_o d_o n_o dt model_opt).
Proof.
  unfold train_model. apply trains_within_writes; [writes_auto|].
  intros tgt_vocab. cbv zeta.
  destruct (train_epochs_trains disk opt model_opt fs
              (range (start_epoch opt) (epochs opt + 1))
              (Trainer_new model disc nli
                 (make_loss_compute model tgt_vocab opt)
                 (make_loss_compute model tgt_vocab opt) g_o d_o n_o
                 (truncated_decoder opt) (max_generator_batches opt) dt
                 (normalization opt) (accum_count opt)))
    as (r & d & Hr & Hpre & Hall).
  destruct r as [tr|e].
  - exists (Ok tt), d. split.
    + rewrite <- (app_nil_r d). eapply runs_bind_ok; [exact Hr|].
      apply runs_ret.
    + split; [exact Hpre|]. intros _ _. by apply (Hall tr).
  - exists (Raise e), d. split; [by apply runs_bind_raise|].
    split; [exact Hpre|done].
Qed.

End Resume.

Lemma head_range a b e : head (range a b) = Some e -> e = a.
Proof.
  unfold range. destruct (Z.to_nat (b - a)) as [|n]; simpl; [done|].
  intros Heq. injection Heq as <-. lia.
Qed.

Lemma head_prefix {A} (l1 l2 : list A) x :
  l1 `prefix_of` l2 -> head l1 = Some x -> head l2 = Some x.
Proof. intros [k ->]. by destruct l1. Qed.

Section ResumeMain.
Context `{onmt : Onmt}.

Lemma writes_torch_load_checkpoint disk path :
  writes is_data (torch_load_checkpoint disk path).
Proof. unfold torch_load_checkpoint. writes_auto. Qed.

(** The checkpoint block of [main] when [train_from] names a file on disk. *)
Lemma main_checkpoint_resume disk opt ck :
  truthy (train_from opt) = true ->
  checkpoint_files disk !! train_from opt = Some ck ->
  exists r d,
    runs (main_checkpoint disk opt) r d
    /\ Forall is_data d
    /\ forall a, r = Ok a ->
         a.1.1.1 = Some ck /\ a.1.2 = ck_opt ck
         /\ a.2 = set_start_epoch opt (ck_epoch ck + 1).
Proof.
  intros Htf Hck. unfold main_checkpoint. rewrite Htf.
  destruct (truthy (d_train_from opt)) eqn:Hdtf.
  - destruct (checkpoint_files disk !! d_train_from opt) as [dck|] eqn:Hdck.
    + exists (Ok (Some ck, Some dck, ck_opt ck,
                  set_start_epoch opt (ck_epoch ck + 1))),
        [EvTorchLoad (train_from opt); EvTorchLoad (d_train_from opt)].
      split.
      { intros t. unfold torch_load_checkpoint, bind, emit, ret.
        rewrite Hck. cbn [d_train_from set_start_epoch]. rewrite Hdtf, Hdck.
        by rewrite <- app_assoc. }
      split; [by repeat constructor|].
      intros a Ha. by injection Ha as <-.
    + exists (Raise (FileNotFoundError (d_train_from opt))),
        [EvTorchLoad (train_from opt); EvTorchLoad (d_train_from opt)].
      split.
      { intros t. unfold torch_load_checkpoint, bind, emit, ret, raise.
        rewrite Hck. cbn [d_train_from set_start_epoch]. rewrite Hdtf, Hdck.
        by rewrite <- app_assoc. }
      split; [by repeat constructor|done].
  - exists (Ok (Some ck, None, ck_opt ck,
                set_start_epoch opt (ck_epoch ck + 1))),
      [EvTorchLoad (train_from opt)].
    split.
    { intros t. unfold torch_load_checkpoint, bind, emit, ret.
      rewrite Hck. cbn [d_train_from set_start_epoch]. by rewrite Hdtf. }
    split; [by repeat constructor|].
    intros a Ha. by injection Ha as <-.
Qed.

Lemma writes_load_fields disk opt dataset dt checkpoint :
  writes is_data (load_fields disk opt dataset dt checkpoint).
Proof.
  unfold load_fields, vocab_len. writes_auto.
Qed.

Lemma writes_build_model model_opt opt fs checkpoint d_checkpoint :
  writes is_data (build_model model_opt opt fs checkpoint d_checkpoint).
Proof. unfold build_model. writes_auto. Qed.

Lemma writes_build_optim opt model checkpoint type optim lr :
  writes is_data (build_optim opt model checkpoint type optim lr).
Proof. unfold build_optim. writes_auto. Qed.

Lemma main_trains_resumed disk opt ck :
  truthy (train_from opt) = true ->
  checkpoint_files disk !! train_from opt = Some ck ->
  trains_within (range (ck_epoch ck + 1) (epochs opt + 1)) (main disk opt).
Proof.
  intros Htf Hck. unfold main.
  apply trains_within_writes; [unfold load_dataset; apply writes_ret|].
  intros g.
  apply trains_within_writes; [apply writes_load_dataset_next|]. intros r.
  apply trains_within_writes; [writes_auto|]. intros first_dataset.
  cbv zeta. apply trains_within_data.
  destruct (main_checkpoint_resume disk opt ck Htf Hck)
    as (rc & dc & Hrc & Hdc & Hres).
  exists rc, dc. split; [exact Hrc|]. split; [exact Hdc|].
  intros a Ha. destruct (Hres a Ha) as (_ & _ & Hopt). rewrite Hopt.
  apply trains_within_writes; [apply writes_load_fields|]. intros fs.
  apply trains_within_writes; [apply writes_build_model|]. intros ms.
  apply trains_within_writes; [apply writes_build_optim|]. intros g_o.
  apply trains_within_writes; [apply writes_build_optim|]. intros d_o.
  apply trains_within_writes; [apply writes_build_optim|]. intros n_o.
  apply (train_model_trains disk (set_start_epoch opt (ck_epoch ck + 1))).
Qed.

(** C5.  When [train_from] names a checkpoint file whose stored epoch is
    [E], the checkpoint block of [main] sets [opt.start_epoch] to [E + 1],
    and the epochs [main] then trains are, in order, [E + 1, E + 2, ...] up
    to [epochs]: all of them when [main] returns, a prefix when it fails on
    the way.  The first epoch trained, when there is one, is [E + 1]. *)
Theorem resume_starts_at_next_epoch disk opt ck :
  truthy (train_from opt) = true ->
  checkpoint_files disk !! train_from opt = Some ck ->
  (exists r d,
     runs (main_checkpoint disk opt) r d
     /\ forall a, r = Ok a ->
          a.1.1.1 = Some ck /\ start_epoch a.2 = ck_epoch ck + 1)
  /\ (exists r d,
        runs (main disk opt) r d
        /\ trained d `prefix_of` range (ck_epoch ck + 1) (epochs opt + 1)
        /\ (forall a, r = Ok a ->
              trained d = range (ck_epoch ck + 1) (epochs opt + 1))
        /\ (forall e, head (trained d) = Some e -> e = ck_epoch ck + 1)).
Proof.
  intros Htf Hck. split.
  - destruct (main_checkpoint_resume disk opt ck Htf Hck)
      as (r & d & Hr & _ & Hres).
    exists r, d. split; [exact Hr|]. intros a Ha.
    destruct (Hres a Ha) as (H1 & _ & H3). split; [exact H1|].
    by rewrite H3.
  - destruct (main_trains_resumed disk opt ck Htf Hck)
      as (r & d & Hr & Hpre & Hall).
    exists r, d. split; [exact Hr|]. split; [exact Hpre|].
    split; [exact Hall|]. intros e He.
    apply (head_range (ck_epoch ck + 1) (epochs opt + 1)).
    by eapply head_prefix.
Qed.

End ResumeMain.

Lemma resume_starts_at_next_epoch_witness :
  ck_epoch Demo.checkpoint = 1
  /\ (exists a d,
        runs (main_checkpoint Demo.disk Demo.opt_resume) (Ok a) d
        /\ start_epoch a.2 = 2)
  /\ (exists d,
        runs (main (onmt := Demo.lib) Demo.disk Demo.opt_resume) (Ok tt) d
        /\ trained d = [2; 3]).
Proof.
  destruct (resume_starts_at_next_epoch (onmt := Demo.lib) Demo.disk
              Demo.opt_resume Demo.checkpoint eq_refl eq_refl)
    as [(rc & dc & Hrc & Hres) (r & d & Hr & _ & Hall & _)].
  split; [reflexivity|]. split.
  - pose proof (Hrc []) as Hc. vm_compute in Hc.
    destruct rc as [a|e]; [|discriminate Hc].
    exists a, dc. split; [exact Hrc|].
    destruct (Hres a eq_refl) as [_ Hstart]. exact Hstart.
  - pose proof (Hr []) as Hm. vm_compute in Hm.
    destruct r as [[]|e]; [|discriminate Hm].
    exists d. split; [exact Hr|]. exact (Hall tt eq_refl).
Defined.

(** ** The consumer's loop always comes to an end *)

Lemma load_dataset_next_remaining disk opt g t d g' t' :
  load_dataset_next disk opt g t = (Ok (Some d, g'), t') ->
  length (pending_paths disk opt g)
  = S (length (pending_paths disk opt g')).
Proof.
  destruct g as [ct|ct [|pt rest]|]; simpl.
  - case_bool_decide; [|by unfold raise].
    destruct (sorted _) as [|pt rest]; unfold bind;
      destruct (dataset_loader _ _ _ _) as [[?|?] ?]; unfold ret;
      intros Heq; by simplify_eq.
  - unfold ret. intros Heq. simplify_eq.
  - unfold bind. destruct (dataset_loader _ _ _ _) as [[?|?] ?];
      unfold ret; intros Heq; by simplify_eq.
  - unfold ret. intros Heq. simplify_eq.
Qed.

Lemma datasets_next_remaining disk opt ds t d ds' t' :
  datasets_next disk opt ds t = (Ok (Some d, ds'), t') ->
  remaining disk opt ds = S (remaining disk opt ds').
Proof.
  unfold datasets_next, remaining. destruct ds as [[|b buf] g]; simpl.
  - unfold bind.
    destruct (load_dataset_next disk opt g t) as [[[o g1]|e] t1] eqn:Hn;
      unfold ret; intros Heq; simplify_eq. simpl in *.
    by apply load_dataset_next_remaining in Hn.
  - unfold ret. intros Heq. by simplify_eq.
Qed.

Lemma DatasetIter_iter_enough_fuel disk opt fuel :
  forall self t,
    (remaining disk opt (datasets self)
     + match cur_iter self with Some _ => 2 | None => 1 end <= fuel)%nat ->
    (DatasetIter_iter fuel disk opt self t).1 <> Ok None.
Proof.
  induction fuel as [|fuel IH]; intros self t Hfuel.
  - destruct (cur_iter self); lia.
  - simpl. destruct (cur_iter self) as [oi|] eqn:Hc; [|done].
    unfold bind at 1. rewrite yield_all_spec.
    unfold bind at 1. rewrite next_dataset_iterator_unfold.
    destruct (datasets_next _ _ _ _) as [[[[d|] ds']|e] t1] eqn:Hn;
      [| |done]; cbn [fst snd].
    + apply datasets_next_remaining in Hn.
      set (self1 := set_cur_iter _ _).
      specialize (IH self1 t1). unfold bind at 1.
      destruct (DatasetIter_iter fuel disk opt self1 t1)
        as [[[[bs s]|]|e] t2]; simpl in *; try done.
      apply IH. unfold self1. simpl. lia.
    + set (self1 := set_cur_iter _ _).
      unfold bind at 1. destruct fuel as [|fuel']; [lia|]. simpl. done.
Qed.

(** With [rounds] rounds [__iter__] has returned: [consume] never gives up. *)
Lemma consume_finishes disk opt self t :
  (DatasetIter_iter (rounds disk opt self) disk opt self t).1 <> Ok None.
Proof.
  apply DatasetIter_iter_enough_fuel. unfold rounds, remaining.
  destruct (cur_iter self); lia.
Qed.

(** * Further properties of the front end *)

(** ** Shard discovery *)

Lemma strip_prefix_app p s t :
  strip_prefix (p +:+ s) (p +:+ t) = strip_prefix s t.
Proof.
  induction p as [|a p IH]; simpl; [done|].
  by rewrite Ascii.eqb_refl.
Qed.

(** The unnumbered file of a role never matches the pattern of its shards. *)
Lemma single_file_not_a_shard opt corpus_type :
  shard_match (shard_pattern_prefix opt corpus_type)
              (single_file opt corpus_type) = false.
Proof.
  unfold shard_match, shard_pattern_prefix, single_file.
  rewrite strip_prefix_app.
  change (strip_prefix ("." +:+ corpus_type +:+ ".")
                       ("." +:+ corpus_type +:+ ".pt"))
    with (strip_prefix (corpus_type +:+ ".") (corpus_type +:+ ".pt")).
  rewrite strip_prefix_app. reflexivity.
Qed.

Lemma elem_of_glob disk lit p :
  p ∈ glob disk lit
  <-> shard_match lit p = true /\ is_Some (dataset_files disk !! p).
Proof.
  unfold glob. rewrite list_elem_of_filter. split.
  - intros [Hm Hin]. split; [exact Hm|].
    apply list_elem_of_fmap in Hin as ([k d] & -> & Hkd).
    apply elem_of_map_to_list in Hkd. eauto.
  - intros [Hm [d Hd]]. split; [exact Hm|].
    apply list_elem_of_fmap. exists (p, d). split; [done|].
    by apply elem_of_map_to_list.
Qed.

(** ** A pass over the datasets of a role *)

Lemma loads_app t1 t2 : loads (t1 ++ t2) = loads t1 ++ loads t2.
Proof. apply omap_app. Qed.

Lemma loads_yields bs : loads (map EvYield bs) = [].
Proof. induction bs as [|b bs IH]; [done|exact IH]. Qed.

Lemma loads_items self (items : list item) :
  Forall (fun it => is_Some it.1) items ->
  Some <$> loads (concat (map (item_events self) items)) = items.*1.
Proof.
  induction 1 as [|[[p|] d] items [q Hq] _ IH]; [done| |done].
  cbn [map concat]. unfold item_events at 1, load_event. cbn [fst].
  rewrite !loads_app, loads_yields. cbn [app]. rewrite fmap_cons.
  change (loads [EvTorchLoad p]) with [p]. cbn [app].
  rewrite fmap_cons, IH. reflexivity.
Qed.

Lemma mapM_lookup_all (m : gmap string Dataset) ps :
  Forall (fun p => is_Some (m !! p)) ps ->
  exists loaded : list item,
    mapM (fun p => d ← m !! p; Some (Some p, d)) ps = Some loaded
    /\ loaded.*1 = Some <$> ps.
Proof.
  induction 1 as [|p ps [d Hd] _ (loaded & Hl & Hfst)].
  - by exists [].
  - exists ((Some p, d) :: loaded). simpl. rewrite Hd. simpl.
    rewrite Hl. simpl. split; [done|]. f_equal. exact Hfst.
Qed.

Lemma pending_paths_exist disk opt corpus_type :
  glob disk (shard_pattern_prefix opt corpus_type) <> []
  \/ is_Some (dataset_files disk !! single_file opt corpus_type) ->
  Forall (fun p => is_Some (dataset_files disk !! p))
         (pending_paths disk opt (GenCreated corpus_type)).
Proof.
  intros Hdata. unfold pending_paths. case_bool_decide; [|constructor].
  destruct (sorted _) as [|pt rest] eqn:Hs.
  - destruct Hdata as [Hne|Hsingle]; [|by repeat constructor].
    exfalso. apply Hne.
    apply Permutation_nil_r. rewrite <- Hs. unfold sorted.
    symmetry. apply merge_sort_Permutation.
  - rewrite <- Hs. apply Forall_forall. intros p Hp.
    unfold sorted in Hp. rewrite merge_sort_Permutation in Hp.
    by apply elem_of_glob in Hp as [_ Hp].
Qed.

Lemma writes_iterate_role disk opt corpus_type fs train fuel :
  writes is_data (iterate_role disk opt corpus_type fs train fuel).
Proof.
  unfold iterate_role, load_dataset.
  apply writes_bind; [apply writes_ret|]. intros g.
  apply writes_bind; [apply writes_make_dataset_iter|]. intros it.
  apply writes_DatasetIter_iter.
Qed.

Lemma supply_fresh disk opt corpus_type :
  corpus_type ∈ ["train"; "valid"] ->
  glob disk (shard_pattern_prefix opt corpus_type) <> []
  \/ is_Some (dataset_files disk !! single_file opt corpus_type) ->
  exists first rest,
    supply disk opt (generator_iter (GenCreated corpus_type))
    = Some (first :: rest)
    /\ (first :: rest).*1
       = Some <$> pending_paths disk opt (GenCreated corpus_type).
Proof.
  intros Hrole Hdata.
  destruct (mapM_lookup_all (dataset_files disk)
              (pending_paths disk opt (GenCreated corpus_type))
              (pending_paths_exist disk opt corpus_type Hdata))
    as (loaded & Hl & Hfst).
  destruct loaded as [|first rest].
  - exfalso. symmetry in Hfst. apply fmap_nil_inv in Hfst.
    unfold pending_paths in Hfst.
    rewrite bool_decide_eq_true_2 in Hfst by exact Hrole.
    by destruct (sorted _).
  - exists first, rest. split; [|exact Hfst].
    unfold supply. cbn [generator_iter source buffered].
    rewrite decide_True by exact Hrole. rewrite Hl. reflexivity.
Qed.

(** X2.  Let the data of a role be laid out plainly.  When data of the role
    is on disk (numbered shards, or else the unnumbered file), a
    [DatasetIter] built over [load_dataset(role)] and iterated to the end
    does not fail, and the files it hands to [torch.load] are the numbered
    shards in ascending order of their names, each once, or, when there is
    no numbered shard, the unnumbered file alone.  The iterator is left
    without a current batch iterator. *)
Theorem dataset_pass_reads_every_file disk opt corpus_type fs train fuel :
  corpus_type ∈ ["train"; "valid"] ->
  plain_layout disk opt corpus_type ->
  glob disk (shard_pattern_prefix opt corpus_type) <> []
  \/ is_Some (dataset_files disk !! single_file opt corpus_type) ->
  (length (pending_paths disk opt (GenCreated corpus_type)) + 1 <= fuel)%nat ->
  exists bs it' d,
    runs (iterate_role disk opt corpus_type fs train fuel)
         (Ok (Some (bs, it'))) d
    /\ loads d
       = match sorted (glob disk (shard_pattern_prefix opt corpus_type)) with
         | [] => [single_file opt corpus_type]
         | pts => pts
         end
    /\ cur_iter it' = None.
Proof.
  intros Hrole _ Hdata Hfuel.
  destruct (supply_fresh disk opt corpus_type Hrole Hdata)
    as (first & rest & Hs & Hfst).
  destruct (writes_iterate_role disk opt corpus_type fs train fuel)
    as (r & d & Hr & _).
  pose proof (Hr []) as Hrun. unfold iterate_role in Hrun.
  unfold bind at 1, load_dataset at 1, ret at 1 in Hrun.
  unfold make_dataset_iter in Hrun.
  destruct (DatasetIter_init_supply disk opt
              (generator_iter (GenCreated corpus_type)) fs
              (if train then batch_size opt else valid_batch_size opt)
              (if train && bool_decide (batch_type opt = "tokens")
               then Some batch_size_fn else None)
              (match gpuid opt with d0 :: _ => d0 | [] => -1 end)
              train first rest [] Hs)
    as (self & Hinit & Hs' & Hc & _).
  unfold bind at 1 in Hrun. rewrite Hinit in Hrun.
  assert (Hlen : (length rest + 2 <= fuel)%nat).
  { apply (f_equal length) in Hfst.
    rewrite !length_fmap in Hfst.
    change (length (first :: rest)) with (S (length rest)) in Hfst. lia. }
  destruct (DatasetIter_iter_supply disk opt rest self _
              ([] ++ load_event first) fuel Hs' Hc Hlen)
    as (self' & Hiter & Hnone & _).
  rewrite Hiter in Hrun. injection Hrun as <- <-.
  do 3 eexists. split; [exact Hr|]. split; [|exact Hnone].
  apply (inj (fmap Some)).
  transitivity ((first :: rest).*1).
  2:{ rewrite Hfst. unfold pending_paths.
      rewrite bool_decide_eq_true_2 by exact Hrole. reflexivity. }
  assert (Hall : Forall (fun it : item => is_Some it.1) (first :: rest)).
  { apply Forall_forall. intros it Hit.
    apply (list_elem_of_fmap_2 fst) in Hit. rewrite Hfst in Hit.
    apply list_elem_of_fmap in Hit as (p & -> & _). eauto. }
  inversion Hall as [|? ? [p Hp] Hrest]; subst.
  rewrite !loads_app, loads_yields. cbn [app]. rewrite fmap_app.
  rewrite (loads_items self rest Hrest).
  unfold load_event. rewrite Hp. destruct first as [q d0].
  simpl in Hp. subst q. reflexivity.
Qed.

Lemma dataset_pass_reads_every_file_witness :
  exists bs it' d,
    runs (iterate_role Demo.disk Demo.opt "train" ∅ true 3)
         (Ok (Some (bs, it'))) d
    /\ loads d = ["data.train.0.pt"; "data.train.1.pt"]
    /\ cur_iter it' = None.
Proof.
  assert (Hrole : "train" ∈ ["train"; "valid"]) by apply list_elem_of_here.
  assert (Hplain : plain_layout Demo.disk Demo.opt "train").
  { split; vm_compute; reflexivity. }
  assert (Hdata : glob Demo.disk (shard_pattern_prefix Demo.opt "train") <> []
                  \/ is_Some (dataset_files Demo.disk
                                !! single_file Demo.opt "train")).
  { left. vm_compute. discriminate. }
  assert (Hfuel : (length (pending_paths Demo.disk Demo.opt
                             (GenCreated "train")) + 1 <= 3)%nat).
  { vm_compute. lia. }
  destruct (dataset_pass_reads_every_file Demo.disk Demo.opt "train" ∅ true 3
              Hrole Hplain Hdata Hfuel) as (bs & it' & d & Hr & Hl & Hn).
  exists bs, it', d. split; [exact Hr|]. split; [|exact Hn].
  rewrite Hl. vm_compute. reflexivity.
Defined.

(** X3.  A corpus role other than ['train'] and ['valid'] is not refused when
    [load_dataset] is called: the call returns a generator.  The assertion
    fails when a [DatasetIter] is built over that generator, before any file
    is looked for. *)
Theorem invalid_role_fails_at_first_use
    disk opt corpus_type fs train fuel :
  corpus_type ∉ ["train"; "valid"] ->
  runs (load_dataset corpus_type) (Ok (GenCreated corpus_type)) []
  /\ runs (iterate_role disk opt corpus_type fs train fuel)
          (Raise (AssertionError "")) [].
Proof.
  intros Hrole. split; [apply runs_ret|].
  intros t. unfold iterate_role, make_dataset_iter, DatasetIter_init.
  unfold bind at 1, load_dataset at 1, ret at 1.
  unfold bind at 1. unfold bind at 1.
  rewrite next_dataset_iterator_unfold.
  unfold datasets_next. cbn [generator_iter datasets buffered source].
  unfold bind at 1. unfold load_dataset_next.
  rewrite bool_decide_eq_false_2 by exact Hrole.
  unfold raise. by rewrite app_nil_r.
Qed.

Lemma invalid_role_fails_at_first_use_witness :
  runs (load_dataset "test") (Ok (GenCreated "test")) []
  /\ runs (iterate_role Demo.disk Demo.opt "test" ∅ false 3)
          (Raise (AssertionError "")) [].
Proof.
  apply (invalid_role_fails_at_first_use Demo.disk Demo.opt "test" ∅ false 3).
  apply (proj1 (bool_decide_eq_false _)). vm_compute. reflexivity.
Defined.

(** X4.  A [DatasetIter] cannot be built over a sequence that has no dataset
    left: [__init__] fails its assertion and reads nothing. *)
Theorem DatasetIter_needs_a_dataset disk opt ds fs bsz bfn dev train :
  supply disk opt ds = Some [] ->
  runs (DatasetIter_init disk opt ds fs bsz bfn dev train)
       (Raise (AssertionError "")) [].
Proof.
  intros Hs t. unfold DatasetIter_init. unfold bind at 1.
  rewrite next_dataset_iterator_unfold. cbn [datasets].
  destruct (datasets_next_supply_nil disk opt ds t Hs) as (ds' & Hn & _).
  rewrite Hn. cbn. unfold raise. by rewrite app_nil_r.
Qed.

Lemma DatasetIter_needs_a_dataset_witness :
  runs (DatasetIter_init Demo.disk Demo.opt (generator_iter GenFinished)
          ∅ 64 None 0 true)
       (Raise (AssertionError "")) [].
Proof.
  apply (DatasetIter_needs_a_dataset Demo.disk Demo.opt
           (generator_iter GenFinished) ∅ 64 None 0 true).
  reflexivity.
Defined.

(** ** The state of an iterator after use *)

Lemma DatasetIter_init_holds disk opt ds fs bsz bfn dev train t self t' :
  DatasetIter_init disk opt ds fs bsz bfn dev train t = (Ok self, t') ->
  holds_bound_dataset self.
Proof.
  unfold DatasetIter_init. unfold bind at 1.
  rewrite next_dataset_iterator_unfold. cbn [datasets].
  destruct (datasets_next disk opt ds t) as [[[[d|] ds']|e] t1]; simpl;
    unfold ret, raise; intros Heq; simplify_eq.
  by exists (bind_fields d fs).
Qed.

Lemma DatasetIter_iter_end disk opt fuel :
  forall self t bs self' t',
    DatasetIter_iter fuel disk opt self t = (Ok (Some (bs, self')), t') ->
    cur_iter self' = None
    /\ (holds_bound_dataset self -> holds_bound_dataset self').
Proof.
  induction fuel as [|fuel IH]; intros self t bs self' t'; simpl.
  - unfold ret. intros Heq. simplify_eq.
  - destruct (cur_iter self) as [oi|] eqn:Hc.
    + unfold bind at 1. rewrite yield_all_spec.
      unfold bind at 1. rewrite next_dataset_iterator_unfold.
      destruct (datasets_next _ _ _ _) as [[[o ds']|e] t1];
        [|intros Heq; simplify_eq].
      destruct o as [d|]; cbn [fst snd].
      * set (d1 := bind_fields d (fields self)).
        set (self1 := set_cur_iter _ _).
        unfold bind at 1.
        destruct (DatasetIter_iter fuel disk opt self1 t1)
          as [[[[bs1 s1]|]|e] t2] eqn:Hrun; unfold ret; intros Heq;
          simplify_eq.
        destruct (IH self1 t1 bs1 self' t' Hrun) as [Hnone Hkeep].
        split; [exact Hnone|]. intros _. apply Hkeep. by exists d1.
      * set (self1 := set_cur_iter _ _).
        unfold bind at 1.
        destruct (DatasetIter_iter fuel disk opt self1 t1)
          as [[[[bs1 s1]|]|e] t2] eqn:Hrun; unfold ret; intros Heq;
          simplify_eq.
        destruct (IH self1 t1 bs1 self' t' Hrun) as [Hnone Hkeep].
        split; [exact Hnone|]. intros Hb. apply Hkeep.
        destruct Hb as (d & Hd & Hf). by exists d.
    + unfold ret. intros Heq. simplify_eq. done.
Qed.

(** X5.  [len()] of a [DatasetIter] is the length of its current batch
    iterator while it has one, as right after construction; once the
    iterator has been run to its end there is none, and [len()] fails its
    assertion. *)
Theorem DatasetIter_len_fails_after_exhaustion
    iterator_len disk gopt ds fs opt train t it t1 fuel t2 bs it' t3 :
  make_dataset_iter disk gopt ds fs opt train t = (Ok it, t1) ->
  DatasetIter_iter fuel disk gopt it t2 = (Ok (Some (bs, it')), t3) ->
  (exists oi, cur_iter it = Some oi
              /\ DatasetIter_len iterator_len it = iterator_len oi)
  /\ DatasetIter_len iterator_len it' = Raise (AssertionError "").
Proof.
  intros Hmk Hrun. unfold make_dataset_iter in Hmk.
  apply DatasetIter_init_ok in Hmk as (_ & _ & _ & _ & _ & _ & (d & Hc)).
  split.
  - eexists. split; [exact Hc|]. unfold DatasetIter_len. by rewrite Hc.
  - apply DatasetIter_iter_end in Hrun as [Hnone _].
    unfold DatasetIter_len. by rewrite Hnone.
Qed.

(** X6.  From construction on, through any complete iteration,
    [get_cur_dataset] returns a dataset, and that dataset carries the field
    dictionary the iterator was built with: after the last dataset is used
    up the iterator keeps holding it. *)
Theorem get_cur_dataset_is_bound
    disk gopt ds fs opt train t it t1 fuel t2 bs it' t3 :
  make_dataset_iter disk gopt ds fs opt train t = (Ok it, t1) ->
  DatasetIter_iter fuel disk gopt it t2 = (Ok (Some (bs, it')), t3) ->
  (exists d, get_cur_dataset it = Some d /\ ds_fields d = fs)
  /\ (exists d', get_cur_dataset it' = Some d' /\ ds_fields d' = fs).
Proof.
  intros Hmk Hrun. unfold make_dataset_iter in Hmk.
  pose proof (DatasetIter_init_holds _ _ _ _ _ _ _ _ _ _ _ Hmk) as Hb.
  apply DatasetIter_init_ok in Hmk as (Hco & Hfs & _).
  destruct (DatasetIter_iter_yields _ _ _ _ _ _ _ _ Hco Hrun) as [_ Hkeep].
  apply DatasetIter_iter_end in Hrun as [_ Hend].
  split.
  - destruct Hb as (d & Hd & Hf). exists d. split; [exact Hd|].
    by rewrite Hf.
  - destruct (Hend Hb) as (d' & Hd' & Hf'). exists d'. split; [exact Hd'|].
    by rewrite Hf', Hkeep.
Qed.

Lemma token_iter_built :
  make_dataset_iter Demo.disk Demo.opt_tokens
    (generator_iter (GenCreated "train")) ∅ Demo.opt_tokens true []
  = (Ok Demo.token_iter, [EvTorchLoad "data.train.0.pt"]).
Proof. vm_compute. reflexivity. Qed.

Lemma token_iter_run :
  DatasetIter_iter 3 Demo.disk Demo.opt_tokens Demo.token_iter []
  = (Ok (Some (Demo.token_batches, Demo.token_iter_end)),
     map EvYield (take 3 Demo.token_batches)
     ++ [EvTorchLoad "data.train.1.pt"]
     ++ map EvYield (drop 3 Demo.token_batches)).
Proof. vm_compute. reflexivity. Qed.

Lemma DatasetIter_len_fails_after_exhaustion_witness :
  (exists oi, cur_iter Demo.token_iter = Some oi
              /\ DatasetIter_len (fun it => Ok (Z.of_nat (length (create_batches it))))
                                 Demo.token_iter
                 = Ok (Z.of_nat (length (create_batches oi))))
  /\ DatasetIter_len (fun it => Ok (Z.of_nat (length (create_batches it))))
                     Demo.token_iter_end
     = Raise (AssertionError "").
Proof.
  exact (DatasetIter_len_fails_after_exhaustion
           (fun it => Ok (Z.of_nat (length (create_batches it))))
           _ _ _ _ _ _ _ _ _ _ _ _ _ _ token_iter_built token_iter_run).
Defined.

Lemma get_cur_dataset_is_bound_witness :
  (exists d, get_cur_dataset Demo.token_iter = Some d /\ ds_fields d = ∅)
  /\ (exists d', get_cur_dataset Demo.token_iter_end = Some d'
                 /\ ds_fields d' = ∅).
Proof.
  exact (get_cur_dataset_is_bound _ _ _ _ _ _ _ _ _ _ _ _ _ _
           token_iter_built token_iter_run).
Defined.

(** ** main: fresh runs and fatal starts *)

Section MainStarts.
Context `{onmt : Onmt}.

Lemma main_trains_fresh disk opt :
  truthy (train_from opt) = false ->
  trains_within (range (start_epoch opt) (epochs opt + 1)) (main disk opt).
Proof.
  intros Htf. unfold main.
  apply trains_within_writes; [unfold load_dataset; apply writes_ret|].
  intros g.
  apply trains_within_writes; [apply writes_load_dataset_next|]. intros r.
  apply trains_within_writes; [writes_auto|]. intros first_dataset.
  cbv zeta. apply trains_within_data.
  exists (Ok (None, None, opt, opt)), []. split.
  { intros t. unfold main_checkpoint. rewrite Htf. apply runs_ret. }
  split; [constructor|]. intros a Ha. injection Ha as <-. cbn [fst snd].
  apply trains_within_writes; [apply writes_load_fields|]. intros fs.
  apply trains_within_writes; [apply writes_build_model|]. intros ms.
  apply trains_within_writes; [apply writes_build_optim|]. intros g_o.
  apply trains_within_writes; [apply writes_build_optim|]. intros d_o.
  apply trains_within_writes; [apply writes_build_optim|]. intros n_o.
  apply train_model_trains.
Qed.

(** X7.  Without [train_from], the checkpoint block of [main] reads no file
    and leaves the options as they are, also when [d_train_from] names a
    discriminator checkpoint: that file is only read on the [train_from]
    path.  The epochs [main] then trains are [start_epoch, ..., epochs] in
    order: all of them when it returns, a prefix when it fails. *)
Theorem fresh_run_reads_no_checkpoint disk opt :
  truthy (train_from opt) = false ->
  runs (main_checkpoint disk opt) (Ok (None, None, opt, opt)) []
  /\ exists r d,
       runs (main disk opt) r d
       /\ trained d `prefix_of` range (start_epoch opt) (epochs opt + 1)
       /\ (forall a, r = Ok a ->
             trained d = range (start_epoch opt) (epochs opt + 1)).
Proof.
  intros Htf. split.
  - intros t. unfold main_checkpoint. rewrite Htf. apply runs_ret.
  - apply (main_trains_fresh disk opt Htf).
Qed.

(** X8.  Let the training data be laid out plainly.  When [train_from]
    names a path at which there is no file of any kind, [main] ends in the
    missing-file error for it.  By then it has read the first training file
    (to peek at the data type) and nothing else: no vocabulary, no model, no
    training. *)
Theorem missing_checkpoint_is_fatal disk opt :
  truthy (train_from opt) = true ->
  missing disk (train_from opt) = true ->
  plain_layout disk opt "train" ->
  glob disk (shard_pattern_prefix opt "train") <> []
  \/ is_Some (dataset_files disk !! single_file opt "train") ->
  exists p,
    head (pending_paths disk opt (GenCreated "train")) = Some p
    /\ runs (main disk opt) (Raise (FileNotFoundError (train_from opt)))
            [EvTorchLoad p; EvTorchLoad (train_from opt)].
Proof.
  intros Htf Hck _ Hdata.
  apply missing_checkpoint in Hck.
  assert (Hrole : "train" ∈ ["train"; "valid"]) by apply list_elem_of_here.
  pose proof (pending_paths_exist disk opt "train" Hdata) as Hall.
  destruct (pending_paths disk opt (GenCreated "train")) as [|p ps] eqn:Hp.
  { unfold pending_paths in Hp.
    rewrite bool_decide_eq_true_2 in Hp by exact Hrole.
    by destruct (sorted _). }
  apply Forall_cons in Hall as [[d Hd] _].
  exists p. split; [reflexivity|]. intros t. unfold main.
  unfold bind at 1, load_dataset at 1, ret at 1.
  destruct (load_dataset_next_some disk opt (GenCreated "train") p ps d t
              Hrole Hp Hd) as (g' & Hn & _).
  unfold bind at 1. rewrite Hn. cbn [fst snd].
  unfold bind at 1, ret at 1. unfold bind at 1.
  unfold main_checkpoint. rewrite Htf.
  unfold bind at 1, torch_load_checkpoint. unfold bind at 1, emit at 1.
  rewrite Hck. unfold raise. by rewrite <- app_assoc.
Qed.

(** X9.  Let the path prefix [opt.data] be plain.  When no file on disk has
    the name of a numbered training shard and [<data>.train.pt] does not
    exist, [main] ends in the missing-file error for [<data>.train.pt], the
    only path it has tried: the checkpoint and the vocabulary are not looked
    at. *)
Theorem main_without_training_data disk opt :
  plain_prefix (data opt) = true ->
  no_shard_on_disk disk opt "train" = true ->
  missing disk (single_file opt "train") = true ->
  runs (main disk opt) (Raise (FileNotFoundError (single_file opt "train")))
       [EvTorchLoad (single_file opt "train")].
Proof.
  intros _ Hglob Hfile t.
  apply no_shard_on_disk_glob in Hglob.
  apply missing_dataset in Hfile. unfold main.
  unfold bind at 1, load_dataset at 1, ret at 1.
  unfold bind at 1. unfold load_dataset_next.
  rewrite bool_decide_eq_true_2 by apply list_elem_of_here.
  rewrite Hglob, sorted_nil.
  unfold dataset_loader, torch_load_dataset, bind, emit, raise.
  by rewrite Hfile.
Qed.

(** X10.  When [start_epoch] is past [epochs], [train_model] trains nothing
    and reads nothing: it only looks up the target field, and returns, or
    raises [KeyError] if there is no ['tgt'] field. *)
Theorem train_model_nothing_to_do
    disk opt model disc nli fs g_o d_o n_o dt model_opt :
  epochs opt < start_epoch opt ->
  runs (train_model disk opt model disc nli fs g_o d_o n_o dt model_opt)
       (match fs !! "tgt" with
        | Some _ => Ok tt
        | None => Raise (KeyError "tgt")
        end) [].
Proof.
  intros Hpast t. unfold train_model.
  assert (Hrange : range (start_epoch opt) (epochs opt + 1) = []).
  { unfold range. replace (Z.to_nat _) with 0%nat by lia. reflexivity. }
  rewrite Hrange. unfold bind, ret, raise.
  destruct (fs !! "tgt"); simpl; by rewrite app_nil_r.
Qed.

End MainStarts.

Lemma fresh_run_reads_no_checkpoint_witness :
  runs (main_checkpoint Demo.disk DemoMore.opt_disc_only)
       (Ok (None, None, DemoMore.opt_disc_only, DemoMore.opt_disc_only)) []
  /\ exists d,
       runs (main (onmt := Demo.lib) Demo.disk DemoMore.opt_disc_only)
            (Ok tt) d
       /\ trained d = [1; 2].
Proof.
  destruct (fresh_run_reads_no_checkpoint (onmt := Demo.lib) Demo.disk
              DemoMore.opt_disc_only eq_refl)
    as [Hck (r & d & Hr & _ & Hall)].
  split; [exact Hck|].
  pose proof (Hr []) as Hm. vm_compute in Hm.
  destruct r as [[]|e]; [|discriminate Hm].
  exists d. split; [exact Hr|]. exact (Hall tt eq_refl).
Defined.

Lemma missing_checkpoint_is_fatal_witness :
  exists p,
    head (pending_paths Demo.disk DemoMore.opt_lost_checkpoint
                        (GenCreated "train")) = Some p
    /\ runs (main (onmt := Demo.lib) Demo.disk DemoMore.opt_lost_checkpoint)
            (Raise (FileNotFoundError "gone.pt"))
            [EvTorchLoad p; EvTorchLoad "gone.pt"].
Proof.
  apply (missing_checkpoint_is_fatal (onmt := Demo.lib) Demo.disk
           DemoMore.opt_lost_checkpoint).
  - reflexivity.
  - vm_compute. reflexivity.
  - split; vm_compute; reflexivity.
  - left. vm_compute. discriminate.
Defined.

Lemma main_without_training_data_witness :
  runs (main (onmt := Demo.lib) Demo.empty_disk Demo.opt)
       (Raise (FileNotFoundError "data.train.pt"))
       [EvTorchLoad "data.train.pt"].
Proof.
  apply (main_without_training_data (onmt := Demo.lib) Demo.empty_disk
           Demo.opt).
  - vm_compute. reflexivity.
  - vm_compute. reflexivity.
  - vm_compute. reflexivity.
Defined.

Lemma train_model_nothing_to_do_witness :
  runs (train_model (onmt := Demo.lib) Demo.disk DemoMore.opt_done
          ["encoder.weight"] ["disc.weight"] ["nli.weight"]
          Demo.loaded_fields Demo.saved_optim Demo.saved_optim
          Demo.saved_optim "text" DemoMore.opt_done)
       (Ok tt) [].
Proof.
  apply (train_model_nothing_to_do (onmt := Demo.lib) Demo.disk
           DemoMore.opt_done ["encoder.weight"] ["disc.weight"]
           ["nli.weight"] Demo.loaded_fields Demo.saved_optim
           Demo.saved_optim Demo.saved_optim "text" DemoMore.opt_done).
  vm_compute. reflexivity.
Defined.

(** ** The phases of a whole run *)

Section WholeRun.
Context `{onmt : Onmt}.

Lemma train_epoch_trace
    disk opt model_opt fs trainer epoch t trainer' t' :
  train_epoch disk opt model_opt fs trainer epoch t = (Ok trainer', t') ->
  exists d train_batches train_stats trainer1 valid_batches valid_stats,
    t' = t ++ d
    /\ trainer_train trainer train_batches epoch = Ok (train_stats, trainer1)
    /\ trainer_validate trainer1 valid_batches = Ok valid_stats
    /\ phases d
       = [Training epoch; Validating;
          RateUpdate (stats_ppl valid_stats) epoch]
         ++ (if bool_decide (start_checkpoint_at opt <= epoch)
             then [CheckpointWrite epoch] else []).
Proof.
  unfold train_epoch. intros H.
  unfold bind at 1, load_dataset at 1, ret at 1 in H.
  step_data H (writes_make_dataset_iter disk opt
                 (generator_iter (GenCreated "train")) fs opt true).
  step_emit H.
  match type of H with
  | bind (consume _ _ ?it) _ _ = _ =>
      step_data H (writes_consume disk opt it)
  end.
  step_lift H.
  cbn [fst snd] in H.
  unfold bind at 1 in H.
  destruct (n_batch _ =? 0); [discriminate H|].
  unfold ret at 1 in H.
  unfold bind at 1, load_dataset at 1, ret at 1 in H.
  step_data H (writes_make_dataset_iter disk opt
                 (generator_iter (GenCreated "valid")) fs opt false).
  step_emit H.
  match type of H with
  | bind (consume _ _ ?it) _ _ = _ =>
      step_data H (writes_consume disk opt it)
  end.
  step_lift H.
  destruct a1 as [train_stats trainer1]. cbn [fst snd] in *.
  assert (Hfinish :
    forall t0,
      (emit (EvEpochStep (stats_ppl a4) epoch);;;
       trainer <- lift (trainer_epoch_step trainer1 (stats_ppl a4) epoch);;
       (if bool_decide (start_checkpoint_at opt <= epoch)
        then
          emit (EvDropCheckpoint epoch);;;
          lift (trainer_drop_checkpoint trainer model_opt epoch fs a4)
        else ret ());;;
       ret trainer) t0 = (Ok trainer', t') ->
      exists dend,
        t' = t0 ++ dend
        /\ phases dend
           = [RateUpdate (stats_ppl a4) epoch]
             ++ (if bool_decide (start_checkpoint_at opt <= epoch)
                 then [CheckpointWrite epoch] else [])).
  { intros t0 Hk. step_emit Hk. step_lift Hk.
    unfold bind at 1 in Hk. case_bool_decide.
    - step_emit Hk. unfold lift at 1 in Hk.
      destruct (trainer_drop_checkpoint _ _ _ _ _); [|discriminate Hk].
      unfold ret in Hk. injection Hk as _ <-.
      eexists. rewrite <- !app_assoc. split; reflexivity.
    - unfold ret in Hk. injection Hk as _ <-.
      eexists. split; reflexivity. }
  assert (Hend : exists dend,
            t' = (t ++ d ++ [EvTrain epoch] ++ d0 ++ d1 ++ [EvValidate] ++ d2)
                 ++ dend
            /\ phases dend
               = [RateUpdate (stats_ppl a4) epoch]
                 ++ (if bool_decide (start_checkpoint_at opt <= epoch)
                     then [CheckpointWrite epoch] else [])).
  { rewrite <- !app_assoc in H. unfold bind at 1 in H.
    destruct (truthy (exp_host opt)).
    - step_emit H. unfold emit at 1 in H. cbv beta iota in H.
      destruct (Hfinish _ H) as (dend & -> & Hph).
      exists ([EvLog "train"; EvLog "valid"] ++ dend).
      split; [by rewrite <- !app_assoc|].
      rewrite phases_app. exact Hph.
    - unfold ret at 1 in H.
      destruct (Hfinish _ H) as (dend & -> & Hph).
      exists dend. split; [reflexivity|exact Hph]. }
  destruct Hend as (dend & -> & Hph).
  exists (d ++ [EvTrain epoch] ++ d0 ++ d1 ++ [EvValidate] ++ d2 ++ dend),
    a0, train_stats, trainer1, a3, a4.
  split; [by rewrite <- !app_assoc|].
  split; [exact Hl|]. split; [exact Hl0|].
  rewrite !phases_app, Hph.
  rewrite (phases_data d Hd), (phases_data d0 Hd0), (phases_data d1 Hd1),
    (phases_data d2 Hd2).
  reflexivity.
Qed.
Lemma train_epoch_shape disk opt model_opt fs trainer epoch t trainer' t' :
  train_epoch disk opt model_opt fs trainer epoch t = (Ok trainer', t') ->
  exists d, t' = t ++ d
            /\ map forget_ppl (phases d) = epoch_shape opt epoch.
Proof.
  intros H. apply train_epoch_trace in H
    as (d & _ & _ & _ & _ & vs & -> & _ & _ & Hph).
  exists d. split; [reflexivity|]. rewrite Hph. unfold epoch_shape.
  by case_bool_decide.
Qed.

Lemma train_epochs_shape disk opt model_opt fs es :
  forall trainer t trainer' t',
    train_epochs disk opt model_opt fs trainer es t = (Ok trainer', t') ->
    exists d, t' = t ++ d
              /\ map forget_ppl (phases d) = flat_map (epoch_shape opt) es.
Proof.
  induction es as [|epoch es IH]; intros trainer t trainer' t'; simpl.
  - unfold ret. intros Heq. simplify_eq. exists []. by rewrite app_nil_r.
  - unfold bind at 1.
    destruct (train_epoch disk opt model_opt fs trainer epoch t)
      as [[trainer1|e] t1] eqn:Hep; [|intros Heq; simplify_eq].
    intros Hrest.
    apply train_epoch_shape in Hep as (d1 & -> & Hd1).
    apply IH in Hrest as (d2 & -> & Hd2).
    exists (d1 ++ d2). split; [by rewrite app_assoc|].
    by rewrite phases_app, map_app, Hd1, Hd2.
Qed.

(** X11.  A run of [train_model] that returns has gone, epoch by epoch from
    [start_epoch] to [epochs] in ascending order, through training,
    validation and the rate update of that epoch, followed by a checkpoint
    exactly in the epochs that have reached [start_checkpoint_at]; nothing
    else of these four happens in between. *)
Theorem train_model_phase_sequence
    disk opt model disc nli fs g_o d_o n_o dt model_opt t t' :
  train_model disk opt model disc nli fs g_o d_o n_o dt model_opt t
  = (Ok tt, t') ->
  exists d,
    t' = t ++ d
    /\ map forget_ppl (phases d)
       = flat_map (epoch_shape opt) (range (start_epoch opt) (epochs opt + 1)).
Proof.
  unfold train_model. unfold bind at 1.
  destruct (fs !! "tgt") as [f|]; [|by unfold raise].
  unfold ret at 1. cbv zeta. unfold bind at 1.
  destruct (train_epochs _ _ _ _ _ _ _) as [[tr|e] t1] eqn:Hrun;
    [|intros Heq; simplify_eq].
  unfold ret. intros Heq. simplify_eq.
  by apply train_epochs_shape in Hrun.
Qed.

Lemma checkpointed_phases t :
  checkpointed t = omap checkpoint_of (map forget_ppl (phases t)).
Proof.
  induction t as [|ev t IH]; [done|].
  unfold checkpointed, phases in *.
  destruct ev; cbn [omap list_omap phase_of map forget_ppl checkpoint_of];
    rewrite ?IH; reflexivity.
Qed.

Lemma checkpoints_of_shape opt es :
  omap checkpoint_of (flat_map (epoch_shape opt) es)
  = filter (fun e => start_checkpoint_at opt <= e) es.
Proof.
  induction es as [|e es IH]; [done|].
  cbn [flat_map]. rewrite omap_app, IH. unfold epoch_shape.
  rewrite filter_cons. case_bool_decide; by case_decide.
Qed.

(** X12.  After a run of [train_model] that returns, a checkpoint has been
    dropped for exactly the epochs of [start_epoch, ..., epochs] that are at
    least [start_checkpoint_at], once each and in ascending order. *)
Theorem train_model_checkpoints
    disk opt model disc nli fs g_o d_o n_o dt model_opt t t' :
  train_model disk opt model disc nli fs g_o d_o n_o dt model_opt t
  = (Ok tt, t') ->
  exists d,
    t' = t ++ d
    /\ checkpointed d
       = filter (fun e => start_checkpoint_at opt <= e)
                (range (start_epoch opt) (epochs opt + 1)).
Proof.
  unfold train_model. unfold bind at 1.
  destruct (fs !! "tgt") as [f|]; [|by unfold raise].
  unfold ret at 1. cbv zeta. unfold bind at 1.
  destruct (train_epochs _ _ _ _ _ _ _) as [[tr|e] t1] eqn:Hrun;
    [|intros Heq; simplify_eq].
  unfold ret. intros Heq. simplify_eq.
  apply train_epochs_shape in Hrun as (d & -> & Hd).
  exists d. split; [reflexivity|].
  by rewrite checkpointed_phases, Hd, checkpoints_of_shape.
Qed.

End WholeRun.

Lemma train_model_phase_sequence_witness :
  exists t',
    train_model (onmt := Demo.lib) Demo.disk DemoMore.opt_late_checkpoints
      ["encoder.weight"] ["disc.weight"] ["nli.weight"] Demo.loaded_fields
      Demo.saved_optim Demo.saved_optim Demo.saved_optim "text"
      DemoMore.opt_late_checkpoints [] = (Ok tt, t')
    /\ map forget_ppl (phases t')
       = [Training 1; Validating; RateUpdate 0 1;
          Training 2; Validating; RateUpdate 0 2; CheckpointWrite 2;
          Training 3; Validating; RateUpdate 0 3; CheckpointWrite 3].
Proof.
  destruct (train_model (onmt := Demo.lib) Demo.disk
              DemoMore.opt_late_checkpoints ["encoder.weight"]
              ["disc.weight"] ["nli.weight"] Demo.loaded_fields
              Demo.saved_optim Demo.saved_optim Demo.saved_optim "text"
              DemoMore.opt_late_checkpoints []) as [[[]|e] t'] eqn:Hrun;
    [|vm_compute in Hrun; discriminate Hrun].
  exists t'. split; [reflexivity|].
  destruct (train_model_phase_sequence (onmt := Demo.lib) _ _ _ _ _ _ _ _ _
              _ _ _ _ Hrun) as (d & -> & Hd).
  change ([] ++ d) with d. rewrite Hd. vm_compute. reflexivity.
Defined.

Lemma train_model_checkpoints_witness :
  exists t',
    train_model (onmt := Demo.lib) Demo.disk DemoMore.opt_late_checkpoints
      ["encoder.weight"] ["disc.weight"] ["nli.weight"] Demo.loaded_fields
      Demo.saved_optim Demo.saved_optim Demo.saved_optim "text"
      DemoMore.opt_late_checkpoints [] = (Ok tt, t')
    /\ checkpointed t' = [2; 3].
Proof.
  destruct (train_model (onmt := Demo.lib) Demo.disk
              DemoMore.opt_late_checkpoints ["encoder.weight"]
              ["disc.weight"] ["nli.weight"] Demo.loaded_fields
              Demo.saved_optim Demo.saved_optim Demo.saved_optim "text"
              DemoMore.opt_late_checkpoints []) as [[[]|e] t'] eqn:Hrun;
    [|vm_compute in Hrun; discriminate Hrun].
  exists t'. split; [reflexivity|].
  destruct (train_model_checkpoints (onmt := Demo.lib) _ _ _ _ _ _ _ _ _
              _ _ _ _ Hrun) as (d & -> & Hd).
  change ([] ++ d) with d. rewrite Hd. vm_compute. reflexivity.
Defined.

(** ** An epoch without batches *)

Section EmptyEpoch.
Context `{onmt : Onmt}.

(** X13.  When the trainer's statistics for an epoch report zero batches,
    the epoch ends in [ZeroDivisionError] while the training accuracy is
    formatted: training was run, but validation is not started, the rate is
    not updated and no checkpoint is dropped. *)
Theorem epoch_without_batches_fails
    disk opt model_opt fs trainer epoch t it t1 bs t2 train_stats trainer1 :
  make_dataset_iter disk opt (generator_iter (GenCreated "train")) fs opt true
                    t = (Ok it, t1) ->
  consume disk opt it (t1 ++ [EvTrain epoch]) = (Ok bs, t2) ->
  trainer_train trainer bs epoch = Ok (train_stats, trainer1) ->
  n_batch train_stats = 0 ->
  train_epoch disk opt model_opt fs trainer epoch t
  = (Raise ZeroDivisionError, t2)
  /\ exists d, t2 = t ++ d /\ phases d = [Training epoch].
Proof.
  intros Hmk Hcons Htrain Hzero. split.
  - unfold train_epoch.
    unfold bind at 1, load_dataset at 1, ret at 1.
    unfold bind at 1. rewrite Hmk.
    unfold bind at 1, emit at 1. unfold bind at 1. rewrite Hcons.
    unfold bind at 1, lift at 1. rewrite Htrain. cbn [fst snd].
    unfold bind at 1. rewrite Hzero. reflexivity.
  - destruct (writes_make_dataset_iter disk opt
                (generator_iter (GenCreated "train")) fs opt true)
      as (r1 & d1 & Hr1 & Hd1).
    rewrite Hr1 in Hmk. injection Hmk as -> <-.
    destruct (writes_consume disk opt it) as (r2 & d2 & Hr2 & Hd2).
    rewrite Hr2 in Hcons. injection Hcons as -> <-.
    exists (d1 ++ [EvTrain epoch] ++ d2). split; [by rewrite <- !app_assoc|].
    rewrite !phases_app, (phases_data d1 Hd1), (phases_data d2 Hd2).
    reflexivity.
Qed.

End EmptyEpoch.

Lemma epoch_without_batches_fails_witness :
  exists t2,
    train_epoch (onmt := Demo.lib) DemoMore.disk_empty_train Demo.opt Demo.opt
                Demo.loaded_fields tt 1 []
    = (Raise ZeroDivisionError, t2)
    /\ exists d, t2 = [] ++ d /\ phases d = [Training 1].
Proof.
  eexists.
  eapply (epoch_without_batches_fails (onmt := Demo.lib)
            DemoMore.disk_empty_train Demo.opt Demo.opt Demo.loaded_fields
            tt 1 []).
  - vm_compute. reflexivity.
  - vm_compute. reflexivity.
  - reflexivity.
  - reflexivity.
Defined.

(** ** Configurations that pass the startup checks *)

Lemma module_level_accepts opt :
  ~ (rnn_type opt = "SRU" /\ gpuid opt = []) ->
  (length (gpuid opt) <= 1)%nat ->
  runs (module_level opt) (Ok tt) (startup_events opt).
Proof.
  intros Hsru Hlen t. unfold module_level, startup_events, use_gpu.
  assert (Hcheck : String.eqb (rnn_type opt) "SRU"
                   && negb (match gpuid opt with [] => false | _ => true end)
                   = false).
  { destruct (String.eqb_spec (rnn_type opt) "SRU") as [Heq|]; [|done].
    destruct (gpuid opt); [|done]. exfalso. by apply Hsru. }
  rewrite Hcheck.
  destruct (gpuid opt) as [|d0 [|d1 rest]]; [| |simpl in Hlen; lia];
    unfold bind, emit, ret; simpl;
    destruct (0 <? seed opt); destruct (truthy (exp_host opt)); simpl;
    rewrite <- ?app_assoc, ?app_nil_r; reflexivity.
Qed.

Lemma module_level_accepted_inv opt d :
  runs (module_level opt) (Ok tt) d ->
  ~ (rnn_type opt = "SRU" /\ gpuid opt = [])
  /\ (length (gpuid opt) <= 1)%nat.
Proof.
  intros Hok. split.
  - intros [Hsru Hgpu].
    by destruct (runs_unique _ _ _ _ _ Hok (module_level_sru opt Hsru Hgpu)).
  - destruct (gpuid opt) as [|d0 [|d1 rest]] eqn:Hgpu; [simpl; lia..|].
    by destruct (runs_unique _ _ _ _ _ Hok
                   (module_level_multigpu opt d0 d1 rest Hgpu)).
Qed.

(** X14.  The module-level statements let a configuration through exactly
    when it is not an SRU model without a device and names at most one
    device.  What they do then is seed the random generators when the seed
    is positive, select the device when there is one, and reach the logging
    server when a host is given: no file is read at module level. *)
Theorem startup_accepts_exactly_the_supported opt :
  ((exists d, runs (module_level opt) (Ok tt) d)
   <-> ~ (rnn_type opt = "SRU" /\ gpuid opt = [])
       /\ (length (gpuid opt) <= 1)%nat)
  /\ (forall d, runs (module_level opt) (Ok tt) d ->
                d = startup_events opt /\ loads d = []).
Proof.
  split.
  - split.
    + intros [d Hd]. by apply module_level_accepted_inv in Hd.
    + intros [Hsru Hlen]. exists (startup_events opt).
      by apply module_level_accepts.
  - intros d Hd.
    pose proof (module_level_accepted_inv opt d Hd) as [Hsru Hlen].
    destruct (runs_unique _ _ _ _ _ Hd (module_level_accepts opt Hsru Hlen))
      as [_ ->].
    split; [reflexivity|]. unfold startup_events.
    destruct (0 <? seed opt), (gpuid opt), (truthy (exp_host opt));
      reflexivity.
Qed.

Section BuildModel.
Context `{onmt : Onmt}.

(** X15.  For a configuration that has passed the module-level checks,
    [build_model] hands back the three models exactly as the model
    constructor returned them (or its failure): the [DataParallel] wrapping
    for several devices is never applied. *)
Theorem build_model_never_wraps
    opt d model_opt fs checkpoint d_checkpoint t :
  runs (module_level opt) (Ok tt) d ->
  build_model model_opt opt fs checkpoint d_checkpoint t
  = (make_base_model model_opt fs (use_gpu opt) checkpoint d_checkpoint, t).
Proof.
  intros Hok. apply module_level_accepted_inv in Hok as [_ Hlen].
  unfold build_model, bind, lift, ret.
  destruct (make_base_model _ _ _ _ _) as [[[m1 m2] m3]|e]; [|done].
  cbn [fst snd].
  destruct (Nat.ltb_spec 1 (length (gpuid opt))); [lia|done].
Qed.

End BuildModel.

Lemma build_model_never_wraps_witness :
  build_model (onmt := Demo.lib) Demo.opt Demo.opt Demo.loaded_fields None
              None []
  = (Ok (["encoder.weight"], ["disc.weight"], ["nli.weight"]), []).
Proof.
  apply (build_model_never_wraps (onmt := Demo.lib) Demo.opt
           (startup_events Demo.opt)).
  apply module_level_accepts.
  - intros [Hsru _]. discriminate Hsru.
  - simpl. lia.
Defined.

(** ** tally_parameters *)

Lemma tally_fold named :
  forall acc,
    fold_left tally_step named acc
    = (acc.1 + total_elements (filter names_encoder named),
       acc.2 + total_elements (filter (fun p => ~ names_encoder p) named)).
Proof.
  induction named as [|p named IH]; intros [enc dec]; simpl.
  - f_equal; lia.
  - rewrite IH. rewrite !filter_cons. unfold tally_step.
    destruct (decide (names_encoder p)) as [Henc|Henc].
    + rewrite decide_False by (by intros []).
      unfold names_encoder in Henc. rewrite Henc. simpl. f_equal; lia.
    + rewrite decide_True by done.
      unfold names_encoder in Henc. apply not_true_is_false in Henc.
      rewrite Henc. simpl. f_equal; lia.
Qed.

Lemma total_elements_split named :
  total_elements (filter names_encoder named)
  + total_elements (filter (fun p => ~ names_encoder p) named)
  = total_elements named.
Proof.
  induction named as [|p named IH]; [done|].
  rewrite !filter_cons. destruct (decide (names_encoder p)).
  - rewrite decide_False by (by intros []). simpl in *. lia.
  - rewrite decide_True by done. simpl in *. lia.
Qed.

(** X16.  [tally_parameters] reports as [encoder] the elements of the
    parameters whose name contains ['encoder'] and as [decoder] the elements
    of all other parameters, whatever they are called: a name need contain
    neither ['decoder'] nor ['generator'] to be counted there.  The two
    numbers always add up to the total it prints first. *)
Theorem tally_parameters_splits_the_total named :
  tally_parameters named
  = (total_elements named,
     total_elements (filter names_encoder named),
     total_elements (filter (fun p => ~ names_encoder p) named))
  /\ (tally_parameters named).1.2 + (tally_parameters named).2
     = (tally_parameters named).1.1.
Proof.
  assert (Heq : tally_parameters named
                = (total_elements named,
                   total_elements (filter names_encoder named),
                   total_elements
                     (filter (fun p => ~ names_encoder p) named))).
  { unfold tally_parameters. rewrite tally_fold. simpl.
    unfold total_elements. reflexivity. }
  split; [exact Heq|]. rewrite Heq. simpl. apply total_elements_split.
Qed.

(** ** load_fields: what is kept, what is refused *)

Section FieldsMore.
Context `{onmt : Onmt}.

Lemma load_fields_inv disk opt dataset data_type checkpoint t loaded t' :
  load_fields disk opt dataset data_type checkpoint t = (Ok loaded, t') ->
  exists raw fs0 ex rest tgt_field per_field,
    vocab_files disk !! vocab_file opt = Some raw
    /\ load_fields_from_vocab raw data_type = Ok fs0
    /\ examples dataset = ex :: rest
    /\ filter (fun kf => kf.1 ∈ example_dict ex) fs0 !! "tgt" = Some tgt_field
    /\ filter (fun kf => kf.1 ∈ example_dict ex) fs0 !! "per" = Some per_field
    /\ loaded = <["per" := set_vocab per_field (vocab tgt_field)]>
                  (filter (fun kf => kf.1 ∈ example_dict ex) fs0)
    /\ t' = t ++ [EvTorchLoad (vocab_file opt)].
Proof.
  intros Hload.
  unfold load_fields in Hload. unfold bind at 1 in Hload. simpl in Hload.
  unfold bind at 1 in Hload.
  destruct (vocab_files disk !! vocab_file opt) as [raw|];
    [|by unfold raise in Hload].
  unfold ret at 1 in Hload. unfold bind at 1, lift at 1 in Hload.
  destruct (load_fields_from_vocab raw data_type) as [fs0|e] eqn:Hfs0;
    [|done].
  unfold bind at 1 in Hload.
  assert (Hfilter :
    exists fs,
      (if bool_decide (fs0 = ∅) then ret fs0
       else match examples dataset with
            | [] => raise IndexError
            | ex :: _ => ret (filter (fun kf => kf.1 ∈ example_dict ex) fs0)
            end) (t ++ [EvTorchLoad (vocab_file opt)])
      = (Ok fs, t ++ [EvTorchLoad (vocab_file opt)])
      /\ (fs0 = ∅ /\ fs = ∅
          \/ exists ex rest, examples dataset = ex :: rest
               /\ fs = filter (fun kf => kf.1 ∈ example_dict ex) fs0)).
  { case_bool_decide as Hemp.
    - exists fs0. split; [reflexivity|]. by left.
    - destruct (examples dataset) as [|ex rest]; [by unfold raise in Hload|].
      eexists. split; [reflexivity|]. right. by exists ex, rest. }
  destruct Hfilter as (fs & Hf & Hcase). rewrite Hf in Hload.
  unfold bind at 1 in Hload.
  destruct (fs !! "tgt") as [tgt_field|] eqn:Htgt;
    [|by unfold raise in Hload].
  unfold ret at 1 in Hload. unfold bind at 1 in Hload.
  destruct (fs !! "per") as [per_field|] eqn:Hper;
    [|by unfold raise in Hload].
  unfold ret at 1 in Hload. unfold bind at 1 in Hload.
  destruct Hcase as [[_ ->]|(ex & rest & Hex & ->)]; [done|].
  exists raw, fs0, ex, rest, tgt_field, per_field.
  repeat split; try done.
  - destruct (if bool_decide (data_type = "text") then _ else _)
      as [[[]|e] t3]; unfold ret in Hload; by simplify_eq.
  - case_bool_decide.
    + unfold bind at 1 in Hload.
      destruct (vocab_len _ "src" _) as [[n1|e] t2] eqn:H1; [|done].
      apply vocab_len_ok in H1 as [-> _].
      unfold bind at 1 in Hload.
      destruct (vocab_len _ "tgt" _) as [[n2|e] t3] eqn:H2; [|done].
      apply vocab_len_ok in H2 as [-> _].
      unfold ret in Hload. by simplify_eq.
    + unfold bind at 1 in Hload.
      destruct (vocab_len _ "tgt" _) as [[n2|e] t3] eqn:H2; [|done].
      apply vocab_len_ok in H2 as [-> _].
      unfold ret in Hload. by simplify_eq.
Qed.

(** X17.  When [load_fields] returns, it has read the vocabulary file and
    nothing else, and the dictionary it returns holds exactly the fields of
    the vocabulary that are attributes of the dataset's first example; each
    of them other than ['per'] is the field the vocabulary loader built,
    unchanged. *)
Theorem load_fields_keeps_the_example_fields
    disk opt dataset data_type checkpoint t loaded t' :
  load_fields disk opt dataset data_type checkpoint t = (Ok loaded, t') ->
  t' = t ++ [EvTorchLoad (vocab_file opt)]
  /\ exists raw fs0 ex,
       vocab_files disk !! vocab_file opt = Some raw
       /\ load_fields_from_vocab raw data_type = Ok fs0
       /\ head (examples dataset) = Some ex
       /\ (forall k, is_Some (loaded !! k)
                     <-> is_Some (fs0 !! k) /\ k ∈ example_dict ex)
       /\ (forall k f, k <> "per" -> loaded !! k = Some f ->
                       fs0 !! k = Some f).
Proof.
  intros Hload.
  apply load_fields_inv in Hload
    as (raw & fs0 & ex & rest & tf & pf & Hraw & Hfs0 & Hex & Htgt & Hper
        & -> & ->).
  split; [reflexivity|]. exists raw, fs0, ex.
  split; [exact Hraw|]. split; [exact Hfs0|].
  split; [by rewrite Hex|]. split.
  - intros k. destruct (decide (k = "per")) as [->|Hk].
    + rewrite lookup_insert_eq.
      apply map_lookup_filter_Some in Hper as [Hp Hin]. simpl in Hin.
      split; [intros _; split; [eauto|done]|eauto].
    + rewrite lookup_insert_ne by done. split.
      * intros [f Hf]. apply map_lookup_filter_Some in Hf as [Hf Hin].
        eauto.
      * intros [[f Hf] Hin]. exists f. by apply map_lookup_filter_Some.
  - intros k f Hk Hf. rewrite lookup_insert_ne in Hf by done.
    by apply map_lookup_filter_Some in Hf as [Hf _].
Qed.

(** X18.  On a dataset without examples, [load_fields] ends in [IndexError]
    as soon as the vocabulary holds any field, having read the vocabulary
    file only. *)
Theorem load_fields_needs_an_example
    disk opt dataset data_type checkpoint raw fs0 :
  vocab_files disk !! vocab_file opt = Some raw ->
  load_fields_from_vocab raw data_type = Ok fs0 ->
  fs0 <> ∅ ->
  examples dataset = [] ->
  runs (load_fields disk opt dataset data_type checkpoint)
       (Raise IndexError) [EvTorchLoad (vocab_file opt)].
Proof.
  intros Hraw Hfs0 Hne Hex t. unfold load_fields.
  unfold bind at 1, emit at 1. unfold bind at 1. rewrite Hraw.
  unfold ret at 1. unfold bind at 1, lift at 1. rewrite Hfs0.
  unfold bind at 1. rewrite bool_decide_eq_false_2 by exact Hne.
  rewrite Hex. reflexivity.
Qed.

(** X19.  If the first example of the dataset has no ['per'] attribute,
    [load_fields] ends in [KeyError] for ['per'], even though the vocabulary
    defines that field: the field was dropped with the others the example
    does not name. *)
Theorem load_fields_needs_the_label
    disk opt dataset data_type checkpoint raw fs0 ex rest :
  vocab_files disk !! vocab_file opt = Some raw ->
  load_fields_from_vocab raw data_type = Ok fs0 ->
  is_Some (fs0 !! "tgt") ->
  examples dataset = ex :: rest ->
  attrs ex !! "per" = None ->
  runs (load_fields disk opt dataset data_type checkpoint)
       (Raise (KeyError "per")) [EvTorchLoad (vocab_file opt)].
Proof.
  intros Hraw Hfs0 [tf Htgt] Hex Hper t. unfold load_fields.
  unfold bind at 1, emit at 1. unfold bind at 1. rewrite Hraw.
  unfold ret at 1. unfold bind at 1, lift at 1. rewrite Hfs0.
  unfold bind at 1.
  rewrite bool_decide_eq_false_2
    by (intros ->; by rewrite lookup_empty in Htgt).
  rewrite Hex. unfold ret at 1. unfold bind at 1.
  assert (Hin : "tgt" ∈ example_dict ex).
  { unfold example_dict. set_solver. }
  rewrite (proj2 (map_lookup_filter_Some
                    (fun kf : string * Field => kf.1 ∈ example_dict ex)
                    fs0 "tgt" tf) (conj Htgt Hin)).
  unfold ret at 1. unfold bind at 1.
  assert (Hout : "per" ∉ example_dict ex).
  { unfold example_dict. rewrite elem_of_union, elem_of_dom.
    intros [Hin'|[v Hv]]; [|by rewrite Hper in Hv].
    apply elem_of_union in Hin'
      as [Hs%elem_of_singleton|Hs%elem_of_singleton]; discriminate Hs. }
  assert (Hnone : filter (fun kf : string * Field => kf.1 ∈ example_dict ex)
                         fs0 !! "per" = None).
  { apply map_lookup_filter_None. right. intros f _ Hf. by apply Hout. }
  rewrite Hnone. reflexivity.
Qed.

End FieldsMore.

Lemma load_fields_keeps_the_example_fields_witness :
  exists raw fs0 ex,
    vocab_files Demo.disk !! vocab_file Demo.opt = Some raw
    /\ load_fields_from_vocab (Onmt := Demo.lib) raw "text" = Ok fs0
    /\ head (examples Demo.shard_a) = Some ex
    /\ (forall k, is_Some (Demo.loaded_fields !! k)
                  <-> is_Some (fs0 !! k) /\ k ∈ example_dict ex)
    /\ (forall k f, k <> "per" -> Demo.loaded_fields !! k = Some f ->
                    fs0 !! k = Some f).
Proof.
  assert (Hload : load_fields (onmt := Demo.lib) Demo.disk Demo.opt
                    Demo.shard_a "text" None []
                  = (Ok Demo.loaded_fields, [EvTorchLoad "data.vocab.pt"])).
  { vm_compute. reflexivity. }
  exact (proj2 (load_fields_keeps_the_example_fields (onmt := Demo.lib)
                  _ _ _ _ _ _ _ _ Hload)).
Defined.

Lemma load_fields_needs_an_example_witness :
  runs (load_fields (onmt := Demo.lib) Demo.disk Demo.opt DemoMore.empty_set
                    "text" None)
       (Raise IndexError) [EvTorchLoad "data.vocab.pt"].
Proof.
  eapply (load_fields_needs_an_example (onmt := Demo.lib) Demo.disk Demo.opt
            DemoMore.empty_set "text" None Demo.raw_vocab).
  - vm_compute. reflexivity.
  - reflexivity.
  - intros Hemp. apply (f_equal (fun m : gmap string Field => m !! "tgt"))
      in Hemp. vm_compute in Hemp. discriminate Hemp.
  - reflexivity.
Defined.

Lemma load_fields_needs_the_label_witness :
  runs (load_fields (onmt := Demo.lib) Demo.disk Demo.opt
                    DemoMore.unlabelled_set "text" None)
       (Raise (KeyError "per")) [EvTorchLoad "data.vocab.pt"].
Proof.
  eapply (load_fields_needs_the_label (onmt := Demo.lib) Demo.disk Demo.opt
            DemoMore.unlabelled_set "text" None Demo.raw_vocab).
  - vm_compute. reflexivity.
  - reflexivity.
  - eexists. vm_compute. reflexivity.
  - reflexivity.
  - reflexivity.
Defined.

(** ** The first training file is read again by every epoch *)

Lemma writes_any {A} (P : Event -> Prop) (c : M A) :
  writes P c -> writes any_event c.
Proof. apply writes_impl. done. Qed.

Lemma starts_with_bind {A B} ev (c : M A) (k : A -> M B) :
  starts_with ev c -> (forall a, writes any_event (k a)) ->
  starts_with ev (bind c k).
Proof.
  intros (r & d & Hr) Hk. destruct r as [a|e].
  - destruct (Hk a) as (r' & d' & Hr' & _).
    exists r', (d ++ d').
    apply (runs_bind_ok c k a (ev :: d) r' d' Hr Hr').
  - exists (Raise e), d. by apply runs_bind_raise.
Qed.

Lemma starts_with_after_ret {A B} ev (a : A) (k : A -> M B) :
  starts_with ev (k a) -> starts_with ev (bind (ret a) k).
Proof.
  intros (r & d & Hr). exists r, d. intros t. unfold bind, ret. apply Hr.
Qed.

Lemma dataset_loader_starts disk pt ct :
  starts_with (EvTorchLoad pt) (dataset_loader disk pt ct).
Proof.
  unfold dataset_loader, torch_load_dataset.
  destruct (dataset_files disk !! pt) as [d|].
  - exists (Ok d), []. intros t. reflexivity.
  - exists (Raise (FileNotFoundError pt)), []. intros t. reflexivity.
Qed.

Lemma load_dataset_next_starts disk opt corpus_type p ps :
  corpus_type ∈ ["train"; "valid"] ->
  pending_paths disk opt (GenCreated corpus_type) = p :: ps ->
  starts_with (EvTorchLoad p)
              (load_dataset_next disk opt (GenCreated corpus_type)).
Proof.
  intros Hrole Hp. unfold pending_paths in Hp. unfold load_dataset_next.
  rewrite bool_decide_eq_true_2 in * by exact Hrole.
  destruct (sorted _) as [|pt rest]; simplify_eq;
    (apply starts_with_bind;
     [apply dataset_loader_starts|intros; apply writes_ret]).
Qed.

Lemma make_dataset_iter_starts disk opt corpus_type p ps fs o train :
  corpus_type ∈ ["train"; "valid"] ->
  pending_paths disk opt (GenCreated corpus_type) = p :: ps ->
  starts_with (EvTorchLoad p)
    (make_dataset_iter disk opt (generator_iter (GenCreated corpus_type))
                       fs o train).
Proof.
  intros Hrole Hp.
  unfold make_dataset_iter, DatasetIter_init, _next_dataset_iterator,
    datasets_next. cbn [datasets generator_iter buffered source].
  apply starts_with_bind; [|intros; writes_auto].
  apply starts_with_bind; [|intros; writes_auto].
  apply starts_with_bind; [|intros; writes_auto].
  by eapply load_dataset_next_starts.
Qed.

Section Reload.
Context `{onmt : Onmt}.

Lemma writes_train_epoch disk opt model_opt fs trainer epoch :
  writes any_event (train_epoch disk opt model_opt fs trainer epoch).
Proof.
  unfold train_epoch, load_dataset.
  apply writes_bind; [apply writes_ret|]. intros g.
  apply writes_bind;
    [eapply writes_any; apply writes_make_dataset_iter|]. intros it.
  apply writes_bind; [apply writes_emit; exact I|]. intros _.
  eapply writes_any. apply writes_train_epoch_tail.
Qed.

Lemma writes_train_epochs disk opt model_opt fs es :
  forall trainer,
    writes any_event (train_epochs disk opt model_opt fs trainer es).
Proof.
  induction es as [|e es IH]; intros trainer; simpl; [apply writes_ret|].
  apply writes_bind; [apply writes_train_epoch|]. intros tr. apply IH.
Qed.

Lemma writes_train_model
    disk opt model disc nli fs g_o d_o n_o dt model_opt :
  writes any_event
    (train_model disk opt model disc nli fs g_o d_o n_o dt model_opt).
Proof.
  unfold train_model. apply writes_bind; [writes_auto|]. intros v. cbv zeta.
  apply writes_bind; [apply writes_train_epochs|]. intros; apply writes_ret.
Qed.

Lemma writes_main_checkpoint disk opt :
  writes any_event (main_checkpoint disk opt).
Proof.
  unfold main_checkpoint. destruct (truthy (train_from opt)); [|writes_auto].
  apply writes_bind;
    [eapply writes_any; apply writes_torch_load_checkpoint|].
  intros ck. cbv zeta. apply writes_bind; [|intros; apply writes_ret].
  destruct (truthy _); [|apply writes_ret].
  apply writes_bind;
    [eapply writes_any; apply writes_torch_load_checkpoint|].
  intros; apply writes_ret.
Qed.

(** X20.  The dataset [main] loads to peek at the data type is not the one
    training uses: [main] begins by reading the first training file, and
    every epoch of [train_model] begins by reading that same file again from
    disk. *)
Theorem every_epoch_reloads_the_first_file
    disk opt model_opt fs trainer epoch :
  exists p,
    head (pending_paths disk opt (GenCreated "train")) = Some p
    /\ (exists r d, runs (main disk opt) r (EvTorchLoad p :: d))
    /\ (exists r d,
          runs (train_epoch disk opt model_opt fs trainer epoch) r
               (EvTorchLoad p :: d)).
Proof.
  assert (Hrole : "train" ∈ ["train"; "valid"]) by apply list_elem_of_here.
  destruct (pending_paths disk opt (GenCreated "train")) as [|p ps] eqn:Hp.
  { unfold pending_paths in Hp.
    rewrite bool_decide_eq_true_2 in Hp by exact Hrole.
    by destruct (sorted _). }
  exists p. split; [reflexivity|]. split.
  - unfold main, load_dataset. apply starts_with_after_ret.
    apply starts_with_bind; [by eapply load_dataset_next_starts|].
    intros r. apply writes_bind; [writes_auto|]. intros first. cbv zeta.
    apply writes_bind; [apply writes_main_checkpoint|]. intros ck.
    apply writes_bind; [eapply writes_any; apply writes_load_fields|].
    intros fs1.
    apply writes_bind; [eapply writes_any; apply writes_build_model|].
    intros ms.
    apply writes_bind; [eapply writes_any; apply writes_build_optim|].
    intros o1.
    apply writes_bind; [eapply writes_any; apply writes_build_optim|].
    intros o2.
    apply writes_bind; [eapply writes_any; apply writes_build_optim|].
    intros o3. apply writes_train_model.
  - unfold train_epoch, load_dataset. apply starts_with_after_ret.
    apply starts_with_bind; [by eapply make_dataset_iter_starts|].
    intros it. apply writes_bind; [apply writes_emit; exact I|]. intros _.
    eapply writes_any. apply writes_train_epoch_tail.
Qed.

End Reload.

(** ** Validation data is looked for after training *)

Section LateValidation.
Context `{onmt : Onmt}.

(** X21.  Let the training data be laid out plainly.  Missing validation
    data (no file on disk with the name of a numbered validation shard, and
    no [<data>.valid.pt]) does not stop an epoch before it has trained: the
    training phase runs first, and the epoch then ends in the missing-file
    error for [<data>.valid.pt], the last file it tried.  Validation was not
    run, the rate was not updated and no checkpoint was dropped. *)
Theorem missing_validation_data_found_after_training
    disk opt model_opt fs trainer epoch t it t1 bs t2 train_stats trainer1 :
  make_dataset_iter disk opt (generator_iter (GenCreated "train")) fs opt true
                    t = (Ok it, t1) ->
  consume disk opt it (t1 ++ [EvTrain epoch]) = (Ok bs, t2) ->
  trainer_train trainer bs epoch = Ok (train_stats, trainer1) ->
  n_batch train_stats <> 0 ->
  plain_layout disk opt "train" ->
  no_shard_on_disk disk opt "valid" = true ->
  missing disk (single_file opt "valid") = true ->
  train_epoch disk opt model_opt fs trainer epoch t
  = (Raise (FileNotFoundError (single_file opt "valid")),
     t2 ++ [EvTorchLoad (single_file opt "valid")])
  /\ exists d, t2 = t ++ d /\ phases d = [Training epoch].
Proof.
  intros Hmk Hcons Htrain Hnz _ Hglob Hfile.
  apply no_shard_on_disk_glob in Hglob.
  apply missing_dataset in Hfile. split.
  - unfold train_epoch.
    unfold bind at 1, load_dataset at 1, ret at 1.
    unfold bind at 1. rewrite Hmk.
    unfold bind at 1, emit at 1. unfold bind at 1. rewrite Hcons.
    unfold bind at 1, lift at 1. rewrite Htrain. cbn [fst snd].
    unfold bind at 1. rewrite (proj2 (Z.eqb_neq _ _) Hnz).
    unfold ret at 1. unfold bind at 1, load_dataset at 1, ret at 1.
    unfold bind at 1.
    unfold make_dataset_iter, DatasetIter_init. unfold bind at 1.
    rewrite next_dataset_iterator_unfold.
    unfold datasets_next. cbn [generator_iter datasets buffered source].
    unfold bind at 1. unfold load_dataset_next.
    rewrite bool_decide_eq_true_2
      by (apply list_elem_of_further, list_elem_of_here).
    rewrite Hglob, sorted_nil.
    unfold dataset_loader, torch_load_dataset, bind, emit, raise.
    by rewrite Hfile.
  - destruct (writes_make_dataset_iter disk opt
                (generator_iter (GenCreated "train")) fs opt true)
      as (r1 & d1 & Hr1 & Hd1).
    rewrite Hr1 in Hmk. injection Hmk as -> <-.
    destruct (writes_consume disk opt it) as (r2 & d2 & Hr2 & Hd2).
    rewrite Hr2 in Hcons. injection Hcons as -> <-.
    exists (d1 ++ [EvTrain epoch] ++ d2). split; [by rewrite <- !app_assoc|].
    rewrite !phases_app, (phases_data d1 Hd1), (phases_data d2 Hd2).
    reflexivity.
Qed.

End LateValidation.

Lemma missing_validation_data_found_after_training_witness :
  exists t2,
    train_epoch (onmt := Demo.lib) Demo.disk_11 Demo.opt Demo.opt
                Demo.loaded_fields tt 1 []
    = (Raise (FileNotFoundError "data.valid.pt"),
       t2 ++ [EvTorchLoad "data.valid.pt"])
    /\ exists d, t2 = [] ++ d /\ phases d = [Training 1].
Proof.
  eexists.
  eapply (missing_validation_data_found_after_training (onmt := Demo.lib)
            Demo.disk_11 Demo.opt Demo.opt Demo.loaded_fields tt 1 []).
  - vm_compute. reflexivity.
  - vm_compute. reflexivity.
  - reflexivity.
  - vm_compute. discriminate.
  - split; vm_compute; reflexivity.
  - vm_compute. reflexivity.
  - vm_compute. reflexivity.
Defined.

(** ** Shards with one-digit indices *)

Lemma strip_prefix_self p s : strip_prefix p (p +:+ s) = Some s.
Proof.
  induction p as [|a p IH]; simpl; [done|]. by rewrite Ascii.eqb_refl.
Qed.

Lemma compare_common_prefix p a b :
  String.compare (p +:+ a) (p +:+ b) = String.compare a b.
Proof.
  induction p as [|c p IH]; simpl; [done|].
  unfold Ascii.compare. by rewrite N.compare_refl.
Qed.

Lemma shard_name_le lit d1 d2 :
  String.le (shard_name lit d1) (shard_name lit d2) ->
  (digit_value d1 <= digit_value d2)%N.
Proof.
  unfold String.le, String.leb, shard_name. rewrite compare_common_prefix.
  simpl. unfold Ascii.compare, digit_value.
  destruct (N.compare_spec (N_of_ascii d1) (N_of_ascii d2)); simpl;
    intros Hle; [lia|lia|done].
Qed.

Lemma one_digit_names_in_order lit :
  forall l,
    Forall (fun p => exists d, p = shard_name lit d) l ->
    StronglySorted String.le l ->
    exists ds, l = map (shard_name lit) ds
               /\ StronglySorted
                    (fun a b => (digit_value a <= digit_value b)%N) ds.
Proof.
  induction l as [|p l IH]; intros Hform Hsorted.
  - exists []. split; [done|constructor].
  - apply Forall_cons in Hform as [[d ->] Hform].
    apply StronglySorted_inv in Hsorted as [Hsorted Hall].
    destruct (IH Hform Hsorted) as (ds & -> & Hds).
    exists (d :: ds). split; [done|]. constructor; [exact Hds|].
    apply Forall_forall. intros d' Hd'. apply (shard_name_le lit).
    rewrite Forall_forall in Hall. apply Hall.
    by apply (list_elem_of_fmap_2 (shard_name lit)).
Qed.

(** X22.  Let the data of a role be laid out plainly.  When every numbered
    shard of the role has a one-digit index (at most the ten shards 0 to 9),
    [load_dataset] works through the shards in ascending order of their
    indices. *)
Theorem one_digit_shards_in_index_order disk opt corpus_type :
  corpus_type ∈ ["train"; "valid"] ->
  plain_layout disk opt corpus_type ->
  (forall p, p ∈ glob disk (shard_pattern_prefix opt corpus_type) ->
             exists d, p = shard_name (shard_pattern_prefix opt corpus_type) d)
  ->
  exists ds,
    sorted (glob disk (shard_pattern_prefix opt corpus_type))
    = map (shard_name (shard_pattern_prefix opt corpus_type)) ds
    /\ Forall (fun d => is_digit d = true) ds
    /\ StronglySorted (fun a b => (digit_value a <= digit_value b)%N) ds.
Proof.
  intros _ _ Hform.
  set (lit := shard_pattern_prefix opt corpus_type) in *.
  assert (Hperm : sorted (glob disk lit) ≡ₚ glob disk lit)
    by apply merge_sort_Permutation.
  destruct (one_digit_names_in_order lit (sorted (glob disk lit)))
    as (ds & Heq & Hds).
  { apply Forall_forall. intros p Hp. rewrite Hperm in Hp. by apply Hform. }
  { apply (StronglySorted_merge_sort String.le). }
  exists ds. split; [exact Heq|]. split; [|exact Hds].
  apply Forall_forall. intros d Hd.
  assert (Hin : shard_name lit d ∈ glob disk lit).
  { rewrite <- Hperm, Heq. by apply list_elem_of_fmap_2. }
  apply elem_of_glob in Hin as [Hm _].
  unfold shard_match, shard_name in Hm.
  rewrite strip_prefix_self in Hm.
  by destruct (is_digit d).
Qed.

Lemma one_digit_shards_in_index_order_witness :
  exists ds,
    sorted (glob Demo.disk (shard_pattern_prefix Demo.opt "train"))
    = map (shard_name (shard_pattern_prefix Demo.opt "train")) ds
    /\ Forall (fun d => is_digit d = true) ds
    /\ StronglySorted (fun a b => (digit_value a <= digit_value b)%N) ds.
Proof.
  apply (one_digit_shards_in_index_order Demo.disk Demo.opt "train");
    [apply list_elem_of_here|split; vm_compute; reflexivity|].
  intros p Hp.
  remember (glob Demo.disk (shard_pattern_prefix Demo.opt "train")) as l
    eqn:Hl.
  vm_compute in Hl. subst l.
  repeat (apply elem_of_cons in Hp as [->|Hp];
          [first [exists "0"%char; reflexivity
                 |exists "1"%char; reflexivity]|]).
  by apply elem_of_nil in Hp.
Defined.
